(** * ottbot: wallet, purchase, payment reconciliation and expiry

    A shallow embedding of the core of the Telegram shop bot
    ([bot.py], [razorpay_webhook.py], [config.py]): the MongoDB collections as
    lists in natural (insertion) order, every [await]-ed database call as one
    atomic operation, and every handler as a program over those operations.
    A program can be run to completion on its own ([run]) or interleaved with
    another one at its [await] points ([interleave]).

    Modelling conventions.
    - Python floats ([balance_inr], prices, totals) are exact rationals [Q];
      float rounding is not modelled.
    - [ObjectId()] is a process-wide counter of fresh identifiers.
    - Telegram traffic (messages sent, edited or deleted) is left out: it
      never touches the database.  Log lines that mark an exit of a handler
      are kept as [logger] operations.
    - [utcnow()] and the results of the payment providers' HTTP APIs are
      inputs of the handlers.
    - Ids in callback data and webhook bodies stand for the values they
      denote.  Where the code compares their text or passes a value on
      without checking its type, the definition says so and takes the
      difference as an input ([render_product_detail],
      [Untyped.oxapay_webhook]). *)

From Stdlib Require Import List String Ascii ZArith QArith Qround Bool Lia Arith Sorted.
Import ListNotations.
Close Scope Q_scope.
Open Scope string_scope.
Open Scope list_scope.

Set Implicit Arguments.

(** ** Documents *)

Definition ObjectId := nat.

(** The values the code writes to [payments.status]:
    ["await_proof"], ["pending"], ["approved"], ["rejected"], ["cancelled"],
    ["expired"]. *)
Inductive Status := AwaitProof | Pending | Approved | Rejected | Cancelled | Expired.

Definition status_eqb (a b : Status) : bool :=
  match a, b with
  | AwaitProof, AwaitProof | Pending, Pending | Approved, Approved
  | Rejected, Rejected | Cancelled, Cancelled | Expired, Expired => true
  | _, _ => false
  end.

(** [users.flow]: only the flow types the modelled handlers read. *)
Inductive Flow :=
| flow_await_amount (method : string)
| flow_await_proof (payment_id : ObjectId)
| flow_admin_user_balance (target_id : Z) (op : string)
| flow_other (ftype : string).

Record Cart := { cart_product_id : ObjectId; cart_qty : Z }.

Record User := {
  u_id : Z;                       (* "_id", the Telegram user id *)
  balance_inr : Q;
  banned : bool;
  flow : option Flow;
  cart : option Cart }.

Record Product := {
  prod_id : ObjectId;
  prod_name : string;
  price_usd : option Q;
  price_inr : option Q;
  enabled : bool }.

Inductive StockStatus := available | sold.

Record Stock := {
  s_id : ObjectId;
  s_product_id : ObjectId;
  email : option string;
  password : option string;
  s_status : StockStatus;
  sold_to : option Z;
  sold_at : option Z;
  created_at : Z }.

Record Order := {
  o_id : ObjectId;
  o_user_id : Z;
  o_product_id : ObjectId;
  o_product_name : string;
  o_qty : Z;
  total_usd : Q;
  delivered : list string;
  o_created_at : Z }.

Record Payment := {
  p_id : ObjectId;
  p_user_id : Z;
  p_method : string;
  p_status : Status;
  p_amount_usd : option Q;
  p_amount_inr : option Z;
  oxapay_track_id : option string;
  razorpay_payment_id : option string;   (* [None]: the field is null or absent *)
  is_razorpay : bool;
  p_auto : bool;
  proof_photo : option string }.

(** A discount rule as stored; a field that [int(...)] rejects is [None]. *)
Record Rule := { min_qty : option Z; percent : option Z }.

Record Discount := { d_product_id : ObjectId; rules : list Rule }.

(** [RAZORPAY_STATE[user_id]], the in-process dictionary of shown QR codes. *)
Record QrState := { qr_message_id : Z; qr_code_id : string; qr_amount : Q }.

(** ** The store: the database and the process memory *)

Record Store := {
  users : list User;
  products : list Product;
  stocks : list Stock;
  orders : list Order;
  payments : list Payment;
  discounts : list Discount;
  RAZORPAY_STATE : list (Z * QrState);
  next_oid : ObjectId }.

Definition empty_store : Store :=
  {| users := []; products := []; stocks := []; orders := []; payments := [];
     discounts := []; RAZORPAY_STATE := []; next_oid := 0 |}.

Definition set_users (s : Store) (us : list User) : Store :=
  {| users := us; products := products s; stocks := stocks s; orders := orders s;
     payments := payments s; discounts := discounts s;
     RAZORPAY_STATE := RAZORPAY_STATE s; next_oid := next_oid s |}.

Definition set_stocks (s : Store) (ss : list Stock) : Store :=
  {| users := users s; products := products s; stocks := ss; orders := orders s;
     payments := payments s; discounts := discounts s;
     RAZORPAY_STATE := RAZORPAY_STATE s; next_oid := next_oid s |}.

Definition set_orders (s : Store) (os : list Order) : Store :=
  {| users := users s; products := products s; stocks := stocks s; orders := os;
     payments := payments s; discounts := discounts s;
     RAZORPAY_STATE := RAZORPAY_STATE s; next_oid := next_oid s |}.

Definition set_payments (s : Store) (ps : list Payment) : Store :=
  {| users := users s; products := products s; stocks := stocks s; orders := orders s;
     payments := ps; discounts := discounts s;
     RAZORPAY_STATE := RAZORPAY_STATE s; next_oid := next_oid s |}.

Definition set_discounts (s : Store) (ds : list Discount) : Store :=
  {| users := users s; products := products s; stocks := stocks s; orders := orders s;
     payments := payments s; discounts := ds;
     RAZORPAY_STATE := RAZORPAY_STATE s; next_oid := next_oid s |}.

Definition set_state (s : Store) (m : list (Z * QrState)) : Store :=
  {| users := users s; products := products s; stocks := stocks s; orders := orders s;
     payments := payments s; discounts := discounts s;
     RAZORPAY_STATE := m; next_oid := next_oid s |}.

Definition set_next_oid (s : Store) (n : ObjectId) : Store :=
  {| users := users s; products := products s; stocks := stocks s; orders := orders s;
     payments := payments s; discounts := discounts s;
     RAZORPAY_STATE := RAZORPAY_STATE s; next_oid := n |}.

(** ** Queries and updates *)

Definition opt_string_eqb (a b : option string) : bool :=
  match a, b with
  | Some x, Some y => String.eqb x y
  | None, None => true
  | _, _ => false
  end.

(** The filters the code passes to [payments.find_one] / [update_one]. *)
Inductive PaymentQuery :=
| by_oxapay_track_id (track_id : string)
    (* {"oxapay_track_id": track_id} *)
| by_oxapay_track_id_not_approved (track_id : string)
    (* {"oxapay_track_id": track_id, "status": {"$ne": "approved"}} *)
| by_oxapay_track_operator (matches : option string -> bool)
    (* {"oxapay_track_id": v} for a value v that is no string: [matches] tells
       which stored values of the field ([None]: the key is absent) the
       filter selects *)
| by_oxapay_track_operator_not_approved (matches : option string -> bool)
    (* the same with "status": {"$ne": "approved"} *)
| by_razorpay_payment_id (payment_id : option string)
    (* {"razorpay_payment_id": payment_id}; null also matches an absent key *)
| by_id (oid : ObjectId)
    (* {"_id": oid} *)
| by_id_user (oid : ObjectId) (user_id : Z).
    (* {"_id": oid, "user_id": user_id} *)

Definition payment_matches (q : PaymentQuery) (p : Payment) : bool :=
  match q with
  | by_oxapay_track_id t => opt_string_eqb (oxapay_track_id p) (Some t)
  | by_oxapay_track_id_not_approved t =>
      opt_string_eqb (oxapay_track_id p) (Some t) && negb (status_eqb (p_status p) Approved)
  | by_oxapay_track_operator f => f (oxapay_track_id p)
  | by_oxapay_track_operator_not_approved f =>
      f (oxapay_track_id p) && negb (status_eqb (p_status p) Approved)
  | by_razorpay_payment_id o => opt_string_eqb (razorpay_payment_id p) o
  | by_id oid => Nat.eqb (p_id p) oid
  | by_id_user oid uid => Nat.eqb (p_id p) oid && Z.eqb (p_user_id p) uid
  end.

(** The [$set] documents the code applies to a payment. *)
Inductive PaymentUpdate :=
| set_status_auto            (* {"status": "approved", "auto": True} *)
| set_status (st : Status)   (* {"status": st} (and review or time stamps) *)
| set_pending_proof (file_id : string).
                             (* {"status": "pending", "proof_photo": file_id, ...} *)

Definition with_status (p : Payment) (st : Status) (au : bool) (ph : option string) : Payment :=
  {| p_id := p_id p; p_user_id := p_user_id p; p_method := p_method p; p_status := st;
     p_amount_usd := p_amount_usd p; p_amount_inr := p_amount_inr p;
     oxapay_track_id := oxapay_track_id p; razorpay_payment_id := razorpay_payment_id p;
     is_razorpay := is_razorpay p; p_auto := au; proof_photo := ph |}.

Definition apply_payment_update (u : PaymentUpdate) (p : Payment) : Payment :=
  match u with
  | set_status_auto => with_status p Approved true (proof_photo p)
  | set_status st => with_status p st (p_auto p) (proof_photo p)
  | set_pending_proof f => with_status p Pending (p_auto p) (Some f)
  end.

(** The update documents the code applies to a user. *)
Inductive UserUpdate :=
| inc_balance_inr (delta : Q)        (* {"$inc": {"balance_inr": delta}} *)
| set_flow (f : option Flow)         (* {"$set": {"flow": f}} *)
| set_banned (b : bool)              (* {"$set": {"banned": b}} *)
| set_cart (c : Cart).               (* {"$set": {"cart": c}} *)

Definition apply_user_update (up : UserUpdate) (u : User) : User :=
  match up with
  | inc_balance_inr d =>
      {| u_id := u_id u; balance_inr := Qplus (balance_inr u) d; banned := banned u;
         flow := flow u; cart := cart u |}
  | set_flow f =>
      {| u_id := u_id u; balance_inr := balance_inr u; banned := banned u;
         flow := f; cart := cart u |}
  | set_banned b =>
      {| u_id := u_id u; balance_inr := balance_inr u; banned := b;
         flow := flow u; cart := cart u |}
  | set_cart c =>
      {| u_id := u_id u; balance_inr := balance_inr u; banned := banned u;
         flow := flow u; cart := Some c |}
  end.

(** [update_one]: the first document (in natural order) that matches is
    replaced; the count is the number of documents matched (0 or 1). *)
Fixpoint update_first {A : Type} (f : A -> bool) (g : A -> A) (l : list A) : list A * nat :=
  match l with
  | [] => ([], 0)
  | x :: r =>
      if f x then (g x :: r, 1)
      else let '(r', n) := update_first f g r in (x :: r', n)
  end.

Definition user_has_id (uid : Z) (u : User) : bool := Z.eqb (u_id u) uid.

Definition mark_sold (uid : Z) (now : Z) (st : Stock) : Stock :=
  {| s_id := s_id st; s_product_id := s_product_id st; email := email st;
     password := password st; s_status := sold; sold_to := Some uid;
     sold_at := Some now; created_at := created_at st |}.

Definition stock_is_available (pid : ObjectId) (st : Stock) : bool :=
  Nat.eqb (s_product_id st) pid && match s_status st with available => true | sold => false end.

Fixpoint mem_oid (x : ObjectId) (l : list ObjectId) : bool :=
  match l with
  | [] => false
  | y :: r => Nat.eqb x y || mem_oid x r
  end.

Fixpoint state_pop (uid : Z) (m : list (Z * QrState)) : list (Z * QrState) :=
  match m with
  | [] => []
  | (k, v) :: r => if Z.eqb k uid then state_pop uid r else (k, v) :: state_pop uid r
  end.

Fixpoint state_get (uid : Z) (m : list (Z * QrState)) : option QrState :=
  match m with
  | [] => None
  | (k, v) :: r => if Z.eqb k uid then Some v else state_get uid r
  end.

(** ** Atomic operations

    One constructor per database call (or per access to the process memory)
    the modelled handlers make; the index is the type of the value the call
    returns to the handler. *)

Inductive DbOp : Type -> Type :=
| users_upsert (uid : Z) : DbOp unit
    (* upsert_user: update_one(..., upsert=True) with $setOnInsert balance_inr 0 *)
| users_find_one (uid : Z) : DbOp (option User)
| users_update_one (uid : Z) (up : UserUpdate) : DbOp nat
| products_find_one_enabled (oid : ObjectId) : DbOp (option Product)
| stocks_find_available (pid : ObjectId) (limit : nat) : DbOp (list Stock)
    (* stocks.find({product_id, status: available}).limit(n).to_list(n): no sort *)
| stocks_update_many_sold (ids : list ObjectId) (uid : Z) (now : Z) : DbOp unit
| orders_insert_one (o : Order) : DbOp unit
| payments_find_one (q : PaymentQuery) : DbOp (option Payment)
| payments_update_one (q : PaymentQuery) (u : PaymentUpdate) : DbOp nat
| payments_insert_one (p : Payment) : DbOp unit
| discounts_find_one (pid : ObjectId) : DbOp (option Discount)
| new_ObjectId : DbOp ObjectId
| state_dict_get (uid : Z) : DbOp (option QrState)
| state_dict_set (uid : Z) (v : QrState) : DbOp unit
| state_dict_pop (uid : Z) : DbOp unit
| asyncio_sleep (seconds : Z) : DbOp unit
| logger (line : string) : DbOp unit.

Definition new_user (uid : Z) : User :=
  {| u_id := uid; balance_inr := 0%Q; banned := false; flow := None; cart := None |}.

Definition exec {B : Type} (op : DbOp B) (s : Store) : Store * B :=
  match op in DbOp T return Store * T with
  | users_upsert uid =>
      match find (user_has_id uid) (users s) with
      | Some _ => (s, tt)
      | None => (set_users s (users s ++ [new_user uid]), tt)
      end
  | users_find_one uid => (s, find (user_has_id uid) (users s))
  | users_update_one uid up =>
      let r := update_first (user_has_id uid) (apply_user_update up) (users s) in
      (set_users s (fst r), snd r)
  | products_find_one_enabled oid =>
      (s, find (fun p => Nat.eqb (prod_id p) oid && enabled p) (products s))
  | stocks_find_available pid limit =>
      (s, firstn limit (filter (stock_is_available pid) (stocks s)))
  | stocks_update_many_sold ids uid now =>
      (set_stocks s
         (map (fun st => if mem_oid (s_id st) ids then mark_sold uid now st else st)
              (stocks s)), tt)
  | orders_insert_one o => (set_orders s (orders s ++ [o]), tt)
  | payments_find_one q => (s, find (payment_matches q) (payments s))
  | payments_update_one q u =>
      let r := update_first (payment_matches q) (apply_payment_update u) (payments s) in
      (set_payments s (fst r), snd r)
  | payments_insert_one p => (set_payments s (payments s ++ [p]), tt)
  | discounts_find_one pid =>
      (s, find (fun d => Nat.eqb (d_product_id d) pid) (discounts s))
  | new_ObjectId => (set_next_oid s (S (next_oid s)), next_oid s)
  | state_dict_get uid => (s, state_get uid (RAZORPAY_STATE s))
  | state_dict_set uid v =>
      (set_state s ((uid, v) :: state_pop uid (RAZORPAY_STATE s)), tt)
  | state_dict_pop uid => (set_state s (state_pop uid (RAZORPAY_STATE s)), tt)
  | asyncio_sleep _ => (s, tt)
  | logger _ => (s, tt)
  end.

(** ** Handlers as programs *)

Inductive Prog (A : Type) : Type :=
| Ret (a : A)
| Do {B : Type} (op : DbOp B) (k : B -> Prog A).

Arguments Ret {A} a.
Arguments Do {A B} op k.

Fixpoint bind {A C : Type} (m : Prog A) (f : A -> Prog C) : Prog C :=
  match m with
  | Ret a => f a
  | Do op k => Do op (fun b => bind (k b) f)
  end.

Declare Scope prog_scope.
Delimit Scope prog_scope with prog.
Notation "x <- op ;; k" := (Do op (fun x => k))
  (at level 61, op at next level, right associativity) : prog_scope.
Notation "x <<- m ;; k" := (bind m (fun x => k))
  (at level 61, m at next level, right associativity) : prog_scope.
Open Scope prog_scope.

(** What a run leaves behind: each operation executed, with its result. *)
Inductive Event : Type :=
| ev {B : Type} (op : DbOp B) (result : B).

Definition Trace := list Event.

(** Sequential semantics: the handler runs to completion, alone. *)
Fixpoint run {A : Type} (p : Prog A) (s : Store) : Store * A * Trace :=
  match p with
  | Ret a => (s, a, [])
  | Do op k =>
      let '(s1, b) := exec op s in
      let '(s2, a, t) := run (k b) s1 in
      (s2, a, ev op b :: t)
  end.

Definition result_store {A : Type} (r : Store * A * Trace) : Store := fst (fst r).
Definition result_value {A : Type} (r : Store * A * Trace) : A := snd (fst r).
Definition result_trace {A : Type} (r : Store * A * Trace) : Trace := snd r.

(** Interleaved semantics of two tasks on one event loop: a task gives up
    control only at an [await], so one scheduling step executes one
    operation of the chosen task together with the pure code after it. *)
Definition step {A : Type} (p : Prog A) (s : Store) : Store * Prog A * Trace :=
  match p with
  | Ret a => (s, Ret a, [])
  | Do op k => let '(s1, b) := exec op s in (s1, k b, [ev op b])
  end.

(** [sched]: [true] lets the first task take a step, [false] the second;
    when the schedule is used up the first task finishes, then the second. *)
Fixpoint interleave {A C : Type} (sched : list bool) (p1 : Prog A) (p2 : Prog C)
    (s : Store) : Store * (A * C) * Trace :=
  match sched with
  | [] =>
      let '(s1, a, t1) := run p1 s in
      let '(s2, c, t2) := run p2 s1 in
      (s2, (a, c), t1 ++ t2)
  | true :: r =>
      let '(s1, p1', t1) := step p1 s in
      let '(s2, ac, t2) := interleave r p1' p2 s1 in
      (s2, ac, t1 ++ t2)
  | false :: r =>
      let '(s1, p2', t1) := step p2 s in
      let '(s2, ac, t2) := interleave r p1 p2' s1 in
      (s2, ac, t1 ++ t2)
  end.

(** A wallet credit or debit seen in a trace: an executed
    [users.update_one(..., {"$inc": {"balance_inr": ...}})]. *)
Definition is_balance_inc (e : Event) : bool :=
  match e with
  | ev (users_update_one _ (inc_balance_inr _)) _ => true
  | ev _ _ => false
  end.

Definition balance_incs (t : Trace) : nat := List.length (filter is_balance_inc t).

(** ** Configuration and helpers *)

(** The values of [config.py] the handlers read. *)
Record Config := {
  RAZORPAY_WEBHOOK_SECRET : string;
  USD_TO_INR_RATE : Q;
  ADMIN_IDS : list Z;
  PAYMENTS : list string          (* the keys of config.PAYMENTS *) }.

Definition OWNER_ADMIN_ID : Z := 6670166083.

(** The webhook endpoints' JSON answer. *)
Record Response := { ok : bool; error : option string; msg : option string }.

Definition ok_true : Response := {| ok := true; error := None; msg := None |}.
Definition ok_false (e : string) : Response := {| ok := false; error := Some e; msg := None |}.
Definition ok_msg (m : string) : Response := {| ok := true; error := None; msg := Some m |}.

(** Python's [int(x)] on a float: truncation towards zero. *)
Definition int_of_float (x : Q) : Z :=
  if Z.leb 0 (Qnum x) then Qfloor x else Qceiling x.

Definition float_of_int (z : Z) : Q := inject_Z z.

Definition float_lt (a b : Q) : bool := negb (Qle_bool b a).

Definition lower_ascii (c : ascii) : ascii :=
  let n := nat_of_ascii c in
  if Nat.leb 65 n && Nat.leb n 90 then ascii_of_nat (n + 32) else c.

(** [str.lower()], on the ASCII range (enough to decide membership in a list
    of lower-case ASCII words without the letter k). *)
Fixpoint lower (s : string) : string :=
  match s with
  | EmptyString => EmptyString
  | String c r => String (lower_ascii c) (lower r)
  end.

Fixpoint mem_string (x : string) (l : list string) : bool :=
  match l with
  | [] => false
  | y :: r => String.eqb x y || mem_string x r
  end.

Fixpoint mem_Z (x : Z) (l : list Z) : bool :=
  match l with
  | [] => false
  | y :: r => Z.eqb x y || mem_Z x r
  end.

Definition nl : string := String (ascii_of_nat 10) EmptyString.

(** A [str] of ASCII characters only.  The header value reaches the handler
    decoded as Latin-1, one character per byte. *)
Fixpoint is_ascii (s : string) : bool :=
  match s with
  | EmptyString => true
  | String c r => Nat.ltb (nat_of_ascii c) 128 && is_ascii r
  end.

(** [hmac.compare_digest(expected, signature)] on a digest of hexadecimal
    digits: [TypeError] for a signature that is not ASCII. *)
Definition compare_digest_raises (signature : string) : bool := negb (is_ascii signature).

Definition compare_digest_error : string :=
  "comparing strings with non-ASCII characters is not supported".

(** [money_int]: [Decimal(str(amount).strip())], rejected when not positive,
    then [int(dec)].  The argument is the text read as a decimal, if it is one. *)
Definition money_int (dec : option Q) : option Z :=
  match dec with
  | None => None
  | Some d => if Qle_bool d 0 then None else Some (int_of_float d)
  end.

(** ** Payloads and inputs *)

(** The OxaPay callback body, as [oxapay_webhook] reads it, for a
    [track_id] that is a JSON string or absent: [data.get("track_id")],
    [str(data.get("status", ""))] and [data.get("amount")] ([None] when it is
    not an int or a float).  The handler does not check the type of
    [track_id]; the other JSON values it may hold are followed in
    [Untyped.oxapay_webhook] below. *)
Record OxaPayData := {
  data_track_id : option string;
  data_status : string;
  data_amount : option Q }.

(** [notes.get('telegram_user_id')] followed by [int(user_id)]. *)
Inductive UserNote :=
| note_absent                (* missing or falsy: the handler returns *)
| note_not_int               (* [int(user_id)] raises: caught by the handler *)
| note_user (uid : Z).

Record RzpEntity := {
  ent_id : option string;          (* entity.get('id') *)
  ent_amount : Z;                  (* entity.get('amount', 0), in paise *)
  ent_telegram_user_id : UserNote  (* entity.get('notes', {}).get('telegram_user_id') *) }.

(** The Razorpay webhook body after [req.json()]. *)
Record RzpData := {
  rzp_event : option string;
  payment_entity : RzpEntity;      (* payload.payment.entity *)
  qr_code_entity : RzpEntity       (* payload.qr_code.entity *) }.

(** A text message, as the two parsers of [on_text] read it. *)
Record TextMsg := {
  text_float : option Q;     (* float(text with the currency signs and commas removed) *)
  text_decimal : option Q    (* Decimal(text.strip()) *) }.

(** ** The handlers *)

Section Handlers.

(** [hmac.new(secret, payload, hashlib.sha256).hexdigest()], from Python's
    standard library. *)
Variable hmac_sha256_hexdigest : string -> string -> string.

Variable config : Config.

Definition is_admin (user_id : Z) : bool :=
  Z.eqb user_id OWNER_ADMIN_ID || mem_Z user_id (ADMIN_IDS config).

(** [razorpay_webhook.verify_webhook_signature], when it returns.  With a
    secret configured it ends in [hmac.compare_digest(expected, signature)],
    which raises [TypeError] on a [str] with a non-ASCII character
    ([compare_digest_raises]); [expected] is a string of hexadecimal digits,
    so this happens only for a signature that differs from it. *)
Definition verify_webhook_signature (payload signature : string) : bool :=
  if String.eqb (RAZORPAY_WEBHOOK_SECRET config) "" then true
  else String.eqb (hmac_sha256_hexdigest (RAZORPAY_WEBHOOK_SECRET config) payload) signature.

(** [upsert_user]: the document read back after the upsert. *)
Definition upsert_user (uid : Z) : Prog User :=
  _ <- users_upsert uid ;;
  doc <- users_find_one uid ;;
  Ret (match doc with Some u => u | None => new_user uid end).

(** *** Payment reconciliation: OxaPay ([bot.oxapay_webhook]) *)

(** [int(amount_usd * usd_to_inr)].  Floats stand here for the rationals
    they denote and the product is exact; the code rounds the product to
    binary64 before [int] truncates it.  The two agree when the exact product
    is a binary64 number -- a whole amount times a whole rate below 2^53, for
    one -- and can differ by one credit otherwise.  A credit beyond 64 bits
    cannot be written: the driver raises on it. *)
Definition oxapay_credit (payment : Payment) : Z :=
  let amount_usd := match p_amount_usd payment with Some a => a | None => 0%Q end in
  int_of_float (Qmult amount_usd (USD_TO_INR_RATE config)).

(** "Only credit wallet if we successfully updated the status". *)
Definition oxapay_credit_wallet (payment : Payment) : Prog Response :=
  _ <- users_update_one (p_user_id payment)
         (inc_balance_inr (float_of_int (oxapay_credit payment))) ;;
  _ <- logger "OxaPay payment processed" ;;
  Ret ok_true.

(** "Update payment status FIRST (atomic operation)". *)
Definition oxapay_approve (track_id : string) (payment : Payment) : Prog Response :=
  modified_count <- payments_update_one
                      (by_oxapay_track_id_not_approved track_id) set_status_auto ;;
  if Nat.ltb 0 modified_count then oxapay_credit_wallet payment else Ret ok_true.

(** The security layers and the duplicate protection, on a track id that
    passed the payload checks. *)
Definition oxapay_settle (track_id : string) : Prog Response :=
  found <- payments_find_one (by_oxapay_track_id track_id) ;;
  match found with
  | None =>
      _ <- logger "OxaPay webhook with invalid track_id" ;;
      Ret (ok_false "payment not found")
  | Some payment =>
      if negb (String.eqb (p_method payment) "oxapay") then
        _ <- logger "OxaPay webhook for non-oxapay payment" ;;
        Ret (ok_false "invalid payment method")
      else if status_eqb (p_status payment) Approved then
        _ <- logger "OxaPay payment already processed" ;;
        Ret (ok_msg "already processed")
      else oxapay_approve track_id payment
  end.

Definition oxapay_webhook (data : OxaPayData) : Prog Response :=
  let status := lower (data_status data) in
  match data_track_id data with
  | None => _ <- logger "OxaPay webhook missing track_id" ;; Ret (ok_false "missing track_id")
  | Some track_id =>
    if String.eqb track_id "" then
      _ <- logger "OxaPay webhook missing track_id" ;; Ret (ok_false "missing track_id")
    else
      match data_amount data with
      | None => _ <- logger "OxaPay webhook invalid amount" ;; Ret (ok_false "invalid amount")
      | Some _ =>
        if negb (mem_string status ["paid"; "confirming"; "completed"]) then
          _ <- logger "OxaPay webhook ignored status" ;; Ret (ok_false "invalid status")
        else oxapay_settle track_id
      end
  end.

(** *** Payment reconciliation: Razorpay ([razorpay_webhook.py]) *)

Definition razorpay_payment_doc (doc_id : ObjectId) (payment_id : option string)
    (user_id : Z) (amount_inr : Z) : Payment :=
  {| p_id := doc_id; p_user_id := user_id; p_method := "razorpay"; p_status := Approved;
     p_amount_usd := Some (float_of_int amount_inr); p_amount_inr := Some amount_inr;
     oxapay_track_id := None; razorpay_payment_id := payment_id;
     is_razorpay := true; p_auto := false; proof_photo := None |}.

(** The part the two Razorpay handlers share, from the duplicate check on. *)
Definition razorpay_credit (payment_id : option string) (user_id : Z) (amount_inr : Z)
    : Prog unit :=
  existing <- payments_find_one (by_razorpay_payment_id payment_id) ;;
  match existing with
  | Some _ => _ <- logger "Duplicate payment detected" ;; Ret tt
  | None =>
      let credits_to_add := float_of_int amount_inr in
      doc_id <- new_ObjectId ;;
      _ <- payments_insert_one (razorpay_payment_doc doc_id payment_id user_id amount_inr) ;;
      _ <- users_update_one user_id (inc_balance_inr credits_to_add) ;;
      st <- state_dict_get user_id ;;
      match st with
      | Some _ => _ <- state_dict_pop user_id ;;
                  _ <- logger "Razorpay payment processed" ;; Ret tt
      | None => _ <- logger "Razorpay payment processed" ;; Ret tt
      end
  end.

Definition handle_payment_captured (data : RzpData) : Prog unit :=
  let payment := payment_entity data in
  let payment_id := ent_id payment in
  let amount_inr := Z.div (ent_amount payment) 100 in
  match ent_telegram_user_id payment with
  | note_absent => _ <- logger "No telegram_user_id in payment notes" ;; Ret tt
  | note_not_int => _ <- logger "Error processing payment.captured" ;; Ret tt
  | note_user user_id => razorpay_credit payment_id user_id amount_inr
  end.

Definition handle_qr_payment_success (data : RzpData) : Prog unit :=
  let payment := payment_entity data in
  let payment_id := ent_id payment in
  let amount_inr := Z.div (ent_amount payment) 100 in
  match ent_telegram_user_id (qr_code_entity data) with
  | note_absent => _ <- logger "No telegram_user_id in QR code notes" ;; Ret tt
  | note_not_int => _ <- logger "Error processing Razorpay QR payment" ;; Ret tt
  | note_user user_id => razorpay_credit payment_id user_id amount_inr
  end.

(** [bot.razorpay_webhook]: [payload] is the raw body, [data] its JSON.  The
    [TypeError] of [compare_digest] is caught by the handler's
    [except Exception], which logs it and answers with its text. *)
Definition razorpay_webhook (signature payload : string) (data : RzpData) : Prog Response :=
  if negb (verify_webhook_signature payload signature) then
    if compare_digest_raises signature then
      _ <- logger "Razorpay webhook error" ;; Ret (ok_false compare_digest_error)
    else
      _ <- logger "Invalid Razorpay webhook signature" ;; Ret (ok_false "Invalid signature")
  else
    let event := rzp_event data in
    if opt_string_eqb event (Some "payment.captured") then
      _ <<- handle_payment_captured data ;; Ret ok_true
    else if opt_string_eqb event (Some "qr_code.credited") then
      _ <<- handle_qr_payment_success data ;; Ret ok_true
    else if opt_string_eqb event (Some "payment.authorized") then
      _ <- logger "Payment authorized, waiting for capture" ;; Ret ok_true
    else
      _ <- logger "Unhandled Razorpay event" ;; Ret ok_true.

(** *** Funding requests and their expiry timers *)

Definition oxapay_payment_doc (payment_id : ObjectId) (user_id : Z) (amount_usd : Q)
    (track_id : string) : Payment :=
  {| p_id := payment_id; p_user_id := user_id; p_method := "oxapay"; p_status := Pending;
     p_amount_usd := Some amount_usd; p_amount_inr := None;
     oxapay_track_id := Some track_id; razorpay_payment_id := None;
     is_razorpay := false; p_auto := false; proof_photo := None |}.

(** [handle_oxapay_payment].  [created] is what [oxapay.create_payment]
    returned ([None]: it raised).  The expiry timer the handler starts with
    [asyncio.create_task] is the separate task [handle_oxapay_expiry]. *)
Definition handle_oxapay_payment (user_id : Z) (amount_usd : Q) (created : option string)
    : Prog bool :=
  _ <- users_find_one user_id ;;
  match created with
  | None =>
      _ <- logger "OxaPay payment error" ;;
      _ <- users_update_one user_id (set_flow None) ;; Ret false
  | Some track_id =>
      _ <- users_update_one user_id (set_flow None) ;;
      payment_id <- new_ObjectId ;;
      _ <- payments_insert_one (oxapay_payment_doc payment_id user_id amount_usd track_id) ;;
      _ <- logger "OxaPay payment created" ;;
      Ret true
  end.

(** The return statement a timer task leaves through. *)
Inductive TimerExit := timer_stopped | timer_expired.

(** The polling loop of [handle_oxapay_expiry]:
    [for remaining in range(expiry_seconds, 0, -update_interval)]. *)
Fixpoint oxapay_expiry_polls (polls : nat) (track_id : string) (at_ttl : Prog TimerExit)
    : Prog TimerExit :=
  match polls with
  | O => at_ttl
  | S n =>
      _ <- asyncio_sleep 60 ;;
      payment <- payments_find_one (by_oxapay_track_id track_id) ;;
      match payment with
      | Some p =>
          if status_eqb (p_status p) Approved then
            _ <- logger "OxaPay timer stopped - payment completed" ;; Ret timer_stopped
          else if status_eqb (p_status p) Cancelled || status_eqb (p_status p) Expired then
            _ <- logger "OxaPay timer stopped" ;; Ret timer_stopped
          else oxapay_expiry_polls n track_id at_ttl
      | None => oxapay_expiry_polls n track_id at_ttl
      end
  end.

(** What [handle_oxapay_expiry] does once the loop is over. *)
Definition oxapay_expiry_at_ttl (track_id : string) : Prog TimerExit :=
  payment <- payments_find_one (by_oxapay_track_id track_id) ;;
  match payment with
  | Some p =>
      if status_eqb (p_status p) Pending then
        _ <- payments_update_one (by_oxapay_track_id track_id) (set_status Expired) ;;
        _ <- logger "OxaPay payment expired" ;; Ret timer_expired
      else _ <- logger "OxaPay payment expired" ;; Ret timer_expired
  | None => _ <- logger "OxaPay payment expired" ;; Ret timer_expired
  end.

Definition handle_oxapay_expiry (track_id : string) : Prog TimerExit :=
  _ <- payments_find_one (by_oxapay_track_id track_id) ;;
  oxapay_expiry_polls (Z.to_nat (1800 / 60)) track_id (oxapay_expiry_at_ttl track_id).

(** [handle_razorpay_payment].  [created] is the id of the QR code
    [RazorpayHandler.create_upi_qr] returned ([None]: it raised);
    [message_id] is the id of the chat message showing the QR code. *)
Definition handle_razorpay_payment (user_id : Z) (amount : Q) (created : option string)
    (message_id : Z) : Prog bool :=
  match created with
  | None =>
      _ <- logger "Razorpay payment error" ;;
      _ <- users_update_one user_id (set_flow None) ;; Ret false
  | Some qr =>
      _ <- users_update_one user_id (set_flow None) ;;
      _ <- state_dict_set user_id
             {| qr_message_id := message_id; qr_code_id := qr; qr_amount := amount |} ;;
      _ <- logger "Razorpay QR created" ;;
      Ret true
  end.

Fixpoint razorpay_expiry_polls (polls : nat) (user_id : Z) (qr : string)
    (at_ttl : Prog TimerExit) : Prog TimerExit :=
  match polls with
  | O => at_ttl
  | S n =>
      _ <- asyncio_sleep 60 ;;
      state <- state_dict_get user_id ;;
      match state with
      | Some st =>
          if negb (String.eqb (qr_code_id st) qr) then
            _ <- logger "Razorpay timer stopped - payment completed" ;; Ret timer_stopped
          else razorpay_expiry_polls n user_id qr at_ttl
      | None => _ <- logger "Razorpay timer stopped - state cleared" ;; Ret timer_stopped
      end
  end.

Definition handle_razorpay_expiry (user_id : Z) (qr : string) : Prog TimerExit :=
  razorpay_expiry_polls (Z.to_nat (300 / 60)) user_id qr
    (_ <- state_dict_pop user_id ;;
     _ <- logger "Razorpay QR expired" ;; Ret timer_expired).

(** *** Cancellation *)

Definition cb_cancel_razorpay (user_id : Z) (qr : string) : Prog unit :=
  state <- state_dict_get user_id ;;
  match state with
  | Some st =>
      if String.eqb (qr_code_id st) qr then
        _ <- state_dict_pop user_id ;;
        _ <- logger "User cancelled Razorpay payment" ;; Ret tt
      else _ <- logger "User cancelled Razorpay payment" ;; Ret tt
  | None => _ <- logger "User cancelled Razorpay payment" ;; Ret tt
  end.

Definition cb_cancel_oxapay (user_id : Z) (track_id : string) : Prog unit :=
  payment <- payments_find_one (by_oxapay_track_id track_id) ;;
  match payment with
  | Some p =>
      if status_eqb (p_status p) Pending then
        _ <- payments_update_one (by_oxapay_track_id track_id) (set_status Cancelled) ;;
        _ <- logger "User cancelled OxaPay payment" ;; Ret tt
      else _ <- logger "User cancelled OxaPay payment" ;; Ret tt
  | None => _ <- logger "User cancelled OxaPay payment" ;; Ret tt
  end.

(** *** Text and photo messages ([on_text], [on_photo]) *)

Definition manual_payment_doc (pay_id : ObjectId) (user_id : Z) (method : string)
    (amount : Z) : Payment :=
  {| p_id := pay_id; p_user_id := user_id; p_method := method; p_status := AwaitProof;
     p_amount_usd := None; p_amount_inr := Some amount;
     oxapay_track_id := None; razorpay_payment_id := None;
     is_razorpay := false; p_auto := false; proof_photo := None |}.

(** [on_text], for the flows [await_amount], [await_proof] and
    [admin_user_balance]; the catalogue-editing flows ([flow_other]) write
    neither [payments] nor [balance_inr] and are not followed here.
    [joined] is the answer of [check_force_join]; [created] and [message_id]
    are the provider's answer to a funding request, as in
    [handle_oxapay_payment] and [handle_razorpay_payment]. *)
Definition on_text (user_id : Z) (joined : bool) (message : TextMsg)
    (created : option string) (message_id : Z) : Prog unit :=
  user <<- upsert_user user_id ;;
  if banned user then Ret tt
  else if negb joined then Ret tt
  else
    doc <- users_find_one user_id ;;
    match match doc with Some u => flow u | None => None end with
    | None => Ret tt
    | Some (flow_await_amount method) =>
        if String.eqb method "razorpay" then
          match text_float message with
          | None => Ret tt
          | Some amount_inr =>
              if float_lt amount_inr 1 then Ret tt
              else _ <<- handle_razorpay_payment user_id amount_inr created message_id ;; Ret tt
          end
        else if String.eqb method "oxapay" then
          match text_float message with
          | None => Ret tt
          | Some amount_usd =>
              if float_lt amount_usd (1 # 10) then Ret tt
              else _ <<- handle_oxapay_payment user_id amount_usd created ;; Ret tt
          end
        else
          match money_int (text_decimal message) with
          | None => Ret tt
          | Some amount =>
              pay_id <- new_ObjectId ;;
              _ <- payments_insert_one (manual_payment_doc pay_id user_id method amount) ;;
              _ <- users_update_one user_id (set_flow (Some (flow_await_proof pay_id))) ;;
              Ret tt
          end
    | Some (flow_await_proof _) => Ret tt
    | Some (flow_admin_user_balance target_id op) =>
        if is_admin user_id then
          match money_int (text_decimal message) with
          | None => Ret tt
          | Some amt =>
              let delta := if String.eqb op "addbal" then amt else Z.opp amt in
              _ <- users_update_one target_id (inc_balance_inr (float_of_int delta)) ;;
              _ <- users_update_one user_id (set_flow None) ;;
              _ <- logger "user_balance_adjust" ;;
              _ <- users_find_one target_id ;;
              Ret tt
          end
        else Ret tt
    | Some (flow_other _) => Ret tt
    end.

Definition on_photo (user_id : Z) (file_id : string) : Prog unit :=
  user <<- upsert_user user_id ;;
  if banned user then Ret tt
  else
    doc <- users_find_one user_id ;;
    match match doc with Some u => flow u | None => None end with
    | Some (flow_await_proof oid) =>
        _ <- payments_find_one (by_id_user oid user_id) ;;
        _ <- payments_update_one (by_id_user oid user_id) (set_pending_proof file_id) ;;
        _ <- users_update_one user_id (set_flow None) ;;
        Ret tt
    | _ => Ret tt
    end.

(** *** Callbacks that start a flow or fill the cart *)

Definition cb_pay_amount (user_id : Z) (joined : bool) (method : string) : Prog unit :=
  _ <<- upsert_user user_id ;;
  if negb joined then Ret tt
  else if negb (mem_string method (PAYMENTS config)) then Ret tt
  else
    _ <- users_update_one user_id (set_flow (Some (flow_await_amount method))) ;;
    _ <- users_find_one user_id ;;
    Ret tt.

Definition cb_qty (user_id : Z) (joined : bool) (prod : ObjectId) (qty_s : Z) : Prog unit :=
  _ <<- upsert_user user_id ;;
  if negb joined then Ret tt
  else
    let qty := Z.max 1 qty_s in
    _ <- users_update_one user_id (set_cart {| cart_product_id := prod; cart_qty := qty |}) ;;
    Ret tt.

(** *** Admin review and balance adjustment *)

Inductive PayAction := act_approve | act_reject | act_resend.

Definition cb_admin_pay_action (admin_id : Z) (oid : ObjectId) (action : PayAction)
    : Prog unit :=
  _ <<- upsert_user admin_id ;;
  if negb (is_admin admin_id) then Ret tt
  else
    found <- payments_find_one (by_id oid) ;;
    match found with
    | None => Ret tt
    | Some p =>
        match action with
        | act_resend => Ret tt
        | act_approve =>
            if negb (status_eqb (p_status p) Pending) then Ret tt
            else
              _ <- payments_update_one (by_id oid) (set_status Approved) ;;
              _ <- users_update_one (p_user_id p)
                     (inc_balance_inr
                        (match p_amount_usd p with Some a => a | None => 0%Q end)) ;;
              _ <- logger "payment_approved" ;; Ret tt
        | act_reject =>
            if negb (status_eqb (p_status p) Pending) then Ret tt
            else
              _ <- payments_update_one (by_id oid) (set_status Rejected) ;;
              _ <- logger "payment_rejected" ;; Ret tt
        end
    end.

Inductive UserAction := act_ban | act_unban | act_addbal | act_subbal.

Definition cb_admin_user_action (admin_id target_id : Z) (action : UserAction) : Prog unit :=
  _ <<- upsert_user admin_id ;;
  if negb (is_admin admin_id) then Ret tt
  else
    match action with
    | act_ban => _ <- users_update_one target_id (set_banned true) ;; Ret tt
    | act_unban => _ <- users_update_one target_id (set_banned false) ;; Ret tt
    | act_addbal =>
        _ <- users_update_one admin_id
               (set_flow (Some (flow_admin_user_balance target_id "addbal"))) ;; Ret tt
    | act_subbal =>
        _ <- users_update_one admin_id
               (set_flow (Some (flow_admin_user_balance target_id "subbal"))) ;; Ret tt
    end.

(** *** Pricing and the purchase transaction *)

(** The loop of [best_discount_percent] over [doc.get("rules", [])]. *)
Fixpoint best_of_rules (rs : list Rule) (qty : Z) (best : Z) : Z :=
  match rs with
  | [] => best
  | rule :: r =>
      match min_qty rule, percent rule with
      | Some mq, Some pc =>
          if Z.geb qty mq then best_of_rules r qty (Z.max best pc)
          else best_of_rules r qty best
      | _, _ => best_of_rules r qty best
      end
  end.

Definition best_discount_percent (product_id : ObjectId) (qty : Z) : Prog Z :=
  doc <- discounts_find_one product_id ;;
  match doc with
  | None => Ret 0%Z
  | Some d => Ret (best_of_rules (rules d) qty 0%Z)
  end.

Definition delivered_line (st : Stock) : string :=
  let em := match email st with Some e => e | None => "" end in
  let pw := match password st with Some p => p | None => "" end in
  String.append "Email: " (String.append em (String.append nl (String.append "Password: " pw))).

(** [purchase_transaction]: the body of the MongoDB transaction.  A
    [ValueError] is the left injection.  The low-stock alert sent after the
    commit is Telegram traffic. *)
Definition purchase_transaction (user_id : Z) (prod : Product) (qty : Z) (total : Q)
    (now : Z) : Prog (string + (ObjectId * list string)) :=
  found <- users_find_one user_id ;;
  match found with
  | None => Ret (inl "Access denied")
  | Some user =>
      if banned user then Ret (inl "Access denied")
      else if float_lt (balance_inr user) total then Ret (inl "Insufficient wallet balance")
      else
        picked <- stocks_find_available (prod_id prod) (Z.to_nat qty) ;;
        if Z.ltb (Z.of_nat (List.length picked)) qty then
          Ret (inl "Not enough stock available")
        else
          let delivered_lines := map delivered_line picked in
          let stock_ids := map s_id picked in
          _ <- stocks_update_many_sold stock_ids user_id now ;;
          _ <- users_update_one user_id (inc_balance_inr (Qopp total)) ;;
          order_id <- new_ObjectId ;;
          _ <- orders_insert_one
                 {| o_id := order_id; o_user_id := user_id; o_product_id := prod_id prod;
                    o_product_name := prod_name prod; o_qty := qty; total_usd := total;
                    delivered := delivered_lines; o_created_at := now |} ;;
          Ret (inr (order_id, delivered_lines))
  end.

Definition unit_price (prod : Product) : Q :=
  match price_usd prod with
  | Some p => p
  | None => match price_inr prod with Some p => p | None => 0%Q end
  end.

(** The total [cb_confirm] computes: [subtotal - subtotal * (percent / 100)]. *)
Definition order_total (unit : Q) (qty : Z) (discount_percent : Z) : Q :=
  let subtotal := Qmult unit (float_of_int qty) in
  let discount := Qmult subtotal (Qdiv (float_of_int discount_percent) 100) in
  Qminus subtotal discount.

(** The answers [cb_confirm] gives. *)
Inductive ConfirmResult :=
| confirm_alert (text : string)
| confirm_purchased (order_id : ObjectId) (delivered_lines : list string) (total : Q).

Definition cb_confirm (user_id : Z) (joined : bool) (oid : ObjectId) (now : Z)
    : Prog ConfirmResult :=
  _ <<- upsert_user user_id ;;
  if negb joined then Ret (confirm_alert "Please join our channel to use the bot.")
  else
    found <- users_find_one user_id ;;
    match found with
    | None => Ret (confirm_alert "Access denied")
    | Some user =>
        if banned user then Ret (confirm_alert "Access denied")
        else
          match cart user with
          | None => Ret (confirm_alert "Cart expired. Open product again.")
          | Some c =>
              if negb (Nat.eqb (cart_product_id c) oid) then
                Ret (confirm_alert "Cart expired. Open product again.")
              else
                let qty := Z.max 1 (cart_qty c) in
                prod <- products_find_one_enabled oid ;;
                match prod with
                | None => Ret (confirm_alert "Product not found")
                | Some prod =>
                    let unit := unit_price prod in
                    discount_percent <<- best_discount_percent (prod_id prod) qty ;;
                    let total := order_total unit qty discount_percent in
                    res <<- purchase_transaction user_id prod qty total now ;;
                    match res with
                    | inl e => Ret (confirm_alert e)
                    | inr (order_id, delivered_lines) =>
                        Ret (confirm_purchased order_id delivered_lines total)
                    end
                end
          end
    end.

End Handlers.

(** ** Vocabulary of the statements *)

(** The first document of [users] with this [_id], as [find_one] returns it. *)
Definition find_user (uid : Z) (s : Store) : option User :=
  find (user_has_id uid) (users s).

Definition balance_of (uid : Z) (s : Store) : option Q :=
  option_map balance_inr (find_user uid s).

(** The available items of a product, in natural order. *)
Definition available_stock (pid : ObjectId) (s : Store) : list Stock :=
  filter (stock_is_available pid) (stocks s).

Definition older_or_same (a b : Stock) : Prop := (created_at a <= created_at b)%Z.

(** The percents of the well-formed rules whose threshold [qty] reaches. *)
Fixpoint applicable_percents (rs : list Rule) (qty : Z) : list Z :=
  match rs with
  | [] => []
  | rule :: r =>
      match min_qty rule, percent rule with
      | Some mq, Some pc =>
          if Z.geb qty mq then pc :: applicable_percents r qty
          else applicable_percents r qty
      | _, _ => applicable_percents r qty
      end
  end.

Definition count_sold (l : list Stock) : nat :=
  List.length (filter (fun st => match s_status st with sold => true | available => false end) l).

(** *** The purchase scenario: balance 100, two units at 40, 10 % from two units *)

Definition scenario_user : User :=
  {| u_id := 1001; balance_inr := 100%Q; banned := false; flow := None;
     cart := Some {| cart_product_id := 7; cart_qty := 2 |} |}.

Definition scenario_product : Product :=
  {| prod_id := 7; prod_name := "Spotify"; price_usd := Some 40%Q; price_inr := None;
     enabled := true |}.

Definition scenario_stock (i : ObjectId) (em pw : string) (t : Z) : Stock :=
  {| s_id := i; s_product_id := 7; email := Some em; password := Some pw;
     s_status := available; sold_to := None; sold_at := None; created_at := t |}.

Definition scenario_store : Store :=
  {| users := [scenario_user]; products := [scenario_product];
     stocks := [scenario_stock 20 "a@x" "pa" 1; scenario_stock 21 "b@x" "pb" 2;
                scenario_stock 22 "c@x" "pc" 3];
     orders := []; payments := [];
     discounts := [ {| d_product_id := 7;
                       rules := [ {| min_qty := Some 2%Z; percent := Some 10%Z |} ] |} ];
     RAZORPAY_STATE := []; next_oid := 30 |}.

(** The same shelf with the second item carrying the earliest time stamp. *)
Definition unsorted_store : Store :=
  set_stocks scenario_store
    [scenario_stock 20 "a@x" "pa" 5; scenario_stock 21 "b@x" "pb" 3].

(** *** Webhook deliveries *)



(** The acknowledgement of a duplicate: OxaPay answers "already processed",
    the Razorpay handler logs "Duplicate payment detected" and the endpoint
    answers [ok]. *)
Definition oxapay_duplicate_ack (r : Response) : Prop :=
  ok r = true /\ msg r = Some "already processed".


Definition default_config : Config :=
  {| RAZORPAY_WEBHOOK_SECRET := "change-me"; USD_TO_INR_RATE := 90%Q;
     ADMIN_IDS := [7677304116%Z]; PAYMENTS := ["razorpay"; "oxapay"] |}.


(** A stand-in digest function for closed examples. *)
Definition constant_digest (key payload : string) : string := "00".

Definition wallet_user (uid : Z) (balance : Q) : User :=
  {| u_id := uid; balance_inr := balance; banned := false; flow := None; cart := None |}.

(** One user, one pending OxaPay payment of 50 USD with track id "TX1". *)
Definition tx1_store : Store :=
  {| users := [wallet_user 1001 0]; products := []; stocks := []; orders := [];
     payments := [oxapay_payment_doc 0 1001 50 "TX1"]; discounts := [];
     RAZORPAY_STATE := []; next_oid := 1 |}.

Definition tx1_paid : OxaPayData :=
  {| data_track_id := Some "TX1"; data_status := "Paid"; data_amount := Some 50%Q |}.

Definition captured_event (pid : string) (paise : Z) (uid : Z) : RzpData :=
  {| rzp_event := Some "payment.captured";
     payment_entity := {| ent_id := Some pid; ent_amount := paise;
                          ent_telegram_user_id := note_user uid |};
     qr_code_entity := {| ent_id := None; ent_amount := 0;
                          ent_telegram_user_id := note_absent |} |}.

Definition one_user_store : Store :=
  {| users := [wallet_user 1001 0]; products := []; stocks := []; orders := [];
     payments := []; discounts := []; RAZORPAY_STATE := []; next_oid := 0 |}.

(** The payload passes the validation at the head of [oxapay_webhook] and
    names the track id [t]. *)
Definition oxapay_accepts (data : OxaPayData) (t : string) : Prop :=
  data_track_id data = Some t /\ t <> ""
  /\ data_amount data <> None
  /\ mem_string (lower (data_status data)) ["paid"; "confirming"; "completed"] = true.

(** ** Requests: the entry points, each handler run to completion *)

Inductive Request :=
| req_oxapay_webhook (data : OxaPayData)
| req_razorpay_webhook (signature payload : string) (data : RzpData)
| req_on_text (user_id : Z) (joined : bool) (message : TextMsg)
    (created : option string) (message_id : Z)
| req_on_photo (user_id : Z) (file_id : string)
| req_pay_amount (user_id : Z) (joined : bool) (method : string)
| req_qty (user_id : Z) (joined : bool) (prod : ObjectId) (qty : Z)
| req_confirm (user_id : Z) (joined : bool) (oid : ObjectId) (now : Z)
| req_cancel_razorpay (user_id : Z) (qr : string)
| req_cancel_oxapay (user_id : Z) (track_id : string)
| req_oxapay_expiry (track_id : string)
| req_razorpay_expiry (user_id : Z) (qr : string)
| req_admin_pay (admin_id : Z) (oid : ObjectId) (action : PayAction)
| req_admin_user (admin_id target_id : Z) (action : UserAction).

Definition handle (hmac : string -> string -> string) (config : Config) (req : Request)
    : Prog unit :=
  match req with
  | req_oxapay_webhook data => _ <<- oxapay_webhook config data ;; Ret tt
  | req_razorpay_webhook signature payload data =>
      _ <<- razorpay_webhook hmac config signature payload data ;; Ret tt
  | req_on_text user_id joined message created message_id =>
      on_text config user_id joined message created message_id
  | req_on_photo user_id file_id => on_photo user_id file_id
  | req_pay_amount user_id joined method => cb_pay_amount config user_id joined method
  | req_qty user_id joined prod qty => cb_qty user_id joined prod qty
  | req_confirm user_id joined oid now => _ <<- cb_confirm user_id joined oid now ;; Ret tt
  | req_cancel_razorpay user_id qr => cb_cancel_razorpay user_id qr
  | req_cancel_oxapay user_id track_id => cb_cancel_oxapay user_id track_id
  | req_oxapay_expiry track_id => _ <<- handle_oxapay_expiry track_id ;; Ret tt
  | req_razorpay_expiry user_id qr => _ <<- handle_razorpay_expiry user_id qr ;; Ret tt
  | req_admin_pay admin_id oid action => cb_admin_pay_action config admin_id oid action
  | req_admin_user admin_id target_id action =>
      cb_admin_user_action config admin_id target_id action
  end.

Definition serve (hmac : string -> string -> string) (config : Config) (s : Store)
    (req : Request) : Store :=
  result_store (run (handle hmac config req) s).

Definition serve_all (hmac : string -> string -> string) (config : Config)
    (reqs : list Request) (s : Store) : Store :=
  fold_left (serve hmac config) reqs s.

(** ** Invariants *)

Definition balances_nonneg (s : Store) : Prop :=
  Forall (fun u => Qle 0 (balance_inr u)) (users s).

Definition amount_nonneg (p : Payment) : Prop :=
  match p_amount_usd p with Some a => Qle 0 a | None => True end.

Definition wallet_inv (s : Store) : Prop :=
  balances_nonneg s /\ Forall amount_nonneg (payments s).

(** The request is the text step of an admin's "Remove Balance" flow and
    names an amount larger than the target's balance. *)
Definition overdraws (config : Config) (s : Store) (req : Request) : bool :=
  match req with
  | req_on_text user_id _ message _ _ =>
      match find_user user_id s with
      | Some u =>
          match flow u with
          | Some (flow_admin_user_balance target_id op) =>
              is_admin config user_id && negb (String.eqb op "addbal")
              && match money_int (text_decimal message), find_user target_id s with
                 | Some amt, Some target => float_lt (balance_inr target) (float_of_int amt)
                 | _, _ => false
                 end
          | _ => false
          end
      | None => false
      end
  | _ => false
  end.

(** The amount a Razorpay event carries is not negative. *)
Definition provider_amount_nonneg (req : Request) : Prop :=
  match req with
  | req_razorpay_webhook _ _ data => (0 <= ent_amount (payment_entity data))%Z
  | _ => True
  end.

Definition razorpay_doc_ok (p : Payment) : Prop :=
  p_method p = "razorpay" -> p_status p = Approved /\ oxapay_track_id p = None.

(** A user waiting to send a payment proof points at a payment of theirs
    that is still in [await_proof] and is not an OxaPay invoice. *)
Definition proof_flow_ok (s : Store) : Prop :=
  forall uid u pid,
    find_user uid s = Some u -> flow u = Some (flow_await_proof pid) ->
    pid < next_oid s
    /\ Forall (fun p => p_id p = pid -> p_user_id p = uid ->
                        p_status p = AwaitProof /\ oxapay_track_id p = None)
              (payments s).

Definition payments_inv (s : Store) : Prop :=
  Forall razorpay_doc_ok (payments s)
  /\ proof_flow_ok s
  /\ Forall (fun p => p_id p < next_oid s) (payments s).

Definition is_terminal (st : Status) : bool :=
  match st with
  | Approved | Rejected | Cancelled | Expired => true
  | AwaitProof | Pending => false
  end.

Definition is_oxapay_webhook (req : Request) : bool :=
  match req with req_oxapay_webhook _ => true | _ => false end.

(** How the [payments] collection may change under one request: documents
    keep their place, new ones are appended, and each kept document is
    related to its earlier version by [R]. *)
Inductive evolves (R : Payment -> Payment -> Prop) : list Payment -> list Payment -> Prop :=
| evolves_nil (l : list Payment) : evolves R [] l
| evolves_cons (p p' : Payment) (l l' : list Payment) :
    R p p' -> evolves R l l' -> evolves R (p :: l) (p' :: l').

(** A document keeps its identity, a payment that has left [await_proof]
    does not return to it, an approved payment stays approved, and a
    rejected, cancelled or expired one changes, if at all, to approved --
    which only the OxaPay webhook ([late_settlement]) may do, on an OxaPay
    payment. *)
Definition status_step (late_settlement : bool) (p p' : Payment) : Prop :=
  p_id p' = p_id p /\ p_user_id p' = p_user_id p /\ p_method p' = p_method p
  /\ (p_status p <> AwaitProof -> p_status p' <> AwaitProof)
  /\ (p_status p = Approved -> p_status p' = Approved)
  /\ (is_terminal (p_status p) = true ->
      p_status p' = p_status p
      \/ (late_settlement = true /\ p_status p' = Approved /\ p_method p = "oxapay")).

(** Weakest precondition of a program run to completion. *)
Fixpoint wp {A : Type} (p : Prog A) (Q : A -> Store -> Prop) (s : Store) : Prop :=
  match p with
  | Ret a => Q a s
  | Do op k => wp (k (snd (exec op s))) Q (fst (exec op s))
  end.

(** A user update that does not start a payment-proof flow. *)
Definition keeps_proof_flow (up : UserUpdate) : Prop :=
  match up with
  | set_flow (Some (flow_await_proof _)) => False
  | _ => True
  end.


(** The three parts of [payments_inv], over the projections of a store. *)
Definition flows_ok (us : list User) (ps : list Payment) (n : ObjectId) : Prop :=
  forall uid u pid,
    find (user_has_id uid) us = Some u -> flow u = Some (flow_await_proof pid) ->
    pid < n
    /\ Forall (fun p => p_id p = pid -> p_user_id p = uid ->
                        p_status p = AwaitProof /\ oxapay_track_id p = None) ps.


(** What a request may do to the payments: keep [payments_inv] and let the
    collection evolve by [status_step]. *)
Definition pay_spec (late_settlement : bool) (s s' : Store) : Prop :=
  payments_inv s ->
  payments_inv s' /\ evolves (status_step late_settlement) (payments s) (payments s').

(** The user of [tx1_store] has cancelled the invoice. *)
Definition tx1_cancelled : Store :=
  serve constant_digest default_config tx1_store (req_cancel_oxapay 1001 "TX1").

(** An admin (the configured one) about to remove balance from user 1001. *)
Definition removal_store : Store :=
  serve_all constant_digest default_config
    [req_pay_amount 1001 true "oxapay";
     req_admin_user 7677304116 1001 act_subbal]
    empty_store.

Definition text_5 : TextMsg := {| text_float := Some 5%Q; text_decimal := Some 5%Q |}.

(** *** Two tasks on the event loop *)

(** A correctly signed [payment.captured] event for 50 INR. *)
Definition captured_50 : Prog Response :=
  razorpay_webhook constant_digest default_config "00" "{}" (captured_event "pay_1" 5000 1001).

(** The expiry timer of "TX1" polls 30 times and reads the payment once
    more at the deadline: 62 operations, all of them seeing [pending]; then
    the settlement webhook runs (4 operations); then the timer writes. *)
Definition settle_at_deadline : list bool := repeat true 62 ++ repeat false 4.

(** Both deliveries pass the duplicate check before either one inserts. *)
Definition both_check_first : list bool := [true; false].

(** The OxaPay payments with this track id that are not approved yet: the
    documents the conditional update can still win. *)
Definition unsettled (t : string) (s : Store) : nat :=
  List.length (filter (payment_matches (by_oxapay_track_id_not_approved t)) (payments s)).

(** The points at which a delivery to [oxapay_webhook] can be suspended,
    with the credits the task still owes (it has won the update and not yet
    credited) and a bound on the operations it has left. *)
Inductive oxa_task (config : Config) (t : string) : Prog Response -> nat -> nat -> Prop :=
| oxa_at_lookup : oxa_task config t (oxapay_settle config t) 0 4
| oxa_at_update (p : Payment) : oxa_task config t (oxapay_approve config t p) 0 3
| oxa_at_credit (p : Payment) : oxa_task config t (oxapay_credit_wallet config p) 1 2
| oxa_at_log (line : string) (r : Response) :
    oxa_task config t (Do (logger line) (fun _ => Ret r)) 0 1
| oxa_at_end (r : Response) : oxa_task config t (Ret r) 0 0.

From Stdlib Require Import Permutation Lqa.

(** ** Handlers served in sequence, and runs with their trace *)

(** Weakest precondition of a run to completion, over the answer, the store
    left and the trace of the operations executed. *)
Fixpoint wpt {A : Type} (p : Prog A) (Q : A -> Store -> Trace -> Prop) (s : Store) : Prop :=
  match p with
  | Ret a => Q a s []
  | Do op k =>
      wpt (k (snd (exec op s)))
          (fun a s' t => Q a s' (ev op (snd (exec op s)) :: t))
          (fst (exec op s))
  end.

(** Handlers served one after the other, each run to completion: the store
    they leave and the concatenation of their traces. *)
Fixpoint run_each {A : Type} (ps : list (Prog A)) (s : Store) : Store * Trace :=
  match ps with
  | [] => (s, [])
  | p :: r =>
      let '(s1, _, t1) := run p s in
      let '(s2, t2) := run_each r s1 in
      (s2, t1 ++ t2)
  end.

(** The store a handler leaves when all it did was [upsert_user]: the store
    itself, or the store with the caller's fresh document appended. *)
Definition only_registered (caller : Z) (s s' : Store) : Prop :=
  s' = s
  \/ (find_user caller s = None /\ s' = set_users s (users s ++ [new_user caller])).

(** The time a task spent in [asyncio.sleep], in seconds. *)
Definition slept (t : Trace) : Z :=
  fold_right (fun e acc => match e with
                           | ev (asyncio_sleep n) _ => (n + acc)%Z
                           | ev _ _ => acc
                           end) 0%Z t.

(** Review actions on one payment: each pair is the caller and the button. *)
Definition reviews_of (config : Config) (oid : ObjectId) (reviews : list (Z * PayAction))
    : list (Prog unit) :=
  map (fun r => cb_admin_pay_action config (fst r) oid (snd r)) reviews.

(** A configuration with a proof-based method beside the two providers. *)
Definition upi_config : Config :=
  {| RAZORPAY_WEBHOOK_SECRET := "change-me"; USD_TO_INR_RATE := 90%Q;
     ADMIN_IDS := [7677304116%Z]; PAYMENTS := ["razorpay"; "oxapay"; "upi"] |}.

(** User 1001 has chosen "upi", sent the amount 5 and then a screenshot:
    payment 0 is pending review. *)
Definition proof_store : Store :=
  serve_all constant_digest upi_config
    [req_pay_amount 1001 true "upi";
     req_on_text 1001 true text_5 None 0;
     req_on_photo 1001 "photo-1"]
    empty_store.


(** The statuses on which the polling loop of [handle_oxapay_expiry] returns. *)
Definition stops_oxapay_timer (st : Status) : bool :=
  match st with
  | Approved | Cancelled | Expired => true
  | AwaitProof | Pending | Rejected => false
  end.

(** *** Two tasks on the event loop, continued *)

(** Two admins tap "Approve" on the same payment: each task runs
    [upsert_user] (two operations) and reads the payment, before either
    one writes. *)
Definition both_read_pending : list bool := [true; true; true; false; false; false].

(** The user taps "Cancel Payment" and the handler reads the pending
    payment; the settlement webhook is then served in full (lookup,
    conditional update, credit, log line); then the cancellation writes. *)
Definition settle_during_cancel : list bool := [true; false; false; false; false].

(** [proof_store] after both admins have opened the user's profile. *)
Definition review_store : Store :=
  serve_all constant_digest upi_config
    [req_admin_user 7677304116 1001 act_unban;
     req_admin_user 6670166083 1001 act_unban]
    proof_store.

(** User 1001 has chosen the crypto method and is asked for an amount. *)
Definition funding_store : Store :=
  serve constant_digest default_config empty_store (req_pay_amount 1001 true "oxapay").

(** A settlement event for a track id; the amount it reports is arbitrary. *)
Definition paid_event (track_id : string) (amount : Q) : OxaPayData :=
  {| data_track_id := Some track_id; data_status := "paid"; data_amount := Some amount |}.

(** ** The Razorpay QR code ([razorpay_handler.RazorpayHandler.create_upi_qr]) *)

(** The body posted to [/v1/payments/qr_codes].  [notes_telegram_user_id]
    is written with [str(user_id)] and read back by the webhook handlers
    with [int(...)]; it is kept as the number. *)
Record QrPayload := {
  qr_type : string;
  qr_usage : string;
  fixed_amount : bool;
  payment_amount : Z;               (* in paise *)
  notes_telegram_user_id : Z;
  notes_username : string }.

Definition create_upi_qr_payload (amount_usd : Q) (user_id : Z) (username : option string)
    : QrPayload :=
  let amount_inr := int_of_float amount_usd in
  let amount_paise := (amount_inr * 100)%Z in
  {| qr_type := "upi_qr"; qr_usage := "single_use"; fixed_amount := true;
     payment_amount := amount_paise;
     notes_telegram_user_id := user_id;
     notes_username := match username with Some n => n | None => "" end |}.

(** The ["amount"] of the dictionary [create_upi_qr] returns, which
    [handle_razorpay_payment] shows as the credits to expect. *)
Definition create_upi_qr_amount (amount_usd : Q) : Z := int_of_float amount_usd.

(** A Razorpay event reporting the payment [payment_id] of a QR code created
    with [payload]: the fixed amount was paid, and the notes of the QR code
    come back on the entity the handler reads them from. *)
Definition pays_qr (payload : QrPayload) (payment_id : string) (data : RzpData) : Prop :=
  ent_id (payment_entity data) = Some payment_id
  /\ ent_amount (payment_entity data) = payment_amount payload
  /\ ((rzp_event data = Some "payment.captured"
       /\ ent_telegram_user_id (payment_entity data)
          = note_user (notes_telegram_user_id payload))
      \/ (rzp_event data = Some "qr_code.credited"
          /\ ent_telegram_user_id (qr_code_entity data)
             = note_user (notes_telegram_user_id payload))).

(** ** Read-only screens: "My Orders"

    A screen handler writes nothing beyond [upsert_user]; it is given as a
    function of the store: the store it leaves and the screen it shows. *)

(** [cursor.sort(key, -1)]: descending in [key]; documents with equal keys
    stay in natural order (the server promises no order among them). *)
Fixpoint insert_desc {A : Type} (key : A -> Z) (x : A) (l : list A) : list A :=
  match l with
  | [] => [x]
  | y :: r => if Z.leb (key y) (key x) then x :: l else y :: insert_desc key x r
  end.

Definition sort_desc {A : Type} (key : A -> Z) (l : list A) : list A :=
  fold_right (insert_desc key) [] l.

(** [cursor.skip(skip).limit(n).to_list(n)] *)
Definition skip_limit {A : Type} (skip n : nat) (l : list A) : list A :=
  firstn n (skipn skip l).

(** [orders.find({"user_id": user_id})] *)
Definition orders_of (user_id : Z) (s : Store) : list Order :=
  filter (fun o => Z.eqb (o_user_id o) user_id) (orders s).

Inductive NavButton :=
| nav_previous (page : nat)     (* callback_data orders_page:{page-1} *)
| nav_next (page : nat).        (* callback_data orders_page:{page+1} *)

(** One row of the list: the button "{product_name} x{qty}" with
    callback_data order_view:{order_id}. *)
Record OrderRow := { row_product_name : string; row_qty : Z; row_order_id : ObjectId }.

Definition order_row (o : Order) : OrderRow :=
  {| row_product_name := o_product_name o; row_qty := o_qty o; row_order_id := o_id o |}.

Inductive OrdersScreen :=
| orders_join_notice
| orders_none                      (* "My Orders / No orders yet." *)
| orders_list (page_no pages : nat) (rows : list OrderRow) (nav : list NavButton).

(** [cb_orders_page], for a page number that is not negative (it comes
    from the callback data, [int(call.data.split(":")[1])]). *)
Definition cb_orders_page (user_id : Z) (joined : bool) (page : nat) (s : Store)
    : Store * OrdersScreen :=
  let s1 := result_store (run (upsert_user user_id) s) in
  if negb joined then (s1, orders_join_notice)
  else
    let per_page := 5 in
    let skip := page * per_page in
    let found := skip_limit skip per_page (sort_desc o_created_at (orders_of user_id s1)) in
    let total_orders := List.length (orders_of user_id s1) in
    match found with
    | [] => (s1, orders_none)
    | _ :: _ =>
        let nav_buttons :=
          (if Nat.ltb 0 page then [nav_previous (page - 1)] else [])
          ++ (if Nat.ltb (skip + per_page) total_orders then [nav_next (page + 1)] else []) in
        (s1, orders_list (page + 1) ((total_orders + per_page - 1) / per_page)
               (map order_row found) nav_buttons)
    end.

(** [cb_orders]: the "My Orders" button opens page 0. *)
Definition cb_orders (user_id : Z) (joined : bool) (s : Store) : Store * OrdersScreen :=
  cb_orders_page user_id joined 0 s.

(** The rows a screen lists. *)
Definition screen_rows (v : OrdersScreen) : list OrderRow :=
  match v with
  | orders_list _ _ rows _ => rows
  | _ => []
  end.

(** ** Read-only screens: one order *)

Inductive OrderView :=
| view_join_notice
| view_alert (text : string)
| view_details (product_name : string) (qty : Z) (total_usd : Q) (total_inr : Z)
               (created_at : Z) (order_id : ObjectId) (delivered_lines : list string).

(** [cb_order_view], for callback data that holds a well-formed order id
    ([_to_object_id] raises otherwise). *)
Definition cb_order_view (config : Config) (user_id : Z) (joined : bool) (oid : ObjectId)
    (s : Store) : Store * OrderView :=
  let s1 := result_store (run (upsert_user user_id) s) in
  if negb joined then (s1, view_join_notice)
  else
    match find (fun o => Nat.eqb (o_id o) oid) (orders s1) with
    | None => (s1, view_alert "Order not found")
    | Some order =>
        if negb (Z.eqb (o_user_id order) user_id) then (s1, view_alert "Not your order")
        else
          let total_usd := total_usd order in
          let total_inr := int_of_float (Qmult total_usd (USD_TO_INR_RATE config)) in
          (s1, view_details (o_product_name order) (o_qty order) total_usd total_inr
                 (o_created_at order) oid (delivered order))
    end.

(** User 1001 has chosen the proof-based method "upi" and is asked for an
    amount. *)
Definition upi_funding_store : Store :=
  serve constant_digest upi_config empty_store (req_pay_amount 1001 true "upi").

(** ** Orders *)

(** An order as [purchase_transaction] records it: a fresh id, a quantity
    of at least one and one delivered line per unit. *)
Definition order_ok (n : ObjectId) (o : Order) : Prop :=
  o_id o < n /\ (1 <= o_qty o)%Z /\ Z.of_nat (List.length (delivered o)) = o_qty o.

Definition orders_inv (s : Store) : Prop :=
  Forall (order_ok (next_oid s)) (orders s) /\ NoDup (map o_id (orders s)).

(** What one request may do to the shelf and the order history: nothing,
    or one sale.  A sale marks as sold the items [purchase_transaction]
    picked, the first [n] available ones of a product, and appends one order
    for them under the next fresh id. *)
Definition sale_step (s s' : Store) : Prop :=
  (stocks s' = stocks s /\ orders s' = orders s /\ next_oid s <= next_oid s')
  \/ (exists pid n uid now o,
        let picked := firstn n (filter (stock_is_available pid) (stocks s)) in
        stocks s'
        = map (fun st => if mem_oid (s_id st) (map s_id picked) then mark_sold uid now st
                         else st) (stocks s)
        /\ orders s' = orders s ++ [o] /\ o_id o = next_oid s
        /\ next_oid s' = S (next_oid s)
        /\ (1 <= o_qty o)%Z /\ Z.of_nat (List.length picked) = o_qty o
        /\ delivered o = map delivered_line picked).

(** A shelf item before and after: the same item, and untouched if it was
    sold already. *)
Definition stock_kept (a b : Stock) : Prop :=
  s_id b = s_id a /\ s_product_id b = s_product_id a /\ email b = email a
  /\ password b = password a /\ (s_status a = sold -> b = a).

Definition units_ordered (l : list Order) : Z :=
  fold_right (fun o acc => (o_qty o + acc)%Z) 0%Z l.

(** A text message sent by an admin.  [on_text] runs the admins' stock and
    catalogue flows only behind [is_admin]; for every other sender it does
    what the model of [on_text] above does. *)
Definition admin_text (config : Config) (r : Request) : bool :=
  match r with
  | req_on_text user_id _ _ _ _ => is_admin config user_id
  | _ => false
  end.

(** ** The quote on the product screen *)

(** The numbers [render_product_detail] puts on the product screen. *)
Record Quote := {
  q_qty : Z;
  q_stock_count : nat;
  q_unit : Q;
  q_discount_percent : Z;
  q_subtotal : Q;
  q_total : Q }.

(** [render_product_detail]: the quantity is the cart's when
    [cart.get("product_id") == str(prod["_id"])], and 1 otherwise; the total
    is [subtotal * (1 - discount_percent / 100)].  The cart holds the id as
    the text the callback data of [cb_qty] carried, of which the model's
    cart keeps the id it denotes; [cart_canonical] tells whether that text
    is the one [str] gives for the id (lower-case hexadecimal), as in the
    callback data of the bot's own keyboards.  A text in another spelling
    denotes the same product and differs from [str(prod["_id"])]. *)
Definition render_product_detail (prod : Product) (user : User) (cart_canonical : bool)
    (s : Store) : Quote :=
  let qty := match cart user with
             | Some c =>
                 if Nat.eqb (cart_product_id c) (prod_id prod) && cart_canonical
                 then cart_qty c else 1%Z
             | None => 1%Z
             end in
  let stock_count := List.length (filter (stock_is_available (prod_id prod)) (stocks s)) in
  let unit_usd := unit_price prod in
  let discount_percent := result_value (run (best_discount_percent (prod_id prod) qty) s) in
  let subtotal_usd := Qmult unit_usd (float_of_int qty) in
  let total_usd := Qmult subtotal_usd (Qminus 1 (Qdiv (float_of_int discount_percent) 100)) in
  {| q_qty := qty; q_stock_count := stock_count; q_unit := unit_usd;
     q_discount_percent := discount_percent; q_subtotal := subtotal_usd;
     q_total := total_usd |}.

Inductive BuyScreen :=
| buy_join_notice
| buy_not_found
| buy_confirm_purchase (q : Quote).

(** [cb_buy]: the quote with the question "Confirm purchase?".  It writes
    nothing beyond [upsert_user]. *)
Definition cb_buy (user_id : Z) (joined : bool) (oid : ObjectId) (cart_canonical : bool)
    (s : Store) : Store * BuyScreen :=
  let s1 := result_store (run (upsert_user user_id) s) in
  if negb joined then (s1, buy_join_notice)
  else
    match find (fun p => Nat.eqb (prod_id p) oid && enabled p) (products s1),
          find_user user_id s1 with
    | Some prod, Some user =>
        (s1, buy_confirm_purchase (render_product_detail prod user cart_canonical s1))
    | _, _ => (s1, buy_not_found)
    end.

(** ** Discount rules entered by an admin *)

(** The loop of the [admin_discount_rules] flow of [on_text] over the lines
    of the message.  A line is given by its words, each with what [int]
    makes of it ([None]: [int] raises): lines without exactly two words or
    with a word that is no integer are skipped, [min_qty] is raised to 1 and
    [percent] is cut to 0..100. *)
Definition parse_rule_line (parts : list (option Z)) : option Rule :=
  match parts with
  | [a; b] =>
      match a, b with
      | Some x, Some y =>
          Some {| min_qty := Some (Z.max 1 x); percent := Some (Z.max 0 (Z.min 100 y)) |}
      | _, _ => None
      end
  | _ => None
  end.

Fixpoint parse_rule_lines (lines : list (list (option Z))) : list Rule :=
  match lines with
  | [] => []
  | ln :: r =>
      match parse_rule_line ln with
      | Some rule => rule :: parse_rule_lines r
      | None => parse_rule_lines r
      end
  end.

(** [rules.sort(key=lambda r: r["min_qty"])]: stable, ascending. *)
Definition rule_key (r : Rule) : Z := match min_qty r with Some q => q | None => 0%Z end.

Fixpoint insert_rule (r : Rule) (l : list Rule) : list Rule :=
  match l with
  | [] => [r]
  | x :: t => if Z.ltb (rule_key r) (rule_key x) then r :: x :: t else x :: insert_rule r t
  end.

Definition sort_rules (l : list Rule) : list Rule :=
  fold_left (fun acc r => insert_rule r acc) l [].

(** The rules the flow stores for the product. *)
Definition discount_rules_of_text (lines : list (list (option Z))) : list Rule :=
  sort_rules (parse_rule_lines lines).

Definition rule_in_range (r : Rule) : Prop :=
  exists q p, min_qty r = Some q /\ percent r = Some p /\ (1 <= q)%Z /\ (0 <= p <= 100)%Z.

(** ** The category keyboard *)

(** A category document: [category_id] (absent: [None]), [str(_id)] and
    [title]. *)
Record Category := {
  cat_category_id : option string;
  cat_oid : string;
  cat_title : option string }.

(** The buttons of the keyboard: a category's, with its text and
    callback_data [cat:{cid_s}], and the last one, Back, with callback_data
    [home]. *)
Inductive Button :=
| category_button (text : string) (cid : string)
| back_button.

Definition b_callback_data (b : Button) : string :=
  match b with
  | category_button _ cid => String.append "cat:" cid
  | back_button => "home"
  end.

(** [x or y] on an optional string: [None] and the empty string are falsy. *)
Definition str_or (x : option string) (y : string) : string :=
  match x with
  | Some v => if String.eqb v "" then y else v
  | None => y
  end.

(** [str(c.get("category_id") or c.get("_id"))] *)
Definition cid_s (c : Category) : string := str_or (cat_category_id c) (cat_oid c).

(** The loop of [kb_categories], with the set [seen]. *)
Fixpoint kb_categories_loop (categories : list Category) (seen : list string) : list Button :=
  match categories with
  | [] => []
  | c :: r =>
      if mem_string (cid_s c) seen then kb_categories_loop r seen
      else category_button (str_or (cat_title c) (cid_s c)) (cid_s c)
           :: kb_categories_loop r (cid_s c :: seen)
  end.

Definition kb_categories (categories : list Category) : list Button :=
  kb_categories_loop categories [] ++ [back_button].

(** ** The OxaPay callback with a [track_id] of any JSON type *)

(** [oxapay_webhook] takes [track_id] from the body as it comes and passes
    it on into the filters of [find_one] and [update_one]. *)
Inductive TrackId :=
| track_falsy
    (* absent, null, false, 0, an empty string, list or object: [not track_id] *)
| track_string (s : string)
| track_operator (matches : option string -> bool).
    (* any other value, by what the filter {"oxapay_track_id": value} selects:
       [matches o] for a document whose [oxapay_track_id] is [o] ([None]: the
       key is absent).  A number, [true], a list or an object without
       operators equals no stored id; an object of query operators, such as
       {"$gt": ""}, selects by them.  (An object the database refuses makes
       [find_one] raise before anything is written.) *)



Module Untyped.

Record OxaPayData := {
  data_track_id : TrackId;
  data_status : string;
  data_amount : option Q }.

(** The two filters built from [track_id]. *)
Definition track_filter (track_id : TrackId) : PaymentQuery :=
  match track_id with
  | track_string s => by_oxapay_track_id s
  | track_operator f => by_oxapay_track_operator f
  | track_falsy => by_oxapay_track_operator (fun _ => false)
  end.

Definition track_filter_not_approved (track_id : TrackId) : PaymentQuery :=
  match track_id with
  | track_string s => by_oxapay_track_id_not_approved s
  | track_operator f => by_oxapay_track_operator_not_approved f
  | track_falsy => by_oxapay_track_operator_not_approved (fun _ => false)
  end.

Definition oxapay_approve (config : Config) (track_id : TrackId) (payment : Payment)
    : Prog Response :=
  modified_count <- payments_update_one
                      (track_filter_not_approved track_id) set_status_auto ;;
  if Nat.ltb 0 modified_count then oxapay_credit_wallet config payment else Ret ok_true.

Definition oxapay_settle (config : Config) (track_id : TrackId) : Prog Response :=
  found <- payments_find_one (track_filter track_id) ;;
  match found with
  | None =>
      _ <- logger "OxaPay webhook with invalid track_id" ;;
      Ret (ok_false "payment not found")
  | Some payment =>
      if negb (String.eqb (p_method payment) "oxapay") then
        _ <- logger "OxaPay webhook for non-oxapay payment" ;;
        Ret (ok_false "invalid payment method")
      else if status_eqb (p_status payment) Approved then
        _ <- logger "OxaPay payment already processed" ;;
        Ret (ok_msg "already processed")
      else oxapay_approve config track_id payment
  end.

(** [not track_id] *)
Definition track_is_falsy (track_id : TrackId) : bool :=
  match track_id with
  | track_falsy => true
  | track_string s => String.eqb s ""
  | track_operator _ => false
  end.

Definition oxapay_webhook (config : Config) (data : OxaPayData) : Prog Response :=
  let status := lower (data_status data) in
  if track_is_falsy (data_track_id data) then
    _ <- logger "OxaPay webhook missing track_id" ;; Ret (ok_false "missing track_id")
  else
    match data_amount data with
    | None => _ <- logger "OxaPay webhook invalid amount" ;; Ret (ok_false "invalid amount")
    | Some _ =>
      if negb (mem_string status ["paid"; "confirming"; "completed"]) then
        _ <- logger "OxaPay webhook ignored status" ;; Ret (ok_false "invalid status")
      else oxapay_settle config (data_track_id data)
    end.

End Untyped.




(** The users a trace credits or debits, in order: the targets of its
    [$inc] of [balance_inr]. *)
Definition credited (t : Trace) : list Z :=
  flat_map (fun e => match e with
                     | ev (users_update_one uid (inc_balance_inr _)) _ => [uid]
                     | ev _ _ => []
                     end) t.



(** * Properties *)

Unset Implicit Arguments.

(** ** Running programs *)

Lemma run_bind {A C : Type} (m : Prog A) (f : A -> Prog C) (s : Store) :
  run (bind m f) s =
  let '(s1, a, t1) := run m s in
  let '(s2, c, t2) := run (f a) s1 in
  (s2, c, t1 ++ t2).
Proof.
  revert s. induction m as [a | B op k IH]; intros s; simpl.
  - destruct (run (f a) s) as [[s2 c] t2]. reflexivity.
  - destruct (exec op s) as [s1 b]. rewrite IH.
    destruct (run (k b) s1) as [[s2 a] t1].
    destruct (run (f a) s2) as [[s3 c] t2]. reflexivity.
Qed.

Lemma run_Do {A B : Type} (op : DbOp B) (k : B -> Prog A) (s : Store) :
  run (Do op k) s =
  let '(s1, b) := exec op s in
  let '(s2, a, t) := run (k b) s1 in
  (s2, a, ev op b :: t).
Proof. reflexivity. Qed.

(** ** The purchase transaction *)

Ltac split_run :=
  repeat match goal with
         | |- context [let '(_, _) := ?e in _] => destruct e eqn:?
         | H : context [let '(_, _) := ?e in _] |- _ => destruct e eqn:?
         end.

(** C2. A purchase that fails -- with "Insufficient wallet balance", with
    "Not enough stock available", or with "Access denied" -- leaves the whole
    store as it was: no stock item changed, no balance changed, no order. *)
Theorem purchase_failure_no_effect :
  forall (user_id : Z) (prod : Product) (qty : Z) (total : Q) (now : Z) (s : Store)
         (e : string),
    result_value (run (purchase_transaction user_id prod qty total now) s) = inl e ->
    result_store (run (purchase_transaction user_id prod qty total now) s) = s
    /\ (e = "Access denied" \/ e = "Insufficient wallet balance"
        \/ e = "Not enough stock available").
Proof.
  intros user_id prod qty total now s e.
  unfold purchase_transaction, result_value, result_store. simpl.
  destruct (find (user_has_id user_id) (users s)) as [user |]; simpl.
  2: { intros H; inversion H; auto. }
  destruct (banned user); simpl.
  { intros H; inversion H; auto. }
  destruct (float_lt (balance_inr user) total); simpl.
  { intros H; inversion H; auto. }
  destruct (Z.ltb _ qty); simpl.
  { intros H; inversion H; auto. }
  destruct (update_first _ _ _) as [us n]. simpl. discriminate.
Qed.

Lemma purchase_failure_no_effect_witness :
  result_value (run (purchase_transaction 1001 scenario_product 5 180 500) scenario_store)
    = inl "Insufficient wallet balance"
  /\ result_store (run (purchase_transaction 1001 scenario_product 5 180 500) scenario_store)
     = scenario_store.
Proof.
  assert (H : result_value
                (run (purchase_transaction 1001 scenario_product 5 180 500) scenario_store)
              = inl "Insufficient wallet balance") by reflexivity.
  split; [exact H |].
  exact (proj1 (purchase_failure_no_effect 1001 scenario_product 5 180 500 scenario_store _ H)).
Defined.

Lemma purchase_success_effect :
  forall (user_id : Z) (prod : Product) (qty : Z) (total : Q) (now : Z) (s : Store)
         (oid : ObjectId) (dl : list string),
    result_value (run (purchase_transaction user_id prod qty total now) s) = inr (oid, dl) ->
    let picked := firstn (Z.to_nat qty) (available_stock (prod_id prod) s) in
    let s' := result_store (run (purchase_transaction user_id prod qty total now) s) in
    (Z.of_nat (List.length picked) >= qty)%Z
    /\ dl = map delivered_line picked
    /\ oid = next_oid s
    /\ stocks s' = map (fun st => if mem_oid (s_id st) (map s_id picked)
                                  then mark_sold user_id now st else st) (stocks s)
    /\ users s' = fst (update_first (user_has_id user_id)
                         (apply_user_update (inc_balance_inr (Qopp total))) (users s))
    /\ orders s' = orders s ++
         [ {| o_id := oid; o_user_id := user_id; o_product_id := prod_id prod;
              o_product_name := prod_name prod; o_qty := qty; total_usd := total;
              delivered := dl; o_created_at := now |} ]
    /\ payments s' = payments s
    /\ (exists user, find_user user_id s = Some user /\ banned user = false
                     /\ Qle total (balance_inr user)).
Proof.
  intros user_id prod qty total now s oid dl.
  unfold purchase_transaction, result_value, result_store, available_stock, find_user.
  simpl.
  destruct (find (user_has_id user_id) (users s)) as [user |] eqn:Eu; simpl;
    [| discriminate].
  destruct (banned user) eqn:Eb; simpl; [discriminate |].
  destruct (float_lt (balance_inr user) total) eqn:El; simpl; [discriminate |].
  destruct (Z.ltb _ qty) eqn:Eq; simpl; [discriminate |].
  destruct (update_first _ _ _) as [us n] eqn:Eup. simpl.
  intros H. inversion H; subst. clear H.
  apply Z.ltb_ge in Eq.
  unfold float_lt in El. apply negb_false_iff in El. apply Qle_bool_iff in El.
  split; [lia |].
  repeat (split; [reflexivity |]).
  exists user. auto.
Qed.

Lemma StronglySorted_app_inv {A : Type} (R : A -> A -> Prop) (l1 l2 : list A) :
  StronglySorted R (l1 ++ l2) ->
  forall a b, In a l1 -> In b l2 -> R a b.
Proof.
  induction l1 as [| x l1 IH]; simpl; intros HS a b Ha Hb; [contradiction |].
  inversion HS as [| ? ? HS' HF]; subst.
  destruct Ha as [-> | Ha].
  - rewrite Forall_forall in HF. apply HF. apply in_or_app. now right.
  - now apply IH.
Qed.

Lemma StronglySorted_filter {A : Type} (R : A -> A -> Prop) (f : A -> bool) (l : list A) :
  StronglySorted R l -> StronglySorted R (filter f l).
Proof.
  induction 1 as [| x l HS IH HF]; simpl; [constructor |].
  destruct (f x); [| exact IH].
  constructor; [exact IH |].
  rewrite Forall_forall in *. intros y Hy. apply filter_In in Hy. now apply HF.
Qed.

(** C4 (amended). A successful purchase of [qty] units sells the first
    [qty] available items of the product in the collection's natural order
    (the query carries no sort); they are the oldest ones whenever that
    order is ascending in [created_at].  With fewer than [qty] available
    items the purchase fails, with "Not enough stock available" once the
    buyer and the balance have passed their checks. *)
Theorem purchase_sells_first_available :
  forall (user_id : Z) (prod : Product) (qty : Z) (total : Q) (now : Z) (s : Store),
    (1 <= qty)%Z ->
    let r := run (purchase_transaction user_id prod qty total now) s in
    let shelf := available_stock (prod_id prod) s in
    let picked := firstn (Z.to_nat qty) shelf in
    (forall oid dl,
        result_value r = inr (oid, dl) ->
        List.length picked = Z.to_nat qty
        /\ dl = map delivered_line picked
        /\ stocks (result_store r) =
             map (fun st => if mem_oid (s_id st) (map s_id picked)
                            then mark_sold user_id now st else st) (stocks s)
        /\ (StronglySorted older_or_same (stocks s) ->
            forall a b, In a picked -> In b (skipn (Z.to_nat qty) shelf) ->
                        older_or_same a b))
    /\ ((Z.of_nat (List.length shelf) < qty)%Z ->
        (exists e, result_value r = inl e)
        /\ (forall user, find_user user_id s = Some user -> banned user = false ->
                         Qle total (balance_inr user) ->
                         result_value r = inl "Not enough stock available")).
Proof.
  intros user_id prod qty total now s Hq r shelf picked. split.
  - intros oid dl Hr.
    destruct (purchase_success_effect _ _ _ _ _ _ _ _ Hr)
      as (Hlen & Hdl & _ & Hst & _).
    fold shelf in Hlen, Hdl, Hst. fold picked in Hlen, Hdl, Hst.
    repeat split; try assumption.
    + assert (List.length picked <= Z.to_nat qty)%nat by apply firstn_le_length. lia.
    + intros HS a b Ha Hb.
      apply (StronglySorted_app_inv older_or_same picked
               (skipn (Z.to_nat qty) shelf)); try assumption.
      unfold picked. rewrite firstn_skipn.
      now apply StronglySorted_filter.
  - intros Hshort.
    assert (Hpick : (Z.of_nat (List.length picked) <? qty)%Z = true).
    { apply Z.ltb_lt.
      assert (List.length picked <= List.length shelf)%nat
        by (unfold picked; rewrite length_firstn; lia).
      lia. }
    unfold picked, shelf, available_stock in Hpick.
    unfold r, result_value, purchase_transaction, find_user. simpl.
    split.
    + destruct (find (user_has_id user_id) (users s)) as [user |]; simpl; [| eauto].
      destruct (banned user); simpl; [eauto |].
      destruct (float_lt (balance_inr user) total); simpl; [eauto |].
      rewrite Hpick. simpl. eauto.
    + intros user -> Hb Hbal. simpl. rewrite Hb. simpl.
      assert (Hlt : float_lt (balance_inr user) total = false).
      { unfold float_lt. apply negb_false_iff. now apply Qle_bool_iff. }
      rewrite Hlt. simpl. rewrite Hpick. reflexivity.
Qed.

Lemma purchase_sells_first_available_witness :
  let r := run (purchase_transaction 1001 scenario_product 2 72 500) scenario_store in
  (1 <= 2)%Z
  /\ result_value r = inr (30, map delivered_line (firstn 2 (stocks scenario_store)))
  /\ map s_status (stocks (result_store r)) = [sold; sold; available].
Proof.
  assert (Hq : (1 <= 2)%Z) by lia.
  assert (Hr : result_value
                 (run (purchase_transaction 1001 scenario_product 2 72 500) scenario_store)
               = inr (30, map delivered_line (firstn 2 (stocks scenario_store))))
    by reflexivity.
  split; [exact Hq |]. split; [exact Hr |].
  destruct (proj1 (purchase_sells_first_available 1001 scenario_product 2 72 500
                     scenario_store Hq) _ _ Hr) as (_ & _ & Hst & _).
  rewrite Hst. reflexivity.
Defined.

(** C4, as stated, fails where the natural order is not the order of
    creation: of two available items the one stored first is sold although
    the other one is older. *)
Lemma purchase_not_by_creation_time :
  let r := run (purchase_transaction 1001 scenario_product 1 40 500) unsorted_store in
  map (fun st => (s_id st, created_at st, s_status st)) (stocks unsorted_store)
    = [(20, 5%Z, available); (21, 3%Z, available)]
  /\ result_value r = inr (30, ["Email: a@x" ++ nl ++ "Password: pa"]%string)
  /\ map (fun st => (s_id st, created_at st, s_status st)) (stocks (result_store r))
     = [(20, 5%Z, sold); (21, 3%Z, available)].
Proof. repeat split. Qed.

(** ** Pricing *)

Lemma fold_max_acc (l : list Z) (b pc : Z) :
  fold_right Z.max (Z.max b pc) l = Z.max pc (fold_right Z.max b l).
Proof. induction l as [| x l IH]; simpl; [lia | rewrite IH; lia]. Qed.

Lemma best_of_rules_fold (rs : list Rule) (qty b : Z) :
  best_of_rules rs qty b = fold_right Z.max b (applicable_percents rs qty).
Proof.
  revert b. induction rs as [| rule r IH]; intros b; simpl; [reflexivity |].
  destruct (min_qty rule) as [mq |]; [| apply IH].
  destruct (percent rule) as [pc |]; [| apply IH].
  destruct (Z.geb qty mq); [| apply IH].
  simpl. rewrite IH. apply fold_max_acc.
Qed.

Lemma fold_max_upper (l : list Z) (b : Z) :
  (b <= fold_right Z.max b l)%Z
  /\ (forall x, In x l -> (x <= fold_right Z.max b l)%Z)
  /\ (fold_right Z.max b l = b \/ In (fold_right Z.max b l) l).
Proof.
  induction l as [| x l (IH1 & IH2 & IH3)]; simpl.
  - repeat split; [lia | contradiction | now left].
  - repeat split.
    + lia.
    + intros y [-> | Hy]; [lia |]. specialize (IH2 y Hy). lia.
    + destruct (Z.max_spec x (fold_right Z.max b l)) as [[_ ->] | [_ ->]].
      * destruct IH3 as [-> | H]; [now left | right; now right].
      * right. now left.
Qed.

Lemma applicable_percents_In (rs : list Rule) (qty pc : Z) :
  In pc (applicable_percents rs qty) <->
  exists rule mq, In rule rs /\ min_qty rule = Some mq /\ percent rule = Some pc
                  /\ (mq <= qty)%Z.
Proof.
  induction rs as [| rule r IH]; simpl.
  - split; [contradiction | intros (? & ? & [] & _)].
  - destruct (min_qty rule) as [mq |] eqn:Em.
    2: { rewrite IH. split.
         - intros (x & m & Hx & H). exists x, m. auto.
         - intros (x & m & [-> | Hx] & H1 & H); [congruence | exists x, m; auto]. }
    destruct (percent rule) as [p |] eqn:Ep.
    2: { rewrite IH. split.
         - intros (x & m & Hx & H). exists x, m. auto.
         - intros (x & m & [-> | Hx] & H1 & H2 & H); [congruence | exists x, m; auto]. }
    destruct (Z.geb qty mq) eqn:Eg.
    + simpl. rewrite IH. split.
      * intros [-> | (x & m & Hx & H)].
        -- exists rule, mq. repeat split; auto. apply Z.geb_le in Eg. lia.
        -- exists x, m. auto.
      * intros (x & m & [-> | Hx] & H1 & H2 & H).
        -- left. congruence.
        -- right. exists x, m. auto.
    + rewrite IH. split.
      * intros (x & m & Hx & H). exists x, m. auto.
      * intros (x & m & [-> | Hx] & H1 & H2 & H).
        -- rewrite Em in H1. inversion H1; subst.
           destruct (Z.geb_spec qty m); [discriminate | lia].
        -- exists x, m. auto.
Qed.

Lemma order_total_formula (unit : Q) (qty pct : Z) :
  Qeq (order_total unit qty pct)
      (unit * inject_Z qty * (1 - inject_Z pct / 100))%Q.
Proof. unfold order_total, float_of_int. field. Qed.

Lemma find_update_first {A : Type} (f : A -> bool) (g : A -> A) (l : list A) :
  (forall x, f x = true -> f (g x) = true) ->
  find f (fst (update_first f g l)) = option_map g (find f l).
Proof.
  intros Hg. induction l as [| x r IH]; simpl; [reflexivity |].
  destruct (f x) eqn:E; simpl.
  - now rewrite (Hg x E).
  - destruct (update_first f g r) as [r' n]. simpl in *. now rewrite E.
Qed.

Lemma user_update_keeps_id (up : UserUpdate) (uid : Z) (u : User) :
  user_has_id uid u = true -> user_has_id uid (apply_user_update up u) = true.
Proof. destruct up; simpl; auto. Qed.

Lemma run_upsert_user (uid : Z) (s : Store) :
  exists s1 u t,
    run (upsert_user uid) s = (s1, u, t)
    /\ find_user uid s1 = Some u
    /\ balance_incs t = 0
    /\ ((find_user uid s = Some u /\ s1 = s)
        \/ (find_user uid s = None /\ u = new_user uid
            /\ s1 = set_users s (users s ++ [new_user uid]))).
Proof.
  unfold upsert_user, find_user. simpl.
  destruct (find (user_has_id uid) (users s)) as [u |] eqn:E; simpl.
  - rewrite E. exists s, u. eexists. repeat split; auto.
  - assert (H : find (user_has_id uid) (users s ++ [new_user uid]) = Some (new_user uid)).
    { clear -E. induction (users s) as [| x r IH]; simpl in *.
      - unfold user_has_id. simpl. now rewrite Z.eqb_refl.
      - destruct (user_has_id uid x); [discriminate | auto]. }
    rewrite H. eexists _, (new_user uid), _. repeat split; auto.
Qed.

Lemma cb_confirm_success :
  forall (s : Store) (user_id : Z) (oid : ObjectId) (now : Z) (o : ObjectId)
         (dl : list string) (total : Q),
    result_value (run (cb_confirm user_id true oid now) s) = confirm_purchased o dl total ->
    exists user c prod,
      find_user user_id s = Some user
      /\ cart user = Some c
      /\ cart_product_id c = oid
      /\ find (fun p => Nat.eqb (prod_id p) oid && enabled p) (products s) = Some prod
      /\ result_value
           (run (purchase_transaction user_id prod (Z.max 1 (cart_qty c)) total now) s)
         = inr (o, dl)
      /\ result_store (run (cb_confirm user_id true oid now) s)
         = result_store
             (run (purchase_transaction user_id prod (Z.max 1 (cart_qty c)) total now) s)
      /\ total = order_total (unit_price prod) (Z.max 1 (cart_qty c))
                   (match find (fun d => Nat.eqb (d_product_id d) (prod_id prod))
                                (discounts s) with
                    | None => 0%Z
                    | Some d => best_of_rules (rules d) (Z.max 1 (cart_qty c)) 0
                    end).
Proof.
  intros s user_id oid now o dl total.
  remember (run (cb_confirm user_id true oid now) s) as r eqn:Er0.
  unfold cb_confirm in Er0. rewrite run_bind in Er0.
  destruct (run_upsert_user user_id s) as (s1 & u & t & E1 & Hf & _ & Hcase).
  rewrite E1 in Er0. simpl negb in Er0. cbv iota in Er0.
  rewrite run_Do in Er0. unfold exec in Er0. cbv beta iota zeta in Er0.
  unfold find_user in Hf. rewrite Hf in Er0.
  destruct Hcase as [[Hu ->] | (Hn & -> & ->)].
  2: { subst r. simpl. discriminate. }
  destruct (banned u) eqn:Eb; [subst r; simpl; discriminate |].
  destruct (cart u) as [c |] eqn:Ec; [| subst r; simpl; discriminate].
  destruct (Nat.eqb (cart_product_id c) oid) eqn:En; [| subst r; simpl; discriminate].
  simpl negb in Er0. cbv iota in Er0.
  rewrite run_Do in Er0. unfold exec in Er0. cbv beta iota zeta in Er0.
  destruct (find (fun p => Nat.eqb (prod_id p) oid && enabled p) (products s))
    as [prod |] eqn:Ep; [| subst r; simpl; discriminate].
  rewrite run_bind in Er0.
  unfold best_discount_percent in Er0 at 1.
  rewrite run_Do in Er0. unfold exec in Er0. cbv beta iota zeta in Er0.
  set (pct := match find (fun d => Nat.eqb (d_product_id d) (prod_id prod)) (discounts s) with
              | None => 0%Z
              | Some d => best_of_rules (rules d) (Z.max 1 (cart_qty c)) 0
              end).
  assert (Hpct : run (match find (fun d => Nat.eqb (d_product_id d) (prod_id prod))
                              (discounts s) with
                      | Some d => Ret (best_of_rules (rules d) (Z.max 1 (cart_qty c)) 0)
                      | None => Ret 0%Z
                      end) s = (s, pct, [])).
  { unfold pct. destruct (find _ (discounts s)); reflexivity. }
  rewrite Hpct in Er0. cbv zeta iota beta in Er0.
  rewrite run_bind in Er0.
  set (tot := order_total (unit_price prod) (Z.max 1 (cart_qty c)) pct) in *.
  destruct (run (purchase_transaction user_id prod (Z.max 1 (cart_qty c)) tot now) s)
    as [[s2 res] t2] eqn:Er.
  destruct res as [e | [o' dl']]; cbn [run] in Er0; subst r;
    unfold result_value, result_store; cbn [fst snd]; [discriminate |].
  intros H. inversion H; subst o' dl' total. clear H.
  exists u, c, prod. apply Nat.eqb_eq in En.
  unfold find_user. fold tot. rewrite Er. repeat split; auto.
Qed.

(** C5. The discount applied is the largest percent among the rules whose
    threshold the quantity reaches (0 when there is none); a confirmed
    purchase charges [unit x qty x (1 - percent/100)], debits exactly that,
    and writes one order holding [qty] delivered lines.  In the scenario
    (balance 100, two units at 40, 10 % from two units) the charge is 72, the
    balance becomes 28, one order of quantity 2 with two delivered lines is
    written and exactly two stock items become sold. *)
Theorem purchase_charges_discounted_total :
  (forall (rs : list Rule) (qty : Z),
      let best := best_of_rules rs qty 0 in
      (0 <= best)%Z
      /\ (forall rule mq pc,
             In rule rs -> min_qty rule = Some mq -> percent rule = Some pc ->
             (mq <= qty)%Z -> (pc <= best)%Z)
      /\ (best = 0%Z
          \/ exists rule mq,
               In rule rs /\ min_qty rule = Some mq /\ percent rule = Some best
               /\ (mq <= qty)%Z))
  /\ (forall (unit : Q) (qty pct : Z),
         Qeq (order_total unit qty pct)
             (unit * inject_Z qty * (1 - inject_Z pct / 100))%Q)
  /\ (forall (s : Store) (user_id : Z) (oid : ObjectId) (now : Z) (o : ObjectId)
             (dl : list string) (total : Q),
         result_value (run (cb_confirm user_id true oid now) s)
           = confirm_purchased o dl total ->
         let s' := result_store (run (cb_confirm user_id true oid now) s) in
         exists user c prod,
           find_user user_id s = Some user
           /\ cart user = Some c
           /\ find (fun p => Nat.eqb (prod_id p) oid && enabled p) (products s) = Some prod
           /\ total = order_total (unit_price prod) (Z.max 1 (cart_qty c))
                        (match find (fun d => Nat.eqb (d_product_id d) (prod_id prod))
                                     (discounts s) with
                         | None => 0%Z
                         | Some d => best_of_rules (rules d) (Z.max 1 (cart_qty c)) 0
                         end)
           /\ balance_of user_id s' = Some (balance_inr user + - total)%Q
           /\ orders s' = orders s ++
                [ {| o_id := o; o_user_id := user_id; o_product_id := prod_id prod;
                     o_product_name := prod_name prod; o_qty := Z.max 1 (cart_qty c);
                     total_usd := total; delivered := dl; o_created_at := now |} ]
           /\ List.length dl = Z.to_nat (Z.max 1 (cart_qty c)))
  /\ (let r := run (cb_confirm 1001 true 7 500) scenario_store in
      balance_of 1001 scenario_store = Some 100%Q
      /\ unit_price scenario_product = 40%Q
      /\ count_sold (stocks scenario_store) = 0
      /\ exists o dl total ord b,
           result_value r = confirm_purchased o dl total
           /\ Qeq total 72
           /\ balance_of 1001 (result_store r) = Some b
           /\ Qeq b 28
           /\ orders (result_store r) = [ord]
           /\ o_qty ord = 2%Z
           /\ List.length (delivered ord) = 2
           /\ count_sold (stocks (result_store r)) = 2).
Proof.
  split; [| split; [| split]].
  - intros rs qty best. unfold best. rewrite best_of_rules_fold.
    destruct (fold_max_upper (applicable_percents rs qty) 0) as (H1 & H2 & H3).
    split; [exact H1 |]. split.
    + intros rule mq pc Hin Hm Hp Hq. apply H2. apply applicable_percents_In.
      exists rule, mq. auto.
    + destruct H3 as [H3 | H3]; [now left | right].
      now apply applicable_percents_In in H3.
  - apply order_total_formula.
  - intros s user_id oid now o dl total Hr s'.
    destruct (cb_confirm_success _ _ _ _ _ _ _ Hr)
      as (user & c & prod & Hu & Hc & _ & Hp & Hpt & Hst & Htot).
    destruct (purchase_success_effect _ _ _ _ _ _ _ _ Hpt)
      as (Hlen & Hdl & _ & _ & Hus & Hord & _).
    exists user, c, prod. unfold s'. rewrite Hst.
    repeat (split; [assumption |]). split; [| split; [exact Hord |]].
    + unfold balance_of, find_user. rewrite Hus.
      rewrite find_update_first by (intros; now apply user_update_keeps_id).
      unfold find_user in Hu. rewrite Hu. reflexivity.
    + rewrite Hdl, length_map.
      cbv zeta in Hlen.
      assert (List.length (firstn (Z.to_nat (Z.max 1 (cart_qty c)))
                             (available_stock (prod_id prod) s))
              <= Z.to_nat (Z.max 1 (cart_qty c)))%nat by apply firstn_le_length.
      lia.
  - cbv zeta. repeat (split; [reflexivity |]).
    eexists _, _, _, _, _.
    split; [vm_compute; reflexivity |].
    split; [vm_compute; reflexivity |].
    split; [vm_compute; reflexivity |].
    split; [vm_compute; reflexivity |].
    split; [vm_compute; reflexivity |].
    repeat split.
Qed.

Lemma purchase_charges_discounted_total_witness :
  exists user,
    find_user 1001 scenario_store = Some user
    /\ balance_of 1001 (result_store (run (cb_confirm 1001 true 7 500) scenario_store))
       = Some (balance_inr user + - order_total 40 2 10)%Q.
Proof.
  assert (Hr : result_value (run (cb_confirm 1001 true 7 500) scenario_store)
               = confirm_purchased 30 (map delivered_line (firstn 2 (stocks scenario_store)))
                   (order_total 40 2 10)) by reflexivity.
  destruct (proj1 (proj2 (proj2 purchase_charges_discounted_total))
              scenario_store 1001%Z 7 500%Z _ _ _ Hr)
    as (user & c & prod & Hu & _ & _ & _ & Hb & _).
  exists user. split; assumption.
Defined.

(** ** Webhook reconciliation, one delivery after the other *)


Lemma status_eqb_eq (a b : Status) : status_eqb a b = true <-> a = b.
Proof. destruct a, b; simpl; split; congruence. Qed.


(** The conditional update of [oxapay_webhook] hits the very document the
    preceding [find_one] returned, when that one is not approved. *)
Lemma approve_first_found (t : string) (ps : list Payment) (p : Payment) :
  find (payment_matches (by_oxapay_track_id t)) ps = Some p ->
  status_eqb (p_status p) Approved = false ->
  exists ps',
    update_first (payment_matches (by_oxapay_track_id_not_approved t))
                 (apply_payment_update set_status_auto) ps = (ps', 1)
    /\ find (payment_matches (by_oxapay_track_id t)) ps'
       = Some (apply_payment_update set_status_auto p).
Proof.
  induction ps as [| x r IH]; simpl; [discriminate |].
  destruct (opt_string_eqb (oxapay_track_id x) (Some t)) eqn:Ex; simpl.
  - intros H; inversion H; subst x. intros ->. simpl.
    eexists. split; [reflexivity |]. simpl. now rewrite Ex.
  - intros Hf Hs. destruct (IH Hf Hs) as (ps' & -> & Hfind).
    eexists. split; [reflexivity |]. simpl. now rewrite Ex.
Qed.

Ltac run_step :=
  rewrite run_Do; unfold exec; cbv beta iota zeta.

(** One delivery to [oxapay_webhook]: either nothing is written and nothing
    credited, or the payment found is approved and credited once. *)
Lemma oxapay_webhook_delivery (config : Config) (data : OxaPayData) (s : Store) :
  let r := run (oxapay_webhook config data) s in
  (result_store r = s /\ balance_incs (result_trace r) = 0
   /\ (ok (result_value r) = true -> oxapay_duplicate_ack (result_value r)))
  \/ (exists t p ps',
        oxapay_accepts data t
        /\ find (payment_matches (by_oxapay_track_id t)) (payments s) = Some p
        /\ p_method p = "oxapay"
        /\ status_eqb (p_status p) Approved = false
        /\ find (payment_matches (by_oxapay_track_id t)) ps'
           = Some (apply_payment_update set_status_auto p)
        /\ update_first (payment_matches (by_oxapay_track_id_not_approved t))
                        (apply_payment_update set_status_auto) (payments s) = (ps', 1)
        /\ result_store r =
             set_users (set_payments s ps')
               (fst (update_first (user_has_id (p_user_id p))
                       (apply_user_update
                          (inc_balance_inr (float_of_int (oxapay_credit config p))))
                       (users s)))
        /\ balance_incs (result_trace r) = 1
        /\ result_value r = ok_true).
Proof.
  unfold oxapay_webhook.
  destruct (data_track_id data) as [t |] eqn:Et; [| left; simpl; repeat split; discriminate].
  destruct (String.eqb_spec t "") as [| Hne]; [left; simpl; repeat split; discriminate |].
  destruct (data_amount data) eqn:Ea; [| left; simpl; repeat split; discriminate].
  destruct (mem_string _ _) eqn:Est; [| left; simpl; repeat split; discriminate].
  simpl negb. cbv iota.
  cbv zeta. unfold oxapay_settle. run_step.
  destruct (find (payment_matches (by_oxapay_track_id t)) (payments s)) as [p |] eqn:Ef;
    [| left; simpl; repeat split; discriminate].
  destruct (String.eqb (p_method p) "oxapay") eqn:Em;
    [| left; simpl; repeat split; discriminate].
  simpl negb. cbv iota.
  destruct (status_eqb (p_status p) Approved) eqn:Es.
  { left. simpl. repeat split; reflexivity. }
  right. destruct (approve_first_found _ _ _ Ef Es) as (ps' & Hup & Hfind).
  exists t, p, ps'. apply String.eqb_eq in Em.
  unfold oxapay_approve. run_step. rewrite Hup. cbv beta iota zeta. cbn [fst snd].
  change (Nat.ltb 0 1) with true. cbv iota.
  unfold oxapay_credit_wallet. run_step. cbn [users set_payments].
  destruct (update_first (user_has_id (p_user_id p)) _ (users s)) as [us n] eqn:Eu.
  simpl. unfold oxapay_accepts. rewrite Ea. repeat split; auto; discriminate.
Qed.


(** The first delivery for a payment that is not approved yet: it is
    approved and its user is credited, once. *)
Lemma oxapay_first_delivery (config : Config) (data : OxaPayData) (s : Store)
    (t : string) (p : Payment) :
  oxapay_accepts data t ->
  find (payment_matches (by_oxapay_track_id t)) (payments s) = Some p ->
  p_method p = "oxapay" ->
  p_status p <> Approved ->
  let r := run (oxapay_webhook config data) s in
  result_value r = ok_true
  /\ credited (result_trace r) = [p_user_id p]
  /\ find (payment_matches (by_oxapay_track_id t)) (payments (result_store r))
     = Some (apply_payment_update set_status_auto p).
Proof.
  intros (Ht & Hne & Ha & Hst) Hf Hm Hs. unfold oxapay_webhook.
  rewrite Ht. destruct (String.eqb_spec t ""); [contradiction |].
  destruct (data_amount data); [| congruence].
  rewrite Hst. simpl negb. cbv iota zeta.
  assert (Es : status_eqb (p_status p) Approved = false).
  { destruct (status_eqb (p_status p) Approved) eqn:E; [| reflexivity].
    apply status_eqb_eq in E. contradiction. }
  destruct (approve_first_found _ _ _ Hf Es) as (ps' & Hup & Hfind).
  unfold oxapay_settle. run_step. rewrite Hf, Hm, Es. simpl negb. cbv iota.
  unfold oxapay_approve. run_step. rewrite Hup. cbv beta iota zeta. cbn [fst snd].
  change (Nat.ltb 0 1) with true. cbv iota.
  unfold oxapay_credit_wallet. run_step. cbn [users set_payments].
  destruct (update_first (user_has_id (p_user_id p)) _ (users s)) as [us n0] eqn:Eu.
  simpl. repeat split; auto.
Qed.











(** ** Reasoning about a handler run to completion *)

Lemma wp_run {A : Type} (p : Prog A) (Q : A -> Store -> Prop) (s : Store) :
  wp p Q s <-> Q (result_value (run p s)) (result_store (run p s)).
Proof.
  revert s. induction p as [a | B op k IH]; intros s; simpl.
  - reflexivity.
  - rewrite IH. destruct (exec op s) as [s1 b]. simpl.
    destruct (run (k b) s1) as [[s2 a] t]. reflexivity.
Qed.

Lemma wp_bind {A C : Type} (m : Prog A) (f : A -> Prog C) (Q : C -> Store -> Prop)
    (s : Store) :
  wp (bind m f) Q s <-> wp m (fun a s1 => wp (f a) Q s1) s.
Proof.
  revert s. induction m as [a | B op k IH]; intros s; simpl; [reflexivity | apply IH].
Qed.

Lemma wp_upsert_user (uid : Z) (Q : User -> Store -> Prop) (s : Store) :
  (forall u, find_user uid s = Some u -> Q u s) ->
  (find_user uid s = None ->
   find_user uid (set_users s (users s ++ [new_user uid])) = Some (new_user uid) ->
   Q (new_user uid) (set_users s (users s ++ [new_user uid]))) ->
  wp (upsert_user uid) Q s.
Proof.
  intros H1 H2. apply wp_run.
  destruct (run_upsert_user uid s) as (s1 & u & t & -> & Hf & _ & [[Hu ->] | (Hn & -> & ->)]);
    unfold result_value, result_store; simpl; auto.
Qed.

Lemma Forall_update_first {A : Type} (P : A -> Prop) (f : A -> bool) (g : A -> A)
    (l : list A) :
  Forall P l -> (forall x, In x l -> f x = true -> P x -> P (g x)) ->
  Forall P (fst (update_first f g l)).
Proof.
  induction l as [| x r IH]; simpl; intros HF Hg; [constructor |].
  inversion HF; subst.
  destruct (f x) eqn:E; simpl.
  - constructor; auto.
  - destruct (update_first f g r) as [r' n] eqn:Er. simpl in *.
    constructor; auto.
Qed.

Lemma Forall_snoc {A : Type} (P : A -> Prop) (l : list A) (x : A) :
  Forall P l -> P x -> Forall P (l ++ [x]).
Proof. intros. apply Forall_app. split; auto. Qed.

Lemma evolves_refl (R : Payment -> Payment -> Prop) (l : list Payment) :
  (forall p, R p p) -> evolves R l l.
Proof. intros H. induction l; constructor; auto. Qed.

Lemma evolves_snoc (R : Payment -> Payment -> Prop) (l : list Payment) (x : Payment) :
  (forall p, R p p) -> evolves R l (l ++ [x]).
Proof. intros H. induction l; simpl; constructor; auto. Qed.

Lemma evolves_update_first (R : Payment -> Payment -> Prop) (f : Payment -> bool)
    (g : Payment -> Payment) (l : list Payment) :
  (forall p, R p p) -> (forall p, In p l -> f p = true -> R p (g p)) ->
  evolves R l (fst (update_first f g l)).
Proof.
  intros Hr. induction l as [| x r IH]; simpl; intros Hg; [constructor |].
  destruct (f x) eqn:E; simpl.
  - constructor; [auto | now apply evolves_refl].
  - destruct (update_first f g r) as [r' n] eqn:Er. simpl in *.
    constructor; auto.
Qed.

Lemma evolves_trans (R : Payment -> Payment -> Prop) (l1 l2 l3 : list Payment) :
  (forall a b c, R a b -> R b c -> R a c) ->
  evolves R l1 l2 -> evolves R l2 l3 -> evolves R l1 l3.
Proof.
  intros Ht H12. revert l3. induction H12 as [| p p' l l' Hp H IH]; intros l3 H23.
  - constructor.
  - inversion H23; subst. constructor; eauto.
Qed.

Lemma evolves_nth (R : Payment -> Payment -> Prop) (l l' : list Payment) (i : nat)
    (p : Payment) :
  evolves R l l' -> nth_error l i = Some p ->
  exists p', nth_error l' i = Some p' /\ R p p'.
Proof.
  intros H. revert i. induction H as [| q q' l l' Hq H IH]; intros i Hn.
  - destruct i; discriminate.
  - destruct i as [| i]; simpl in *.
    + inversion Hn; subst. eauto.
    + auto.
Qed.

Lemma status_step_refl (b : bool) (p : Payment) : status_step b p p.
Proof. unfold status_step. repeat split; auto. Qed.

Lemma find_In {A : Type} (f : A -> bool) (l : list A) (x : A) :
  find f l = Some x -> In x l /\ f x = true.
Proof. apply find_some. Qed.

Lemma find_refine {A : Type} (f f' : A -> bool) (l : list A) (x : A) :
  find f l = Some x -> (forall y, f' y = true -> f y = true) -> f' x = true ->
  find f' l = Some x.
Proof.
  intros Hf Himp Hx. induction l as [| a r IH]; simpl in *; [discriminate |].
  destruct (f a) eqn:Ea.
  - inversion Hf; subst. now rewrite Hx.
  - destruct (f' a) eqn:Ea'; [| auto].
    apply Himp in Ea'. congruence.
Qed.

Lemma update_first_none {A : Type} (f : A -> bool) (g : A -> A) (l : list A) :
  find f l = None -> update_first f g l = (l, 0).
Proof.
  induction l as [| a r IH]; simpl; [reflexivity |].
  destruct (f a); [discriminate |]. intros H. now rewrite (IH H).
Qed.

Lemma update_first_count {A : Type} (f : A -> bool) (g : A -> A) (l : list A) (x : A) :
  find f l = Some x -> snd (update_first f g l) = 1.
Proof.
  induction l as [| a r IH]; simpl; [discriminate |].
  destruct (f a); [reflexivity |]. intros H.
  destruct (update_first f g r) as [r' n]. simpl in *. auto.
Qed.

(** [update_one] after a [find_one] with the same filter rewrites the
    document that was found. *)
Lemma Forall_update_first_found {A : Type} (P : A -> Prop) (f : A -> bool) (g : A -> A)
    (l : list A) (x : A) :
  find f l = Some x -> Forall P l -> (P x -> P (g x)) ->
  Forall P (fst (update_first f g l)).
Proof.
  induction l as [| a r IH]; simpl; [discriminate |].
  intros Hf HF Hg. inversion HF; subst.
  destruct (f a) eqn:Ea; simpl.
  - inversion Hf; subst. constructor; auto.
  - destruct (update_first f g r) as [r' n] eqn:Er. simpl in *. constructor; auto.
Qed.

Lemma evolves_update_first_found (R : Payment -> Payment -> Prop) (f : Payment -> bool)
    (g : Payment -> Payment) (l : list Payment) (x : Payment) :
  (forall p, R p p) -> find f l = Some x -> R x (g x) ->
  evolves R l (fst (update_first f g l)).
Proof.
  intros Hr. induction l as [| a r IH]; simpl; [discriminate |].
  intros Hf Hg. destruct (f a) eqn:Ea; simpl.
  - inversion Hf; subst. constructor; [auto | now apply evolves_refl].
  - destruct (update_first f g r) as [r' n] eqn:Er. simpl in *. constructor; auto.
Qed.

(** ** Users and flows under the updates the handlers make *)

Lemma find_user_update (uid v : Z) (up : UserUpdate) (l : list User) :
  find (user_has_id uid) (fst (update_first (user_has_id v) (apply_user_update up) l))
  = if Z.eqb uid v then option_map (apply_user_update up) (find (user_has_id v) l)
    else find (user_has_id uid) l.
Proof.
  induction l as [| a r IH]; simpl.
  - now destruct (Z.eqb uid v).
  - destruct (user_has_id v a) eqn:Ea; simpl.
    + unfold user_has_id in *. apply Z.eqb_eq in Ea.
      assert (Hid : u_id (apply_user_update up a) = u_id a) by (destruct up; reflexivity).
      rewrite Hid, Ea. destruct (Z.eqb v uid) eqn:E.
      * apply Z.eqb_eq in E. subst. now rewrite Z.eqb_refl.
      * rewrite Z.eqb_sym, E. reflexivity.
    + destruct (update_first (user_has_id v) (apply_user_update up) r) as [r' n] eqn:Er.
      simpl in *. unfold user_has_id in *.
      destruct (Z.eqb (u_id a) uid) eqn:E.
      * apply Z.eqb_eq in E. subst uid. rewrite Ea. reflexivity.
      * exact IH.
Qed.

Lemma find_user_snoc (uid v : Z) (l : list User) :
  find (user_has_id uid) (l ++ [new_user v])
  = match find (user_has_id uid) l with
    | Some u => Some u
    | None => if Z.eqb v uid then Some (new_user v) else None
    end.
Proof.
  induction l as [| a r IH]; simpl.
  - unfold user_has_id. simpl. reflexivity.
  - destruct (user_has_id uid a); auto.
Qed.

Lemma keeps_proof_flow_spec (up : UserUpdate) (u : User) (pid : ObjectId) :
  keeps_proof_flow up ->
  flow (apply_user_update up u) = Some (flow_await_proof pid) ->
  flow u = Some (flow_await_proof pid).
Proof.
  destruct up as [d | [f |] | b | c]; simpl; auto; try discriminate.
  destruct f; simpl; try discriminate; contradiction.
Qed.

Lemma payments_inv_parts (s : Store) :
  payments_inv s <->
  Forall razorpay_doc_ok (payments s)
  /\ flows_ok (users s) (payments s) (next_oid s)
  /\ Forall (fun p => p_id p < next_oid s) (payments s).
Proof. reflexivity. Qed.

Lemma flows_ok_users_update (us : list User) (ps : list Payment) (n : ObjectId)
    (v : Z) (up : UserUpdate) :
  keeps_proof_flow up -> flows_ok us ps n ->
  flows_ok (fst (update_first (user_has_id v) (apply_user_update up) us)) ps n.
Proof.
  intros Hk H uid u pid. rewrite find_user_update.
  destruct (Z.eqb uid v) eqn:E.
  - apply Z.eqb_eq in E. subst v.
    destruct (find (user_has_id uid) us) as [u0 |] eqn:Ef; simpl; [| discriminate].
    intros Hu Hfl. inversion Hu; subst u.
    apply (H uid u0 pid Ef). eapply keeps_proof_flow_spec; eauto.
  - apply H.
Qed.

Lemma flows_ok_upsert (us : list User) (ps : list Payment) (n : ObjectId) (v : Z) :
  flows_ok us ps n -> flows_ok (us ++ [new_user v]) ps n.
Proof.
  intros H uid u pid. rewrite find_user_snoc.
  destruct (find (user_has_id uid) us) as [u0 |] eqn:Ef.
  - intros Hu. inversion Hu; subst. now apply H.
  - destruct (Z.eqb v uid); [| discriminate].
    intros Hu. inversion Hu; subst. simpl. discriminate.
Qed.

(** A new document under a fresh identifier concerns no pending proof. *)
Lemma flows_ok_insert (us : list User) (ps : list Payment) (n : ObjectId) (p : Payment) :
  p_id p = n -> flows_ok us ps n -> flows_ok us (ps ++ [p]) (S n).
Proof.
  intros Hid H uid u pid Hu Hf. destruct (H uid u pid Hu Hf) as [Hlt HF].
  split; [lia |]. apply Forall_snoc; [exact HF |]. intros. lia.
Qed.

Lemma flows_ok_payment_update (us : list User) (ps : list Payment) (n : ObjectId)
    (f : Payment -> bool) (u : PaymentUpdate) (x : Payment) :
  find f ps = Some x ->
  (p_status x <> AwaitProof \/ oxapay_track_id x <> None) ->
  flows_ok us ps n ->
  flows_ok us (fst (update_first f (apply_payment_update u) ps)) n.
Proof.
  intros Hf Hx H uid w pid Hu Hfl. destruct (H uid w pid Hu Hfl) as [Hlt HF].
  split; [exact Hlt |].
  apply (Forall_update_first_found _ _ _ _ _ Hf HF).
  intros HP Hid Huid.
  assert (Hid' : p_id x = pid) by (destruct u; exact Hid).
  assert (Huid' : p_user_id x = uid) by (destruct u; exact Huid).
  destruct (HP Hid' Huid') as [Hs Ht]. destruct Hx; contradiction.
Qed.

Lemma razorpay_ok_payment_update (ps : list Payment) (f : Payment -> bool)
    (u : PaymentUpdate) (x : Payment) :
  find f ps = Some x -> p_method x <> "razorpay" ->
  Forall razorpay_doc_ok ps ->
  Forall razorpay_doc_ok (fst (update_first f (apply_payment_update u) ps)).
Proof.
  intros Hf Hm HF. apply (Forall_update_first_found _ _ _ _ _ Hf HF).
  intros _ Hm'. exfalso. apply Hm. destruct u; exact Hm'.
Qed.

Lemma fresh_payment_update (ps : list Payment) (n : ObjectId) (f : Payment -> bool)
    (u : PaymentUpdate) :
  Forall (fun p => p_id p < n) ps ->
  Forall (fun p => p_id p < n) (fst (update_first f (apply_payment_update u) ps)).
Proof.
  intros HF. apply Forall_update_first; [exact HF |].
  intros x _ _ Hx. destruct u; exact Hx.
Qed.

Lemma fresh_bump (ps : list Payment) (n : ObjectId) :
  Forall (fun p => p_id p < n) ps -> Forall (fun p => p_id p < S n) ps.
Proof. apply Forall_impl. intros; lia. Qed.

Lemma amounts_payment_update (ps : list Payment) (f : Payment -> bool) (u : PaymentUpdate) :
  Forall amount_nonneg ps ->
  Forall amount_nonneg (fst (update_first f (apply_payment_update u) ps)).
Proof.
  intros HF. apply Forall_update_first; [exact HF |].
  intros x _ _ Hx. destruct u; exact Hx.
Qed.

Lemma balances_user_update (us : list User) (v : Z) (up : UserUpdate) :
  match up with inc_balance_inr d => Qle 0 d | _ => True end ->
  Forall (fun u => Qle 0 (balance_inr u)) us ->
  Forall (fun u => Qle 0 (balance_inr u))
         (fst (update_first (user_has_id v) (apply_user_update up) us)).
Proof.
  intros Hup HF. apply Forall_update_first; [exact HF |].
  intros x _ _ Hx. destruct up; simpl; auto.
  rewrite <- (Qplus_0_l 0). apply Qplus_le_compat; assumption.
Qed.

(** ** Every handler keeps the payment invariants *)

Lemma pay_spec_intro (late : bool) (s s' : Store) :
  (payments_inv s ->
   Forall razorpay_doc_ok (payments s')
   /\ flows_ok (users s') (payments s') (next_oid s')
   /\ Forall (fun p => p_id p < next_oid s') (payments s')
   /\ evolves (status_step late) (payments s) (payments s')) ->
  pay_spec late s s'.
Proof.
  intros H Hinv. destruct (H Hinv) as (H1 & H2 & H3 & H4).
  split; [| exact H4]. apply payments_inv_parts. auto.
Qed.

Lemma pay_spec_same_payments (late : bool) (s s' : Store) :
  payments s' = payments s -> next_oid s <= next_oid s' ->
  (forall ps n, flows_ok (users s) ps n -> flows_ok (users s') ps n) ->
  pay_spec late s s'.
Proof.
  intros Hp Hn Hu. apply pay_spec_intro. intros (H1 & H2 & H3). rewrite Hp.
  split; [exact H1 |]. split; [| split].
  - apply Hu. intros uid u pid Hf Hfl. destruct (H2 uid u pid Hf Hfl). split; [lia | auto].
  - revert H3. apply Forall_impl. intros; lia.
  - apply evolves_refl. intros. apply status_step_refl.
Qed.

Lemma pay_spec_refl (late : bool) (s : Store) : pay_spec late s s.
Proof. apply pay_spec_same_payments; auto. Qed.

Lemma pay_spec_trans (late : bool) (s1 s2 s3 : Store) :
  pay_spec late s1 s2 -> pay_spec late s2 s3 -> pay_spec late s1 s3.
Proof.
  intros H12 H23 H1. destruct (H12 H1) as [H2 E12]. destruct (H23 H2) as [H3 E23].
  split; [exact H3 |]. eapply evolves_trans; eauto.
  clear. unfold status_step.
  intros a b c (A1 & A2 & A3 & A0 & A4 & A5) (B1 & B2 & B3 & B0 & B4 & B5).
  repeat split; try congruence; auto.
  intros Ht. destruct (A5 Ht) as [Hs | (Hl & Hs & Hm)].
  - rewrite <- Hs in Ht. destruct (B5 Ht) as [Hs' | (Hl' & Hs' & Hm')].
    + left. congruence.
    + right. repeat split; auto. congruence.
  - right. repeat split; auto.
Qed.

Ltac wp_simpl :=
  cbn [wp exec fst snd users products stocks orders payments discounts RAZORPAY_STATE
       next_oid set_users set_stocks set_orders set_payments set_discounts set_state
       set_next_oid negb].

Ltac wp_branch :=
  match goal with
  | |- wp (bind _ _) _ _ => apply wp_bind
  | |- wp (match ?x with _ => _ end) _ _ => destruct x eqn:?
  | |- wp (if ?b then _ else _) _ _ => destruct b eqn:?
  end.

Ltac wp_go := repeat (wp_simpl; try wp_branch).

Lemma track_of_match (t : string) (p : Payment) :
  opt_string_eqb (oxapay_track_id p) (Some t) = true -> oxapay_track_id p = Some t.
Proof.
  destruct (oxapay_track_id p) as [t' |]; simpl; [| discriminate].
  intros H. apply String.eqb_eq in H. now subst.
Qed.

(** A payment write on the document a [find_one] returned, when that
    document is neither approved nor awaiting a proof. *)
Lemma pay_spec_payment_update (late : bool) (s : Store) (f : Payment -> bool)
    (u : PaymentUpdate) (x : Payment) :
  find f (payments s) = Some x ->
  p_status x <> Approved ->
  (p_status x <> AwaitProof \/ oxapay_track_id x <> None) ->
  status_step late x (apply_payment_update u x) ->
  pay_spec late s (set_payments s (fst (update_first f (apply_payment_update u) (payments s)))).
Proof.
  intros Hf Hna Hx Hstep. apply pay_spec_intro. intros (H1 & H2 & H3). wp_simpl.
  assert (Hm : p_method x <> "razorpay").
  { intros Hm. rewrite Forall_forall in H1.
    destruct (H1 x (proj1 (find_In _ _ _ Hf)) Hm). contradiction. }
  split; [| split; [| split]].
  - eapply razorpay_ok_payment_update; eauto.
  - eapply flows_ok_payment_update; eauto.
  - now apply fresh_payment_update.
  - apply (evolves_update_first_found _ _ _ _ x); auto.
    intros. apply status_step_refl.
Qed.

Lemma pay_spec_user_update (late : bool) (s : Store) (v : Z) (up : UserUpdate) :
  keeps_proof_flow up ->
  pay_spec late s
    (set_users s (fst (update_first (user_has_id v) (apply_user_update up) (users s)))).
Proof.
  intros Hk. apply pay_spec_same_payments; auto.
  intros ps n. wp_simpl. now apply flows_ok_users_update.
Qed.

Lemma pay_spec_upsert (late : bool) (s : Store) (v : Z) :
  pay_spec late s (set_users s (users s ++ [new_user v])).
Proof.
  apply pay_spec_same_payments; auto.
  intros ps n. wp_simpl. now apply flows_ok_upsert.
Qed.

(** A new document stored under the next fresh identifier. *)
Lemma pay_spec_insert (late : bool) (s : Store) (p : Payment) :
  p_id p = next_oid s -> razorpay_doc_ok p ->
  pay_spec late s
    (set_payments (set_next_oid s (S (next_oid s))) (payments s ++ [p])).
Proof.
  intros Hid Hp. apply pay_spec_intro. intros (H1 & H2 & H3). wp_simpl.
  split; [| split; [| split]].
  - now apply Forall_snoc.
  - now apply flows_ok_insert.
  - apply Forall_snoc; [now apply fresh_bump | lia].
  - apply evolves_snoc. intros. apply status_step_refl.
Qed.

Lemma oxapay_approve_spec (s : Store) (t : string) (p : Payment) :
  find (payment_matches (by_oxapay_track_id t)) (payments s) = Some p ->
  negb (String.eqb (p_method p) "oxapay") = false ->
  status_eqb (p_status p) Approved = false ->
  find (payment_matches (by_oxapay_track_id_not_approved t)) (payments s) = Some p
  /\ pay_spec true s
       (set_payments s
          (fst (update_first (payment_matches (by_oxapay_track_id_not_approved t))
                  (apply_payment_update set_status_auto) (payments s)))).
Proof.
  intros Hf Hm Hs.
  destruct (find_In _ _ _ Hf) as [_ Ht]. simpl in Ht.
  pose proof (track_of_match _ _ Ht) as Htr.
  apply negb_false_iff in Hm. apply String.eqb_eq in Hm.
  assert (Hf' : find (payment_matches (by_oxapay_track_id_not_approved t)) (payments s)
                = Some p).
  { apply (find_refine (payment_matches (by_oxapay_track_id t)) _ _ _ Hf).
    - intros y Hy. simpl in *. now apply andb_prop in Hy.
    - simpl. rewrite Ht, Hs. reflexivity. }
  split; [exact Hf' |].
  apply (pay_spec_payment_update true s _ set_status_auto p Hf').
  - intros Hst. rewrite Hst in Hs. discriminate.
  - right. rewrite Htr. discriminate.
  - unfold status_step. simpl. repeat split; auto; discriminate.
Qed.

Lemma oxapay_webhook_pay_spec (config : Config) (data : OxaPayData) (s : Store) :
  wp (oxapay_webhook config data) (fun _ s' => pay_spec true s s') s.
Proof.
  unfold oxapay_webhook, oxapay_settle, oxapay_approve, oxapay_credit_wallet.
  wp_go; try apply pay_spec_refl.
  - match goal with
    | H : find (payment_matches (by_oxapay_track_id ?t)) _ = Some ?p,
      Hm : negb _ = false, Hs : status_eqb _ _ = false |- _ =>
        destruct (oxapay_approve_spec s t p H Hm Hs) as [_ Hspec]
    end.
    eapply pay_spec_trans; [exact Hspec |].
    apply (pay_spec_user_update true (set_payments s _)). exact I.
  - match goal with
    | H : find (payment_matches (by_oxapay_track_id ?t)) _ = Some ?p,
      Hm : negb _ = false, Hs : status_eqb _ _ = false |- _ =>
        destruct (oxapay_approve_spec s t p H Hm Hs) as [_ Hspec]
    end.
    exact Hspec.
Qed.

Lemma wp_mono {A : Type} (p : Prog A) (Q Q' : A -> Store -> Prop) (s : Store) :
  (forall a s', Q a s' -> Q' a s') -> wp p Q s -> wp p Q' s.
Proof.
  intros H. revert s. induction p as [a | B op k IH]; intros s; simpl; auto.
Qed.

Lemma wp_after {A : Type} (late : bool) (p : Prog A) (s s1 : Store) :
  pay_spec late s s1 ->
  wp p (fun _ s' => pay_spec late s1 s') s1 ->
  wp p (fun _ s' => pay_spec late s s') s1.
Proof.
  intros H. apply wp_mono. intros _ s' H'. eapply pay_spec_trans; eauto.
Qed.

(** A leaf of a handler that wrote no payment. *)
Ltac pay_untouched :=
  apply pay_spec_same_payments;
  [ reflexivity
  | wp_simpl; lia
  | let H := fresh "Hfl" in
    intros ps n H; wp_simpl;
    repeat first [ apply flows_ok_users_update; [exact I |]
                 | apply flows_ok_upsert ];
    exact H ].

Lemma razorpay_credit_pay_spec (payment_id : option string) (user_id amount_inr : Z)
    (s : Store) :
  wp (razorpay_credit payment_id user_id amount_inr) (fun _ s' => pay_spec false s s') s.
Proof.
  unfold razorpay_credit. wp_go; try apply pay_spec_refl.
  - eapply pay_spec_trans.
    + apply (pay_spec_insert false s
               (razorpay_payment_doc (next_oid s) payment_id user_id amount_inr)).
      * reflexivity.
      * intros _. split; reflexivity.
    + pay_untouched.
  - eapply pay_spec_trans.
    + apply (pay_spec_insert false s
               (razorpay_payment_doc (next_oid s) payment_id user_id amount_inr)).
      * reflexivity.
      * intros _. split; reflexivity.
    + pay_untouched.
Qed.

Lemma razorpay_webhook_pay_spec (hmac : string -> string -> string) (config : Config)
    (signature payload : string) (data : RzpData) (s : Store) :
  wp (razorpay_webhook hmac config signature payload data)
     (fun _ s' => pay_spec false s s') s.
Proof.
  unfold razorpay_webhook, handle_payment_captured, handle_qr_payment_success.
  wp_go; try apply pay_spec_refl;
    (eapply wp_mono; [| apply razorpay_credit_pay_spec]); auto.
Qed.

Lemma wp_upsert_then {A : Type} (late : bool) (uid : Z) (f : User -> Prog A) (s : Store) :
  (forall s0 u, find_user uid s0 = Some u ->
                wp (f u) (fun _ s' => pay_spec late s0 s') s0) ->
  wp (bind (upsert_user uid) f) (fun _ s' => pay_spec late s s') s.
Proof.
  intros H. apply wp_bind. apply wp_upsert_user.
  - intros u Hu. now apply H.
  - intros _ Hu. apply wp_after; [| now apply H].
    pay_untouched.
Qed.

Lemma handle_razorpay_payment_pay_spec (user_id : Z) (amount : Q) (created : option string)
    (message_id : Z) (s : Store) :
  wp (handle_razorpay_payment user_id amount created message_id)
     (fun _ s' => pay_spec false s s') s.
Proof. unfold handle_razorpay_payment. wp_go; pay_untouched. Qed.

Lemma handle_oxapay_payment_pay_spec (user_id : Z) (amount_usd : Q)
    (created : option string) (s : Store) :
  wp (handle_oxapay_payment user_id amount_usd created) (fun _ s' => pay_spec false s s') s.
Proof.
  unfold handle_oxapay_payment. wp_go; [| pay_untouched].
  eapply pay_spec_trans.
  - apply (pay_spec_user_update false s user_id (set_flow None)). exact I.
  - match goal with
    | |- pay_spec _ ?s1 (set_payments _ (_ ++ [?p])) =>
        apply (pay_spec_insert false s1 p)
    end.
    + reflexivity.
    + intros Hm. discriminate.
Qed.

(** The manual funding step: the payment is stored in [await_proof] and the
    user's flow points at it. *)
Lemma pay_spec_manual (s : Store) (user_id : Z) (method : string) (amount : Z) :
  String.eqb method "razorpay" = false ->
  pay_spec false s
    (set_users
       (set_payments (set_next_oid s (S (next_oid s)))
          (payments s ++ [manual_payment_doc (next_oid s) user_id method amount]))
       (fst (update_first (user_has_id user_id)
               (apply_user_update (set_flow (Some (flow_await_proof (next_oid s)))))
               (users s)))).
Proof.
  intros Hm. apply pay_spec_intro. intros (H1 & H2 & H3). wp_simpl.
  split; [| split; [| split]].
  - apply Forall_snoc; [exact H1 |]. intros Hr. simpl in Hr. subst method. discriminate.
  - intros uid u pid. rewrite find_user_update.
    destruct (Z.eqb uid user_id) eqn:E.
    + destruct (find (user_has_id user_id) (users s)) as [u0 |]; simpl; [| discriminate].
      intros Hu Hfl. inversion Hu; subst u. simpl in Hfl. inversion Hfl; subst pid.
      split; [lia |]. apply Forall_snoc.
      * revert H3. apply Forall_impl. intros; lia.
      * intros _ _. split; reflexivity.
    + intros Hu Hfl. destruct (H2 uid u pid Hu Hfl) as [Hlt HF].
      split; [lia |]. apply Forall_snoc; [exact HF |]. simpl. intros; lia.
  - apply Forall_snoc; [now apply fresh_bump | simpl; lia].
  - apply evolves_snoc. intros. apply status_step_refl.
Qed.

Lemma on_text_pay_spec (config : Config) (user_id : Z) (joined : bool) (message : TextMsg)
    (created : option string) (message_id : Z) (s : Store) :
  wp (on_text config user_id joined message created message_id)
     (fun _ s' => pay_spec false s s') s.
Proof.
  unfold on_text. apply wp_upsert_then. intros s0 u Hu.
  wp_go; try apply pay_spec_refl; try pay_untouched.
  - eapply wp_mono; [| apply handle_razorpay_payment_pay_spec]. auto.
  - eapply wp_mono; [| apply handle_oxapay_payment_pay_spec]. auto.
  - now apply pay_spec_manual.
Qed.

(** The proof upload: the payment the flow points at goes from
    [await_proof] to [pending], and the flow is cleared. *)
Lemma pay_spec_photo (s : Store) (user_id : Z) (u : User) (oid : ObjectId)
    (file_id : string) :
  find_user user_id s = Some u -> flow u = Some (flow_await_proof oid) ->
  pay_spec false s
    (set_users
       (set_payments s
          (fst (update_first (payment_matches (by_id_user oid user_id))
                  (apply_payment_update (set_pending_proof file_id)) (payments s))))
       (fst (update_first (user_has_id user_id) (apply_user_update (set_flow None))
               (users s)))).
Proof.
  intros Hu Hfl. apply pay_spec_intro. intros (H1 & H2 & H3). wp_simpl.
  destruct (H2 user_id u oid Hu Hfl) as [Hlt Hmine].
  assert (Hx : forall x, In x (payments s) ->
                         payment_matches (by_id_user oid user_id) x = true ->
                         p_status x = AwaitProof /\ oxapay_track_id x = None).
  { intros x Hin Hmx. simpl in Hmx. apply andb_prop in Hmx. destruct Hmx as [Ha Hb].
    apply Nat.eqb_eq in Ha. apply Z.eqb_eq in Hb.
    rewrite Forall_forall in Hmine. now apply Hmine. }
  split; [| split; [| split]].
  - apply Forall_update_first; [exact H1 |].
    intros x Hin Hmx Hok Hm. simpl in Hm. destruct (Hok Hm) as [Hst _].
    destruct (Hx x Hin Hmx). congruence.
  - intros uid w pid. rewrite find_user_update.
    destruct (Z.eqb uid user_id) eqn:E.
    + destruct (find (user_has_id user_id) (users s)); simpl; [| discriminate].
      intros Hw Hf. inversion Hw; subst w. simpl in Hf. discriminate.
    + intros Hw Hf. destruct (H2 uid w pid Hw Hf) as [Hl HF].
      split; [exact Hl |].
      apply Forall_update_first; [exact HF |].
      intros x Hin Hmx _ _ Huid. simpl in Hmx, Huid. apply andb_prop in Hmx.
      destruct Hmx as [_ Hb]. apply Z.eqb_eq in Hb.
      apply Z.eqb_neq in E. congruence.
  - now apply fresh_payment_update.
  - apply evolves_update_first; [intros; apply status_step_refl |].
    intros x Hin Hmx. destruct (Hx x Hin Hmx) as [Hst _].
    unfold status_step. simpl. rewrite Hst. repeat split; auto; discriminate.
Qed.

Lemma on_photo_pay_spec (user_id : Z) (file_id : string) (s : Store) :
  wp (on_photo user_id file_id) (fun _ s' => pay_spec false s s') s.
Proof.
  unfold on_photo. apply wp_upsert_then. intros s0 u Hu.
  wp_go; try apply pay_spec_refl.
  unfold find_user in Hu.
  match goal with
  | H : match find _ _ with _ => _ end = Some _ |- _ => rewrite Hu in H
  end.
  now apply (pay_spec_photo s0 user_id u).
Qed.

Lemma cb_pay_amount_pay_spec (config : Config) (user_id : Z) (joined : bool)
    (method : string) (s : Store) :
  wp (cb_pay_amount config user_id joined method) (fun _ s' => pay_spec false s s') s.
Proof.
  unfold cb_pay_amount. apply wp_upsert_then. intros s0 u Hu.
  wp_go; try apply pay_spec_refl; pay_untouched.
Qed.

Lemma cb_qty_pay_spec (user_id : Z) (joined : bool) (prod : ObjectId) (qty : Z) (s : Store) :
  wp (cb_qty user_id joined prod qty) (fun _ s' => pay_spec false s s') s.
Proof.
  unfold cb_qty. apply wp_upsert_then. intros s0 u Hu.
  wp_go; try apply pay_spec_refl; pay_untouched.
Qed.

Lemma purchase_transaction_pay_spec (user_id : Z) (prod : Product) (qty : Z) (total : Q)
    (now : Z) (s : Store) :
  wp (purchase_transaction user_id prod qty total now) (fun _ s' => pay_spec false s s') s.
Proof.
  unfold purchase_transaction. wp_go; try apply pay_spec_refl; pay_untouched.
Qed.

Lemma cb_confirm_pay_spec (user_id : Z) (joined : bool) (oid : ObjectId) (now : Z)
    (s : Store) :
  wp (cb_confirm user_id joined oid now) (fun _ s' => pay_spec false s s') s.
Proof.
  unfold cb_confirm, best_discount_percent. apply wp_upsert_then. intros s0 u Hu.
  wp_go; try apply pay_spec_refl;
    (eapply wp_mono; [| apply purchase_transaction_pay_spec]);
    intros [e | [o dl]] s' H; exact H.
Qed.

Lemma cb_cancel_razorpay_pay_spec (user_id : Z) (qr : string) (s : Store) :
  wp (cb_cancel_razorpay user_id qr) (fun _ s' => pay_spec false s s') s.
Proof. unfold cb_cancel_razorpay. wp_go; try apply pay_spec_refl; pay_untouched. Qed.

(** A pending OxaPay payment found by its track id moves to [st]. *)
Lemma pay_spec_leave_pending (s : Store) (t : string) (p : Payment) (st : Status) :
  st <> AwaitProof ->
  find (payment_matches (by_oxapay_track_id t)) (payments s) = Some p ->
  status_eqb (p_status p) Pending = true ->
  pay_spec false s
    (set_payments s
       (fst (update_first (payment_matches (by_oxapay_track_id t))
               (apply_payment_update (set_status st)) (payments s)))).
Proof.
  intros Hst Hf Hs. apply status_eqb_eq in Hs.
  apply (pay_spec_payment_update false s _ (set_status st) p Hf).
  - rewrite Hs. discriminate.
  - left. rewrite Hs. discriminate.
  - unfold status_step. simpl. rewrite Hs. repeat split; auto; discriminate.
Qed.

Lemma cb_cancel_oxapay_pay_spec (user_id : Z) (track_id : string) (s : Store) :
  wp (cb_cancel_oxapay user_id track_id) (fun _ s' => pay_spec false s s') s.
Proof.
  unfold cb_cancel_oxapay. wp_go; try apply pay_spec_refl.
  eapply pay_spec_leave_pending; [discriminate | eassumption | assumption].
Qed.

Lemma oxapay_expiry_at_ttl_pay_spec (track_id : string) (s : Store) :
  wp (oxapay_expiry_at_ttl track_id) (fun _ s' => pay_spec false s s') s.
Proof.
  unfold oxapay_expiry_at_ttl. wp_go; try apply pay_spec_refl.
  eapply pay_spec_leave_pending; [discriminate | eassumption | assumption].
Qed.

(** The polling loop only reads. *)
Lemma wp_oxapay_expiry_polls (polls : nat) (track_id : string) (at_ttl : Prog TimerExit)
    (Q : TimerExit -> Store -> Prop) (s : Store) :
  Q timer_stopped s -> wp at_ttl Q s -> wp (oxapay_expiry_polls polls track_id at_ttl) Q s.
Proof.
  intros Hq Ht. induction polls as [| n IH]; simpl; [exact Ht |].
  destruct (find _ (payments s)) as [p |]; [| exact IH].
  destruct (status_eqb (p_status p) Approved); [exact Hq |].
  destruct (_ || _); [exact Hq | exact IH].
Qed.

Lemma handle_oxapay_expiry_pay_spec (track_id : string) (s : Store) :
  wp (handle_oxapay_expiry track_id) (fun _ s' => pay_spec false s s') s.
Proof.
  unfold handle_oxapay_expiry. wp_simpl.
  apply wp_oxapay_expiry_polls; [apply pay_spec_refl | apply oxapay_expiry_at_ttl_pay_spec].
Qed.

Lemma wp_razorpay_expiry_polls (polls : nat) (user_id : Z) (qr : string)
    (at_ttl : Prog TimerExit) (Q : TimerExit -> Store -> Prop) (s : Store) :
  Q timer_stopped s -> wp at_ttl Q s ->
  wp (razorpay_expiry_polls polls user_id qr at_ttl) Q s.
Proof.
  intros Hq Ht. induction polls as [| n IH]; simpl; [exact Ht |].
  destruct (state_get user_id (RAZORPAY_STATE s)) as [st |]; [| exact Hq].
  destruct (negb _); [exact Hq | exact IH].
Qed.

Lemma handle_razorpay_expiry_pay_spec (user_id : Z) (qr : string) (s : Store) :
  wp (handle_razorpay_expiry user_id qr) (fun _ s' => pay_spec false s s') s.
Proof.
  unfold handle_razorpay_expiry.
  apply wp_razorpay_expiry_polls; [apply pay_spec_refl |].
  wp_go. pay_untouched.
Qed.

(** The admin's verdict on a pending payment found by its id. *)
Lemma pay_spec_review (s : Store) (oid : ObjectId) (p : Payment) (st : Status) :
  st <> AwaitProof ->
  find (payment_matches (by_id oid)) (payments s) = Some p ->
  negb (status_eqb (p_status p) Pending) = false ->
  pay_spec false s
    (set_payments s
       (fst (update_first (payment_matches (by_id oid))
               (apply_payment_update (set_status st)) (payments s)))).
Proof.
  intros Hst Hf Hs. apply negb_false_iff in Hs. apply status_eqb_eq in Hs.
  apply (pay_spec_payment_update false s _ (set_status st) p Hf).
  - rewrite Hs. discriminate.
  - left. rewrite Hs. discriminate.
  - unfold status_step. simpl. rewrite Hs. repeat split; auto; discriminate.
Qed.

Lemma cb_admin_pay_action_pay_spec (config : Config) (admin_id : Z) (oid : ObjectId)
    (action : PayAction) (s : Store) :
  wp (cb_admin_pay_action config admin_id oid action) (fun _ s' => pay_spec false s s') s.
Proof.
  unfold cb_admin_pay_action. apply wp_upsert_then. intros s0 u Hu.
  wp_go; try apply pay_spec_refl.
  - eapply pay_spec_trans;
      [apply (pay_spec_review s0 oid p Approved); [discriminate | assumption | assumption] |].
    apply (pay_spec_user_update false (set_payments s0 _)). exact I.
  - eapply pay_spec_review; [discriminate | eassumption | assumption].
Qed.

Lemma cb_admin_user_action_pay_spec (config : Config) (admin_id target_id : Z)
    (action : UserAction) (s : Store) :
  wp (cb_admin_user_action config admin_id target_id action)
     (fun _ s' => pay_spec false s s') s.
Proof.
  unfold cb_admin_user_action. apply wp_upsert_then. intros s0 u Hu.
  wp_go; try apply pay_spec_refl; pay_untouched.
Qed.

(** Every request keeps [payments_inv] and lets the payments evolve by
    [status_step]; only the OxaPay webhook may settle late. *)
Lemma serve_pay_spec (hmac : string -> string -> string) (config : Config) (s : Store)
    (req : Request) :
  pay_spec (is_oxapay_webhook req) s (serve hmac config s req).
Proof.
  unfold serve. apply (wp_run (handle hmac config req) (fun _ s' => pay_spec _ s s')).
  destruct req; simpl is_oxapay_webhook; unfold handle;
    try (apply wp_bind; eapply wp_mono;
         [intros ? ? H; simpl; exact H |]).
  - apply oxapay_webhook_pay_spec.
  - apply razorpay_webhook_pay_spec.
  - apply on_text_pay_spec.
  - apply on_photo_pay_spec.
  - apply cb_pay_amount_pay_spec.
  - apply cb_qty_pay_spec.
  - apply cb_confirm_pay_spec.
  - apply cb_cancel_razorpay_pay_spec.
  - apply cb_cancel_oxapay_pay_spec.
  - apply handle_oxapay_expiry_pay_spec.
  - apply handle_razorpay_expiry_pay_spec.
  - apply cb_admin_pay_action_pay_spec.
  - apply cb_admin_user_action_pay_spec.
Qed.

Lemma payments_inv_empty : payments_inv empty_store.
Proof.
  unfold payments_inv, proof_flow_ok, find_user. simpl.
  repeat split; try constructor; discriminate.
Qed.

Lemma serve_all_payments_inv (hmac : string -> string -> string) (config : Config)
    (reqs : list Request) (s : Store) :
  payments_inv s -> payments_inv (serve_all hmac config reqs s).
Proof.
  revert s. induction reqs as [| r reqs IH]; intros s H; simpl; [exact H |].
  apply IH. now apply (serve_pay_spec hmac config s r).
Qed.

Lemma payments_unchanged_wp {A : Type} (p : Prog A) (s : Store) :
  wp p (fun _ s' => payments s' = payments s) s ->
  payments (result_store (run p s)) = payments s.
Proof. intros H. now apply (wp_run p (fun _ s' => payments s' = payments s)). Qed.

(** C6 (amended). Under every request a payment document keeps its place
    and identity, never returns to [await_proof], and stays approved once
    approved.  A rejected, cancelled or expired payment keeps its status
    under every request but one: the OxaPay webhook, whose conditional update
    excludes only [approved], moves an OxaPay payment in any other status to
    [approved]. *)
Theorem terminal_status_final_except_late_settlement :
  forall (hmac : string -> string -> string) (config : Config) (s : Store)
         (req : Request) (i : nat) (p : Payment),
    payments_inv s ->
    nth_error (payments s) i = Some p ->
    exists p',
      nth_error (payments (serve hmac config s req)) i = Some p'
      /\ p_id p' = p_id p
      /\ (p_status p <> AwaitProof -> p_status p' <> AwaitProof)
      /\ (p_status p = Approved -> p_status p' = Approved)
      /\ (is_terminal (p_status p) = true ->
          p_status p' = p_status p
          \/ (is_oxapay_webhook req = true /\ p_status p' = Approved
              /\ p_method p = "oxapay")).
Proof.
  intros hmac config s req i p Hinv Hn.
  destruct (serve_pay_spec hmac config s req Hinv) as [_ Hev].
  destruct (evolves_nth _ _ _ i p Hev Hn) as (p' & Hn' & H1 & _ & _ & H2 & H3 & H4).
  exists p'. repeat split; auto.
Qed.

Lemma tx1_cancelled_inv : payments_inv tx1_cancelled.
Proof.
  unfold tx1_cancelled.
  apply (serve_pay_spec constant_digest default_config tx1_store (req_cancel_oxapay 1001 "TX1")).
  split; [| split].
  - constructor; [intros H; discriminate H | constructor].
  - intros uid u pid Hf Hfl. unfold find_user in Hf. simpl in Hf.
    destruct (user_has_id uid (wallet_user 1001 0)); [| discriminate Hf].
    inversion Hf; subst u. discriminate Hfl.
  - repeat constructor.
Qed.

Lemma terminal_status_final_except_late_settlement_witness :
  exists p',
    nth_error (payments (serve constant_digest default_config tx1_cancelled
                           (req_oxapay_expiry "TX1"))) 0 = Some p'
    /\ p_status p' = Cancelled.
Proof.
  assert (Hn : nth_error (payments tx1_cancelled) 0
               = Some (with_status (oxapay_payment_doc 0 1001 50 "TX1") Cancelled false None))
    by reflexivity.
  destruct (terminal_status_final_except_late_settlement constant_digest default_config
              tx1_cancelled (req_oxapay_expiry "TX1") 0 _ tx1_cancelled_inv Hn)
    as (p' & Hn' & _ & _ & _ & Ht).
  exists p'. split; [exact Hn' |].
  destruct (Ht eq_refl) as [H | (H & _)]; [exact H | discriminate H].
Defined.

(** C6, as stated, fails: a settlement event delivered after the user
    cancelled moves the cancelled payment to approved and credits it. *)
Lemma cancelled_payment_approved_by_webhook :
  let s' := serve constant_digest default_config tx1_cancelled (req_oxapay_webhook tx1_paid) in
  map p_status (payments tx1_cancelled) = [Cancelled]
  /\ map p_status (payments s') = [Approved]
  /\ balance_of 1001 tx1_cancelled = Some 0%Q
  /\ balance_of 1001 s' = Some (0 + inject_Z 4500)%Q.
Proof. vm_compute. repeat split. Qed.

(** C10. A Razorpay payment record is created approved and stays approved:
    showing a QR code writes only the in-process map, cancelling it or
    letting it expire writes no payment, every request keeps
    [payments_inv], and so every Razorpay record of every store reached from
    the empty one is approved. *)
Theorem razorpay_payments_always_approved :
  forall (hmac : string -> string -> string) (config : Config),
    (forall doc_id payment_id user_id amount_inr,
        p_status (razorpay_payment_doc doc_id payment_id user_id amount_inr) = Approved
        /\ p_method (razorpay_payment_doc doc_id payment_id user_id amount_inr) = "razorpay")
    /\ (forall user_id amount qr message_id s,
           let s' := result_store
                       (run (handle_razorpay_payment user_id amount (Some qr) message_id) s) in
           payments s' = payments s
           /\ state_get user_id (RAZORPAY_STATE s')
              = Some {| qr_message_id := message_id; qr_code_id := qr; qr_amount := amount |})
    /\ (forall user_id qr s,
           payments (result_store (run (cb_cancel_razorpay user_id qr) s)) = payments s)
    /\ (forall user_id qr s,
           payments (result_store (run (handle_razorpay_expiry user_id qr) s)) = payments s)
    /\ (forall s req, payments_inv s -> payments_inv (serve hmac config s req))
    /\ (forall s req i p,
           payments_inv s -> nth_error (payments s) i = Some p ->
           p_method p = "razorpay" ->
           exists p', nth_error (payments (serve hmac config s req)) i = Some p'
                      /\ p_method p' = "razorpay" /\ p_status p' = Approved)
    /\ (forall reqs,
           Forall (fun p => p_method p = "razorpay" -> p_status p = Approved)
                  (payments (serve_all hmac config reqs empty_store))).
Proof.
  intros hmac config.
  split; [| split; [| split; [| split; [| split; [| split]]]]].
  - intros. split; reflexivity.
  - intros user_id amount qr message_id s. simpl. split; [reflexivity |].
    now rewrite Z.eqb_refl.
  - intros user_id qr s. apply payments_unchanged_wp.
    unfold cb_cancel_razorpay. wp_go; reflexivity.
  - intros user_id qr s. apply payments_unchanged_wp.
    unfold handle_razorpay_expiry.
    apply wp_razorpay_expiry_polls; [reflexivity | wp_go; reflexivity].
  - intros s req H. now apply (serve_pay_spec hmac config s req).
  - intros s req i p Hinv Hn Hm.
    destruct (serve_pay_spec hmac config s req Hinv) as [_ Hev].
    destruct (evolves_nth _ _ _ i p Hev Hn) as (p' & Hn' & _ & _ & H3 & _ & H5 & _).
    exists p'. split; [exact Hn' |]. split; [congruence |].
    apply H5. destruct Hinv as (H1 & _).
    rewrite Forall_forall in H1. apply (H1 p); [| exact Hm].
    eapply nth_error_In; eauto.
  - intros reqs.
    destruct (serve_all_payments_inv hmac config reqs empty_store payments_inv_empty)
      as (H1 & _).
    revert H1. apply Forall_impl. intros p Hp Hm. now destruct (Hp Hm).
Qed.

Lemma razorpay_payments_always_approved_witness :
  let s := serve_all constant_digest default_config
             [req_razorpay_webhook "00" "{}" (captured_event "pay_1" 5000 1001)]
             empty_store in
  map p_method (payments s) = ["razorpay"]
  /\ Forall (fun p => p_method p = "razorpay" -> p_status p = Approved) (payments s).
Proof.
  split; [reflexivity |].
  exact (proj2 (proj2 (proj2 (proj2 (proj2 (proj2
           (razorpay_payments_always_approved constant_digest default_config))))))
           [req_razorpay_webhook "00" "{}" (captured_event "pay_1" 5000 1001)]).
Defined.

(** ** Every handler but an overdrawing removal keeps balances non-negative *)

Lemma int_of_float_nonneg (x : Q) : Qle 0 x -> (0 <= int_of_float x)%Z.
Proof.
  intros H. unfold int_of_float.
  assert (Hn : (0 <= Qnum x)%Z).
  { unfold Qle in H. simpl in H. lia. }
  destruct (Z.leb_spec 0 (Qnum x)); [| lia].
  change 0%Z with (Qfloor 0). now apply Qfloor_resp_le.
Qed.

Lemma float_of_int_nonneg (z : Z) : (0 <= z)%Z -> Qle 0 (float_of_int z).
Proof. intros H. unfold float_of_int, Qle. simpl. lia. Qed.

Lemma money_int_nonneg (d : option Q) (amt : Z) : money_int d = Some amt -> (0 <= amt)%Z.
Proof.
  unfold money_int. destruct d as [q |]; [| discriminate].
  destruct (Qle_bool q 0) eqn:E; [discriminate |].
  intros H. inversion H; subst. apply int_of_float_nonneg.
  apply Qlt_le_weak. apply Qnot_le_lt. intros Hle.
  apply Qle_bool_iff in Hle. congruence.
Qed.

Lemma oxapay_credit_nonneg (config : Config) (p : Payment) :
  Qle 0 (USD_TO_INR_RATE config) -> amount_nonneg p -> (0 <= oxapay_credit config p)%Z.
Proof.
  intros Hr Hp. unfold oxapay_credit. apply int_of_float_nonneg.
  unfold amount_nonneg in Hp. destruct (p_amount_usd p) as [a |].
  - now apply Qmult_le_0_compat.
  - rewrite Qmult_0_l. apply Qle_refl.
Qed.

Lemma wallet_inv_users (s : Store) (us : list User) :
  Forall (fun u => Qle 0 (balance_inr u)) us -> wallet_inv s -> wallet_inv (set_users s us).
Proof. intros H (_ & H2). split; assumption. Qed.

Lemma wallet_inv_user_update (s : Store) (v : Z) (up : UserUpdate) :
  match up with inc_balance_inr d => Qle 0 d | _ => True end ->
  wallet_inv s ->
  wallet_inv (set_users s (fst (update_first (user_has_id v) (apply_user_update up) (users s)))).
Proof.
  intros Hup H. apply wallet_inv_users; [| exact H].
  apply balances_user_update; [exact Hup | apply H].
Qed.

(** A debit covered by the balance [find_one] has just read. *)
Lemma wallet_inv_debit (s : Store) (v : Z) (u : User) (d : Q) :
  find (user_has_id v) (users s) = Some u -> Qle d (balance_inr u) ->
  wallet_inv s ->
  wallet_inv (set_users s (fst (update_first (user_has_id v)
                                  (apply_user_update (inc_balance_inr (Qopp d))) (users s)))).
Proof.
  intros Hf Hd H. apply wallet_inv_users; [| exact H].
  apply (Forall_update_first_found _ _ _ _ u Hf); [apply H |].
  intros _. simpl. rewrite <- Qle_minus_iff. exact Hd.
Qed.

Lemma wallet_inv_upsert (s : Store) (v : Z) :
  wallet_inv s -> wallet_inv (set_users s (users s ++ [new_user v])).
Proof.
  intros H. apply wallet_inv_users; [| exact H].
  apply Forall_snoc; [apply H | simpl; apply Qle_refl].
Qed.

Lemma wallet_inv_payment_update (s : Store) (f : Payment -> bool) (u : PaymentUpdate) :
  wallet_inv s ->
  wallet_inv (set_payments s (fst (update_first f (apply_payment_update u) (payments s)))).
Proof. intros (H1 & H2). split; [exact H1 |]. now apply amounts_payment_update. Qed.

Lemma wallet_inv_insert (s : Store) (p : Payment) :
  amount_nonneg p -> wallet_inv s -> wallet_inv (set_payments s (payments s ++ [p])).
Proof. intros Hp (H1 & H2). split; [exact H1 |]. now apply Forall_snoc. Qed.

Lemma wallet_inv_frame (s s' : Store) :
  users s' = users s -> payments s' = payments s -> wallet_inv s -> wallet_inv s'.
Proof. unfold wallet_inv, balances_nonneg. intros -> ->. auto. Qed.

Lemma found_amount_nonneg (s : Store) (f : Payment -> bool) (p : Payment) :
  wallet_inv s -> find f (payments s) = Some p -> amount_nonneg p.
Proof.
  intros (_ & H) Hf. rewrite Forall_forall in H. apply H. now apply (find_In _ _ _ Hf).
Qed.

(** Peel the writes off the final store of a leaf, outermost first. *)
Ltac wallet_peel :=
  lazymatch goal with
  | |- wallet_inv (set_users ?inner (fst (update_first _ (apply_user_update ?up) _))) =>
      apply (wallet_inv_user_update inner _ up); [try exact I | wallet_peel]
  | |- wallet_inv (set_users ?inner (_ ++ [new_user ?v])) =>
      apply (wallet_inv_upsert inner v); wallet_peel
  | |- wallet_inv (set_payments ?inner (fst (update_first ?f (apply_payment_update ?u) _))) =>
      apply (wallet_inv_payment_update inner f u); wallet_peel
  | |- wallet_inv (set_payments ?inner (_ ++ [?p])) =>
      apply (wallet_inv_insert inner p); [| wallet_peel]
  | |- wallet_inv (set_stocks ?inner _) =>
      apply (wallet_inv_frame inner); [reflexivity | reflexivity | wallet_peel]
  | |- wallet_inv (set_orders ?inner _) =>
      apply (wallet_inv_frame inner); [reflexivity | reflexivity | wallet_peel]
  | |- wallet_inv (set_state ?inner _) =>
      apply (wallet_inv_frame inner); [reflexivity | reflexivity | wallet_peel]
  | |- wallet_inv (set_next_oid ?inner _) =>
      apply (wallet_inv_frame inner); [reflexivity | reflexivity | wallet_peel]
  | |- wallet_inv _ => assumption
  end.

Section WalletSteps.

Variable config : Config.
Hypothesis rate_nonneg : Qle 0 (USD_TO_INR_RATE config).

Lemma wp_upsert_wallet {A : Type} (uid : Z) (f : User -> Prog A)
    (Q : A -> Store -> Prop) (s : Store) :
  wallet_inv s ->
  (forall u, find_user uid s = Some u -> wp (f u) Q s) ->
  (forall s0, wallet_inv s0 -> find_user uid s0 = Some (new_user uid) ->
              wp (f (new_user uid)) Q s0) ->
  wp (bind (upsert_user uid) f) Q s.
Proof.
  intros Hinv H1 H2. apply wp_bind. apply wp_upsert_user.
  - exact H1.
  - intros _ Hu. apply H2; [now apply wallet_inv_upsert | exact Hu].
Qed.

Lemma oxapay_webhook_wallet (data : OxaPayData) (s : Store) :
  wallet_inv s -> wp (oxapay_webhook config data) (fun _ s' => wallet_inv s') s.
Proof.
  intros Hinv. unfold oxapay_webhook, oxapay_settle, oxapay_approve, oxapay_credit_wallet.
  wp_go; try assumption; wallet_peel.
  apply float_of_int_nonneg, oxapay_credit_nonneg; [exact rate_nonneg |].
  eapply found_amount_nonneg; eauto.
Qed.

Lemma razorpay_credit_wallet (payment_id : option string) (user_id amount_inr : Z)
    (s : Store) :
  (0 <= amount_inr)%Z -> wallet_inv s ->
  wp (razorpay_credit payment_id user_id amount_inr) (fun _ s' => wallet_inv s') s.
Proof.
  intros Ha Hinv. unfold razorpay_credit.
  wp_go; try assumption; wallet_peel; try (now apply float_of_int_nonneg).
Qed.

Lemma razorpay_webhook_wallet (hmac : string -> string -> string)
    (signature payload : string) (data : RzpData) (s : Store) :
  (0 <= ent_amount (payment_entity data))%Z -> wallet_inv s ->
  wp (razorpay_webhook hmac config signature payload data) (fun _ s' => wallet_inv s') s.
Proof.
  intros Ha Hinv.
  assert (Hd : (0 <= ent_amount (payment_entity data) / 100)%Z)
    by (apply Z.div_pos; lia).
  unfold razorpay_webhook, handle_payment_captured, handle_qr_payment_success.
  wp_go; try assumption;
    (eapply wp_mono; [| apply razorpay_credit_wallet; assumption]); auto.
Qed.

Lemma handle_razorpay_payment_wallet (user_id : Z) (amount : Q) (created : option string)
    (message_id : Z) (s : Store) :
  wallet_inv s ->
  wp (handle_razorpay_payment user_id amount created message_id)
     (fun _ s' => wallet_inv s') s.
Proof. intros Hinv. unfold handle_razorpay_payment. wp_go; wallet_peel. Qed.

Lemma handle_oxapay_payment_wallet (user_id : Z) (amount_usd : Q) (created : option string)
    (s : Store) :
  Qle 0 amount_usd -> wallet_inv s ->
  wp (handle_oxapay_payment user_id amount_usd created) (fun _ s' => wallet_inv s') s.
Proof. intros Ha Hinv. unfold handle_oxapay_payment. wp_go; wallet_peel. exact Ha. Qed.

Lemma on_photo_wallet (user_id : Z) (file_id : string) (s : Store) :
  wallet_inv s -> wp (on_photo user_id file_id) (fun _ s' => wallet_inv s') s.
Proof.
  intros Hinv. unfold on_photo.
  apply wp_upsert_wallet; [exact Hinv | intros u Hu | intros s0 Hinv0 Hu];
    wp_go; try assumption; wallet_peel.
Qed.

Lemma cb_pay_amount_wallet (user_id : Z) (joined : bool) (method : string) (s : Store) :
  wallet_inv s ->
  wp (cb_pay_amount config user_id joined method) (fun _ s' => wallet_inv s') s.
Proof.
  intros Hinv. unfold cb_pay_amount.
  apply wp_upsert_wallet; [exact Hinv | intros u Hu | intros s0 Hinv0 Hu];
    wp_go; try assumption; wallet_peel.
Qed.

Lemma cb_qty_wallet (user_id : Z) (joined : bool) (prod : ObjectId) (qty : Z) (s : Store) :
  wallet_inv s -> wp (cb_qty user_id joined prod qty) (fun _ s' => wallet_inv s') s.
Proof.
  intros Hinv. unfold cb_qty.
  apply wp_upsert_wallet; [exact Hinv | intros u Hu | intros s0 Hinv0 Hu];
    wp_go; try assumption; wallet_peel.
Qed.

(** The purchase debit is covered by the balance read inside the
    transaction. *)
Lemma purchase_transaction_wallet (user_id : Z) (prod : Product) (qty : Z) (total : Q)
    (now : Z) (s : Store) :
  wallet_inv s ->
  wp (purchase_transaction user_id prod qty total now) (fun _ s' => wallet_inv s') s.
Proof.
  intros Hinv. unfold purchase_transaction. wp_go; try assumption.
  repeat lazymatch goal with
         | |- wallet_inv (set_orders ?inner _) =>
             apply (wallet_inv_frame inner); [reflexivity | reflexivity |]
         | |- wallet_inv (set_next_oid ?inner _) =>
             apply (wallet_inv_frame inner); [reflexivity | reflexivity |]
         end.
  lazymatch goal with
  | Hf : find (user_has_id user_id) (users s) = Some ?u,
    Hl : float_lt (balance_inr ?u) total = false
    |- wallet_inv (set_users ?inner _) =>
      apply (wallet_inv_debit inner user_id u total);
      [exact Hf
      | unfold float_lt in Hl; apply negb_false_iff in Hl; now apply Qle_bool_iff
      | wallet_peel]
  end.
Qed.

Lemma cb_confirm_wallet (user_id : Z) (joined : bool) (oid : ObjectId) (now : Z)
    (s : Store) :
  wallet_inv s -> wp (cb_confirm user_id joined oid now) (fun _ s' => wallet_inv s') s.
Proof.
  intros Hinv. unfold cb_confirm, best_discount_percent.
  apply wp_upsert_wallet; [exact Hinv | intros u Hu | intros s0 Hinv0 Hu];
    wp_go; try assumption;
    (eapply wp_mono; [| apply purchase_transaction_wallet; assumption]);
    intros [e | [o dl]] s' H; exact H.
Qed.

Lemma cb_cancel_razorpay_wallet (user_id : Z) (qr : string) (s : Store) :
  wallet_inv s -> wp (cb_cancel_razorpay user_id qr) (fun _ s' => wallet_inv s') s.
Proof. intros Hinv. unfold cb_cancel_razorpay. wp_go; wallet_peel. Qed.

Lemma cb_cancel_oxapay_wallet (user_id : Z) (track_id : string) (s : Store) :
  wallet_inv s -> wp (cb_cancel_oxapay user_id track_id) (fun _ s' => wallet_inv s') s.
Proof. intros Hinv. unfold cb_cancel_oxapay. wp_go; wallet_peel. Qed.

Lemma handle_oxapay_expiry_wallet (track_id : string) (s : Store) :
  wallet_inv s -> wp (handle_oxapay_expiry track_id) (fun _ s' => wallet_inv s') s.
Proof.
  intros Hinv. unfold handle_oxapay_expiry. wp_simpl.
  apply wp_oxapay_expiry_polls; [exact Hinv |].
  unfold oxapay_expiry_at_ttl. wp_go; wallet_peel.
Qed.

Lemma handle_razorpay_expiry_wallet (user_id : Z) (qr : string) (s : Store) :
  wallet_inv s -> wp (handle_razorpay_expiry user_id qr) (fun _ s' => wallet_inv s') s.
Proof.
  intros Hinv. unfold handle_razorpay_expiry.
  apply wp_razorpay_expiry_polls; [exact Hinv |]. wp_go; wallet_peel.
Qed.

Lemma cb_admin_pay_action_wallet (admin_id : Z) (oid : ObjectId) (action : PayAction)
    (s : Store) :
  wallet_inv s ->
  wp (cb_admin_pay_action config admin_id oid action) (fun _ s' => wallet_inv s') s.
Proof.
  intros Hinv. unfold cb_admin_pay_action.
  apply wp_upsert_wallet; [exact Hinv | intros u Hu | intros s0 Hinv0 Hu];
    wp_go; try assumption; wallet_peel;
    match goal with
    | Hf : find _ (payments ?s1) = Some ?p |- _ =>
        assert (Hp : amount_nonneg p) by (eapply (found_amount_nonneg s1); eauto);
        unfold amount_nonneg in Hp; destruct (p_amount_usd p);
        [exact Hp | apply Qle_refl]
    end.
Qed.

Lemma cb_admin_user_action_wallet (admin_id target_id : Z) (action : UserAction)
    (s : Store) :
  wallet_inv s ->
  wp (cb_admin_user_action config admin_id target_id action) (fun _ s' => wallet_inv s') s.
Proof.
  intros Hinv. unfold cb_admin_user_action.
  apply wp_upsert_wallet; [exact Hinv | intros u Hu | intros s0 Hinv0 Hu];
    wp_go; try assumption; wallet_peel.
Qed.

End WalletSteps.

Lemma on_text_wallet (config : Config) (user_id : Z) (joined : bool) (message : TextMsg)
    (created : option string) (message_id : Z) (s : Store) :
  overdraws config s (req_on_text user_id joined message created message_id) = false ->
  wallet_inv s ->
  wp (on_text config user_id joined message created message_id)
     (fun _ s' => wallet_inv s') s.
Proof.
  intros Hover Hinv. unfold on_text.
  apply wp_upsert_wallet; [exact Hinv | intros u Hu | intros s0 Hinv0 Hu].
  2: { unfold find_user in Hu. wp_go; try assumption; rewrite Hu in *; discriminate. }
  unfold overdraws in Hover. rewrite Hu in Hover. unfold find_user in Hu, Hover.
  wp_go; try assumption; rewrite Hu in *.
  - now apply handle_razorpay_payment_wallet.
  - apply handle_oxapay_payment_wallet; [| exact Hinv].
    match goal with
    | H : float_lt ?q (1 # 10) = false |- _ =>
        unfold float_lt in H; apply negb_false_iff in H; apply Qle_bool_iff in H;
        apply Qle_trans with (1 # 10)%Q; [discriminate | exact H]
    end.
  - wallet_peel. exact I.
  - match goal with
    | |- wallet_inv (set_users ?inner (fst (update_first _ (apply_user_update ?up) _))) =>
        apply (wallet_inv_user_update inner _ up); [exact I |]
    end.
    match goal with
    | Hm : money_int _ = Some ?z, Hf : flow u = Some _ |- _ =>
        pose proof (money_int_nonneg _ _ Hm) as Hz;
        rewrite Hf in Hover
    end.
    destruct (String.eqb op "addbal").
    + wallet_peel. now apply float_of_int_nonneg.
    + simpl in Hover.
      destruct (find (user_has_id target_id) (users s)) as [target |] eqn:Et.
      * apply (wallet_inv_debit s target_id target (float_of_int z) Et); [| exact Hinv].
        unfold float_lt in Hover. apply negb_false_iff in Hover.
        now apply Qle_bool_iff.
      * rewrite (update_first_none _ _ _ Et). simpl.
        apply (wallet_inv_frame s); [reflexivity | reflexivity | exact Hinv].
Qed.

(** C3 (amended). From a store in which every balance and every stored
    payment amount is non-negative, every request leaves every balance
    non-negative -- the purchase debit, the webhook and admin-approval
    credits, the admin's "Add Balance" -- provided the exchange rate and the
    amount a Razorpay event carries are non-negative, and with one exception:
    an admin's "Remove Balance" of more than the target's balance
    ([overdraws]), which the handler applies without a floor. *)
Theorem balances_nonneg_preserved :
  forall (hmac : string -> string -> string) (config : Config) (s : Store) (req : Request),
    Qle 0 (USD_TO_INR_RATE config) ->
    provider_amount_nonneg req ->
    overdraws config s req = false ->
    wallet_inv s ->
    wallet_inv (serve hmac config s req).
Proof.
  intros hmac config s req Hrate Hamt Hover Hinv.
  unfold serve. apply (wp_run (handle hmac config req) (fun _ s' => wallet_inv s')).
  destruct req; unfold handle;
    try (apply wp_bind; eapply wp_mono; [intros ? ? H; simpl; exact H |]).
  - now apply oxapay_webhook_wallet.
  - now apply razorpay_webhook_wallet.
  - now apply on_text_wallet.
  - now apply on_photo_wallet.
  - now apply cb_pay_amount_wallet.
  - now apply cb_qty_wallet.
  - now apply cb_confirm_wallet.
  - now apply cb_cancel_razorpay_wallet.
  - now apply cb_cancel_oxapay_wallet.
  - now apply handle_oxapay_expiry_wallet.
  - now apply handle_razorpay_expiry_wallet.
  - now apply cb_admin_pay_action_wallet.
  - now apply cb_admin_user_action_wallet.
Qed.

Lemma balances_nonneg_preserved_witness :
  wallet_inv scenario_store
  /\ wallet_inv (serve constant_digest default_config scenario_store
                   (req_confirm 1001 true 7 500))
  /\ balance_of 1001 (serve constant_digest default_config scenario_store
                        (req_confirm 1001 true 7 500))
     = Some (100 + - (40 * 2 - 40 * 2 * (10 / 100)))%Q.
Proof.
  assert (Hrate : Qle 0 (USD_TO_INR_RATE default_config)) by (simpl; discriminate).
  assert (Hinv : wallet_inv scenario_store).
  { split; [| constructor].
    constructor; [simpl; discriminate | constructor]. }
  split; [exact Hinv |]. split.
  - exact (balances_nonneg_preserved constant_digest default_config scenario_store
             (req_confirm 1001 true 7 500) Hrate I eq_refl Hinv).
  - reflexivity.
Defined.

(** C3, as stated, fails on the admin's balance adjustment: removing 5
    credits from a user who has none leaves the balance at -5. *)
Lemma admin_removal_makes_balance_negative :
  let s' := serve constant_digest default_config removal_store
              (req_on_text 7677304116 true text_5 None 0) in
  balance_of 1001 removal_store = Some 0%Q
  /\ balance_of 1001 s' = Some (0 + inject_Z (-5))%Q
  /\ Qlt (0 + inject_Z (-5)) 0.
Proof. vm_compute. repeat split. Qed.

(** ** Authentication of webhook events *)

Lemma oxapay_rejection_writes_nothing (config : Config) (data : OxaPayData) (s : Store) :
  let r := run (oxapay_webhook config data) s in
  ok (result_value r) = false ->
  result_store r = s /\ balance_incs (result_trace r) = 0.
Proof.
  cbv zeta. intros Hok.
  destruct (oxapay_webhook_delivery config data s)
    as [(Hs & Hi & _) | (t & p & ps' & _ & _ & _ & _ & _ & _ & _ & _ & Hv)].
  - auto.
  - rewrite Hv in Hok. discriminate.
Qed.













(** ** Interleaved tasks *)

(** C8: the timer's write at the deadline is not conditional.  When the
    settlement webhook approves and credits the payment between the timer's
    last read (which still sees [pending]) and its [update_one], the payment
    ends [expired] although the wallet was credited. *)
Theorem oxapay_expiry_overwrites_approved :
  let '(s', (timer, answer), t) :=
    interleave settle_at_deadline (handle_oxapay_expiry "TX1")
      (oxapay_webhook default_config tx1_paid) tx1_store in
  map p_status (payments tx1_store) = [Pending]
  /\ timer = timer_expired
  /\ answer = ok_true
  /\ balance_incs t = 1
  /\ balance_of 1001 s' = Some (0 + inject_Z 4500)%Q
  /\ map p_status (payments s') = [Expired].
Proof. vm_compute. repeat split. Qed.

(** Run one after the other, in either order, the two tasks leave the
    payment approved. *)
Lemma oxapay_expiry_sequential :
  (let '(s', _, _) :=
     interleave [] (handle_oxapay_expiry "TX1") (oxapay_webhook default_config tx1_paid)
       tx1_store in
   map p_status (payments s') = [Approved])
  /\ (let '(s', _, _) :=
        interleave [] (oxapay_webhook default_config tx1_paid) (handle_oxapay_expiry "TX1")
          tx1_store in
      map p_status (payments s') = [Approved]).
Proof. vm_compute. split; reflexivity. Qed.

(** C9: the Razorpay handlers check for a duplicate with [find_one] and
    insert afterwards.  Two deliveries of one event that both pass the check
    before either inserts both credit the wallet. *)
Theorem razorpay_concurrent_deliveries_double_credit :
  let '(s', (answer1, answer2), t) :=
    interleave both_check_first captured_50 captured_50 one_user_store in
  answer1 = ok_true /\ answer2 = ok_true
  /\ balance_incs t = 2
  /\ map razorpay_payment_id (payments s') = [Some "pay_1"; Some "pay_1"]
  /\ balance_of 1001 one_user_store = Some 0%Q
  /\ balance_of 1001 s' = Some (0 + inject_Z 50 + inject_Z 50)%Q.
Proof. vm_compute. repeat split. Qed.

Lemma razorpay_sequential_deliveries_single_credit :
  let '(s', _, t) := interleave [] captured_50 captured_50 one_user_store in
  balance_incs t = 1 /\ balance_of 1001 s' = Some (0 + inject_Z 50)%Q.
Proof. vm_compute. split; reflexivity. Qed.

(** ** Concurrent deliveries to the OxaPay webhook *)

Lemma balance_incs_app (t1 t2 : Trace) :
  balance_incs (t1 ++ t2) = balance_incs t1 + balance_incs t2.
Proof. unfold balance_incs. now rewrite filter_app, length_app. Qed.

(** The conditional update either matches nothing and writes nothing, or
    takes one document out of the unsettled ones. *)
Lemma unsettled_update (t : string) (l : list Payment) :
  let f := payment_matches (by_oxapay_track_id_not_approved t) in
  let r := update_first f (apply_payment_update set_status_auto) l in
  (snd r = 0 /\ fst r = l)
  \/ (snd r = 1 /\ S (List.length (filter f (fst r))) = List.length (filter f l)).
Proof.
  cbv zeta. induction l as [| x l IH]; simpl; [now left |].
  destruct (opt_string_eqb (oxapay_track_id x) (Some t)
            && negb (status_eqb (p_status x) Approved)) eqn:E.
  - right. simpl. rewrite andb_false_r. auto.
  - destruct (update_first _ _ l) as [l' n]. simpl in *. rewrite E.
    destruct IH as [[-> ->] | [-> H]]; [now left | now right].
Qed.

Lemma step_oxa_task (config : Config) (t : string) (p : Prog Response) (k n : nat)
    (s : Store) :
  oxa_task config t p k n ->
  exists k' n',
    oxa_task config t (snd (fst (step p s))) k' n'
    /\ (n = 0 \/ n' < n)
    /\ balance_incs (snd (step p s)) + k' + unsettled t (fst (fst (step p s)))
       <= k + unsettled t s.
Proof.
  intros H. destruct H as [| p | p | line r | r].
  - (* lookup *)
    unfold oxapay_settle. simpl.
    destruct (find _ (payments s)) as [q |].
    + destruct (negb _).
      * exists 0, 1. split; [constructor | split; [right; lia | simpl; lia]].
      * destruct (status_eqb _ _).
        -- exists 0, 1. split; [constructor | split; [right; lia | simpl; lia]].
        -- exists 0, 3. split; [constructor | split; [right; lia | simpl; lia]].
    + exists 0, 1. split; [constructor | split; [right; lia | simpl; lia]].
  - (* conditional update *)
    unfold oxapay_approve. simpl. unfold unsettled. simpl.
    destruct (unsettled_update t (payments s)) as [[Hn Hl] | [Hn Hl]]; rewrite Hn; simpl.
    + exists 0, 0. split; [constructor | split; [right; lia |]]. rewrite Hl. simpl. lia.
    + exists 1, 2. split; [constructor | split; [right; lia |]]. simpl. lia.
  - (* credit *)
    unfold oxapay_credit_wallet. simpl.
    exists 0, 1. split; [constructor | split; [right; lia |]].
    unfold unsettled. simpl. unfold balance_incs. simpl. lia.
  - simpl. exists 0, 0. split; [constructor | split; [right; lia | simpl; lia]].
  - simpl. exists 0, 0. split; [constructor | split; [now left | simpl; lia]].
Qed.

Lemma run_as_steps {A : Type} (p : Prog A) (s : Store) :
  run p s =
  match p with
  | Ret a => (s, a, [])
  | Do _ _ =>
      let '(s1, p1, t1) := step p s in
      let '(s2, a, t2) := run p1 s1 in
      (s2, a, t1 ++ t2)
  end.
Proof.
  destruct p as [a | B op k]; simpl; [reflexivity |].
  destruct (exec op s) as [s1 b]. destruct (run (k b) s1) as [[s2 a] t2]. reflexivity.
Qed.

Lemma run_oxa_task (config : Config) (t : string) (n : nat) :
  forall (p : Prog Response) (k : nat) (s : Store),
    oxa_task config t p k n ->
    balance_incs (result_trace (run p s)) + unsettled t (result_store (run p s))
    <= k + unsettled t s.
Proof.
  induction n as [n IH] using lt_wf_ind. intros p k s H.
  destruct (step_oxa_task config t p k n s H) as (k' & n' & H' & Hn & Hle).
  rewrite run_as_steps. destruct p as [r | B op c].
  - inversion H; subst. unfold result_trace, result_store. simpl. lia.
  - destruct Hn as [-> | Hn]; [inversion H |].
    destruct (step (Do op c) s) as [[s1 p1] t1]. simpl in H', Hle.
    specialize (IH n' Hn p1 k' s1 H').
    destruct (run p1 s1) as [[s2 a] t2].
    unfold result_trace, result_store in *. simpl in *.
    rewrite balance_incs_app. lia.
Qed.

Lemma interleave_oxa_task (config : Config) (t : string) (sched : list bool) :
  forall (p1 p2 : Prog Response) (k1 n1 k2 n2 : nat) (s : Store),
    oxa_task config t p1 k1 n1 -> oxa_task config t p2 k2 n2 ->
    balance_incs (result_trace (interleave sched p1 p2 s))
    + unsettled t (result_store (interleave sched p1 p2 s))
    <= k1 + k2 + unsettled t s.
Proof.
  induction sched as [| b sched IH]; intros p1 p2 k1 n1 k2 n2 s H1 H2.
  - simpl.
    pose proof (run_oxa_task config t n1 p1 k1 s H1) as R1.
    destruct (run p1 s) as [[s1 a] t1].
    pose proof (run_oxa_task config t n2 p2 k2 s1 H2) as R2.
    destruct (run p2 s1) as [[s2 c] t2].
    unfold result_trace, result_store in *. simpl in *.
    rewrite balance_incs_app. lia.
  - destruct b; simpl.
    + destruct (step_oxa_task config t p1 k1 n1 s H1) as (k' & n' & H' & _ & Hle).
      destruct (step p1 s) as [[s1 p1'] t1]. simpl in H', Hle.
      specialize (IH p1' p2 k' n' k2 n2 s1 H' H2).
      destruct (interleave sched p1' p2 s1) as [[s2 ac] t2].
      unfold result_trace, result_store in *. simpl in *.
      rewrite balance_incs_app. lia.
    + destruct (step_oxa_task config t p2 k2 n2 s H2) as (k' & n' & H' & _ & Hle).
      destruct (step p2 s) as [[s1 p2'] t1]. simpl in H', Hle.
      specialize (IH p1 p2' k1 n1 k' n' s1 H1 H').
      destruct (interleave sched p1 p2' s1) as [[s2 ac] t2].
      unfold result_trace, result_store in *. simpl in *.
      rewrite balance_incs_app. lia.
Qed.

Lemma oxapay_webhook_task (config : Config) (data : OxaPayData) (t : string) :
  data_track_id data = Some t ->
  exists n, oxa_task config t (oxapay_webhook config data) 0 n.
Proof.
  intros Ht. unfold oxapay_webhook. rewrite Ht.
  destruct (String.eqb t ""); [eexists; constructor |].
  destruct (data_amount data); [| eexists; constructor].
  destruct (negb _); eexists; constructor.
Qed.

(** X1. Two deliveries of one OxaPay event, interleaved in any way, credit at
    most as often as there are unsettled payments under the event's track
    id: at most once when the track id names one payment. *)
Theorem oxapay_concurrent_deliveries_credit_once :
  forall (config : Config) (data : OxaPayData) (t : string) (s : Store)
         (sched : list bool),
    data_track_id data = Some t ->
    unsettled t s <= 1 ->
    balance_incs
      (result_trace
         (interleave sched (oxapay_webhook config data) (oxapay_webhook config data) s))
    <= 1.
Proof.
  intros config data t s sched Ht Hu.
  destruct (oxapay_webhook_task config data t Ht) as (n & Hn).
  pose proof (interleave_oxa_task config t sched _ _ 0 n 0 n s Hn Hn). lia.
Qed.

Lemma oxapay_concurrent_deliveries_credit_once_witness :
  unsettled "TX1" tx1_store <= 1
  /\ balance_incs
       (result_trace
          (interleave [true; false; false; true]
             (oxapay_webhook default_config tx1_paid)
             (oxapay_webhook default_config tx1_paid) tx1_store))
     <= 1.
Proof.
  assert (Hu : unsettled "TX1" tx1_store <= 1) by (vm_compute; lia).
  split; [exact Hu |].
  exact (oxapay_concurrent_deliveries_credit_once default_config tx1_paid "TX1" tx1_store
           [true; false; false; true] eq_refl Hu).
Defined.

(** ** Runs with their trace *)

Lemma wpt_run {A : Type} (p : Prog A) (Q : A -> Store -> Trace -> Prop) (s : Store) :
  wpt p Q s <->
  Q (result_value (run p s)) (result_store (run p s)) (result_trace (run p s)).
Proof.
  revert Q s. induction p as [a | B op k IH]; intros Q s; simpl.
  - reflexivity.
  - rewrite IH. destruct (exec op s) as [s1 b]. simpl.
    destruct (run (k b) s1) as [[s2 a] t]. reflexivity.
Qed.

Lemma wpt_bind {A C : Type} (m : Prog A) (f : A -> Prog C)
    (Q : C -> Store -> Trace -> Prop) (s : Store) :
  wpt (bind m f) Q s <->
  wpt m (fun a s1 t1 => wpt (f a) (fun c s2 t2 => Q c s2 (t1 ++ t2)) s1) s.
Proof.
  revert Q s. induction m as [a | B op k IH]; intros Q s; simpl;
    [reflexivity | apply IH].
Qed.

Lemma wpt_mono {A : Type} (p : Prog A) (Q Q' : A -> Store -> Trace -> Prop) (s : Store) :
  (forall a s' t, Q a s' t -> Q' a s' t) -> wpt p Q s -> wpt p Q' s.
Proof.
  intros H. rewrite !wpt_run. apply H.
Qed.

(** [upsert_user] returns the caller's document; it leaves the store as it
    is when the caller is known and appends a fresh document otherwise; it
    never touches a balance. *)
Lemma wpt_upsert_user (uid : Z) (Q : User -> Store -> Trace -> Prop) (s : Store) :
  (forall u s1 t, find_user uid s1 = Some u -> balance_incs t = 0 ->
                  slept t = 0%Z ->
                  (find_user uid s = Some u /\ s1 = s)
                  \/ (find_user uid s = None /\ u = new_user uid
                      /\ s1 = set_users s (users s ++ [new_user uid])) ->
                  Q u s1 t) ->
  wpt (upsert_user uid) Q s.
Proof.
  intros H. unfold upsert_user. cbn [wpt exec fst snd].
  destruct (find (user_has_id uid) (users s)) as [u |] eqn:Hf; cbn [fst snd users set_users].
  - rewrite Hf. apply H; [exact Hf | reflexivity | reflexivity | left; split; [exact Hf | reflexivity]].
  - pose proof (find_user_snoc uid uid (users s)) as Hs. rewrite Hf, Z.eqb_refl in Hs.
    rewrite Hs. apply H; [exact Hs | reflexivity | reflexivity |].
    right. split; [exact Hf | split; reflexivity].
Qed.

Ltac wpt_simpl :=
  cbn [wpt exec fst snd users products stocks orders payments discounts RAZORPAY_STATE
       next_oid set_users set_stocks set_orders set_payments set_discounts set_state
       set_next_oid negb].

Lemma only_registered_refl (caller : Z) (s : Store) : only_registered caller s s.
Proof. left. reflexivity. Qed.

(** X2. A caller who is not an admin cannot review a payment, ban a user
    or adjust a balance: [cb_admin_pay_action] and [cb_admin_user_action]
    answer "No access" after [upsert_user], and the text step of a balance
    adjustment is skipped, so that no payment, balance, ban flag or flow of
    an existing document changes. *)
Theorem non_admin_cannot_review_or_manage :
  forall (config : Config) (caller : Z) (s : Store),
    is_admin config caller = false ->
    (forall (oid : ObjectId) (action : PayAction),
        let r := run (cb_admin_pay_action config caller oid action) s in
        only_registered caller s (result_store r) /\ balance_incs (result_trace r) = 0)
    /\ (forall (target_id : Z) (action : UserAction),
           let r := run (cb_admin_user_action config caller target_id action) s in
           only_registered caller s (result_store r)
           /\ balance_incs (result_trace r) = 0)
    /\ (forall (joined : bool) (message : TextMsg) (created : option string)
               (message_id target_id : Z) (op : string) (u : User),
           find_user caller s = Some u ->
           flow u = Some (flow_admin_user_balance target_id op) ->
           let r := run (on_text config caller joined message created message_id) s in
           result_store r = s /\ balance_incs (result_trace r) = 0).
Proof.
  intros config caller s Hna. split; [| split].
  - intros oid action.
    apply (wpt_run (cb_admin_pay_action config caller oid action)
             (fun _ s' t => only_registered caller s s' /\ balance_incs t = 0)).
    unfold cb_admin_pay_action. apply wpt_bind. apply wpt_upsert_user.
    intros u s1 t Hu Ht _ Hs1. rewrite Hna. cbn [negb wpt]. rewrite app_nil_r.
    split; [| exact Ht].
    destruct Hs1 as [[_ ->] | (Hn & _ & ->)]; [left; reflexivity | right; auto].
  - intros target_id action.
    apply (wpt_run (cb_admin_user_action config caller target_id action)
             (fun _ s' t => only_registered caller s s' /\ balance_incs t = 0)).
    unfold cb_admin_user_action. apply wpt_bind. apply wpt_upsert_user.
    intros u s1 t Hu Ht _ Hs1. rewrite Hna. cbn [negb wpt]. rewrite app_nil_r.
    split; [| exact Ht].
    destruct Hs1 as [[_ ->] | (Hn & _ & ->)]; [left; reflexivity | right; auto].
  - intros joined message created message_id target_id op u Hu Hflow.
    apply (wpt_run (on_text config caller joined message created message_id)
             (fun _ s' t => s' = s /\ balance_incs t = 0)).
    unfold on_text. apply wpt_bind. apply wpt_upsert_user.
    intros u1 s1 t Hu1 Ht _ Hs1.
    destruct Hs1 as [[Hu' ->] | (Hn & _ & _)]; [| congruence].
    assert (u1 = u) by congruence. subst u1.
    destruct (banned u); [cbn [wpt]; rewrite app_nil_r; auto |].
    destruct joined; cbn [negb]; [| cbn [wpt]; rewrite app_nil_r; auto].
    wpt_simpl. fold (find_user caller s). rewrite Hu, Hflow, Hna.
    cbn [wpt]. rewrite balance_incs_app, Ht. auto.
Qed.

Lemma non_admin_cannot_review_or_manage_witness :
  is_admin default_config 1001 = false
  /\ result_store
       (run (cb_admin_pay_action default_config 1001 0 act_approve) tx1_store)
     = tx1_store.
Proof.
  assert (H : is_admin default_config 1001 = false) by reflexivity.
  split; [exact H |].
  destruct (non_admin_cannot_review_or_manage default_config 1001 tx1_store H)
    as [Hpay _].
  destruct (Hpay 0 act_approve) as [[Hs | [Hn _]] _]; [exact Hs | discriminate Hn].
Defined.

(** ** Manual review *)

Lemma payment_update_keeps_id (u : PaymentUpdate) (oid : ObjectId) (p : Payment) :
  payment_matches (by_id oid) p = true ->
  payment_matches (by_id oid) (apply_payment_update u p) = true.
Proof. destruct u; simpl; auto. Qed.

(** One review: either the payments are left as they are and nothing is
    credited, or the payment was pending and is not any more. *)
Lemma review_step (config : Config) (admin_id : Z) (oid : ObjectId) (action : PayAction)
    (s : Store) :
  wpt (cb_admin_pay_action config admin_id oid action)
      (fun _ s' t =>
         (payments s' = payments s /\ balance_incs t = 0)
         \/ (exists p p',
               find (payment_matches (by_id oid)) (payments s) = Some p
               /\ p_status p = Pending
               /\ find (payment_matches (by_id oid)) (payments s') = Some p'
               /\ p_status p' <> Pending
               /\ balance_incs t <= 1)) s.
Proof.
  unfold cb_admin_pay_action. apply wpt_bind. apply wpt_upsert_user.
  intros u s1 t Hu Ht _ Hs1.
  assert (Hp : payments s1 = payments s)
    by (destruct Hs1 as [[_ ->] | (_ & _ & ->)]; reflexivity).
  destruct (is_admin config admin_id); cbn [negb];
    [| cbn [wpt]; rewrite app_nil_r; left; auto].
  wpt_simpl.
  destruct (find (payment_matches (by_id oid)) (payments s1)) as [p |] eqn:Hf;
    [| cbn [wpt]; left; rewrite balance_incs_app, Ht; auto].
  destruct action.
  - (* approve *)
    destruct (status_eqb (p_status p) Pending) eqn:Est; cbn [negb];
      [| cbn [wpt]; left; rewrite balance_incs_app, Ht; auto].
    wpt_simpl. right. exists p, (apply_payment_update (set_status Approved) p).
    rewrite <- Hp. split; [exact Hf |]. split; [apply status_eqb_eq; exact Est |].
    split.
    + rewrite find_update_first by (intros x; apply payment_update_keeps_id).
      rewrite Hf. reflexivity.
    + split; [simpl; discriminate |].
      rewrite balance_incs_app, Ht. unfold balance_incs. simpl. lia.
  - (* reject *)
    destruct (status_eqb (p_status p) Pending) eqn:Est; cbn [negb];
      [| cbn [wpt]; left; rewrite balance_incs_app, Ht; auto].
    wpt_simpl. right. exists p, (apply_payment_update (set_status Rejected) p).
    rewrite <- Hp. split; [exact Hf |]. split; [apply status_eqb_eq; exact Est |].
    split.
    + rewrite find_update_first by (intros x; apply payment_update_keeps_id).
      rewrite Hf. reflexivity.
    + split; [simpl; discriminate |].
      rewrite balance_incs_app, Ht. unfold balance_incs. simpl. lia.
  - (* resend *)
    cbn [wpt]. left. rewrite balance_incs_app, Ht. auto.
Qed.

Lemma reviews_after_decision (config : Config) (oid : ObjectId)
    (reviews : list (Z * PayAction)) :
  forall (s : Store) (p : Payment),
    find (payment_matches (by_id oid)) (payments s) = Some p ->
    p_status p <> Pending ->
    balance_incs (snd (run_each (reviews_of config oid reviews) s)) = 0.
Proof.
  induction reviews as [| [a act] rest IH]; intros s p Hf Hst;
    cbn [reviews_of map run_each fst snd]; [reflexivity |].
  fold (reviews_of config oid rest).
  pose proof (proj1 (wpt_run _ _ _) (review_step config a oid act s)) as Hstep.
  destruct (run (cb_admin_pay_action config a oid act) s) as [[s1 v] t1].
  unfold result_store, result_trace in Hstep. cbn [fst snd] in Hstep.
  destruct Hstep as [[Hp Ht] | (q & q' & Hq & Hqs & _)]; [| congruence].
  rewrite <- Hp in Hf. specialize (IH s1 p Hf Hst).
  destruct (run_each (reviews_of config oid rest) s1) as [s2 t2]. cbn [fst snd] in *.
  rewrite balance_incs_app. lia.
Qed.

(** X3. However many review actions (approve, reject, resend, by whichever
    callers) are served one after the other on one payment, the payer is
    credited at most once: the first decision takes the payment out of
    [pending], and every later action finds it "Already processed". *)
Theorem reviews_credit_at_most_once :
  forall (config : Config) (oid : ObjectId) (reviews : list (Z * PayAction)) (s : Store),
    balance_incs (snd (run_each (reviews_of config oid reviews) s)) <= 1.
Proof.
  intros config oid reviews.
  induction reviews as [| [a act] rest IH]; intros s;
    cbn [reviews_of map run_each fst snd]; [unfold balance_incs; simpl; lia |].
  fold (reviews_of config oid rest).
  pose proof (proj1 (wpt_run _ _ _) (review_step config a oid act s)) as Hstep.
  destruct (run (cb_admin_pay_action config a oid act) s) as [[s1 v] t1].
  unfold result_store, result_trace in Hstep. cbn [fst snd] in Hstep.
  destruct Hstep as [[Hp Ht] | (q & q' & Hq & Hqs & Hq' & Hqs' & Ht)].
  - specialize (IH s1).
    destruct (run_each (reviews_of config oid rest) s1) as [s2 t2]. cbn [fst snd] in *.
    rewrite balance_incs_app. lia.
  - pose proof (reviews_after_decision config oid rest s1 q' Hq' Hqs') as H0.
    destruct (run_each (reviews_of config oid rest) s1) as [s2 t2]. cbn [fst snd] in *.
    rewrite balance_incs_app. lia.
Qed.

Lemma find_user_registered (caller uid : Z) (s s1 : Store) (u : User) :
  only_registered caller s s1 -> find_user uid s = Some u -> find_user uid s1 = Some u.
Proof.
  intros [-> | [_ ->]] Hu; [exact Hu |].
  unfold find_user in *. cbn [users set_users]. rewrite find_user_snoc, Hu. reflexivity.
Qed.

Lemma review_of_pending_payment :
  forall (config : Config) (admin_id : Z) (oid : ObjectId) (s : Store) (p : Payment)
         (payer : User),
    is_admin config admin_id = true ->
    find (payment_matches (by_id oid)) (payments s) = Some p ->
    p_status p = Pending ->
    find_user (p_user_id p) s = Some payer ->
    (let r := run (cb_admin_pay_action config admin_id oid act_approve) s in
     let credit := match p_amount_usd p with Some a => a | None => 0%Q end in
     find (payment_matches (by_id oid)) (payments (result_store r))
       = Some (apply_payment_update (set_status Approved) p)
     /\ find_user (p_user_id p) (result_store r)
        = Some (apply_user_update (inc_balance_inr credit) payer)
     /\ (forall uid u, uid <> p_user_id p -> find_user uid s = Some u ->
                       find_user uid (result_store r) = Some u)
     /\ balance_incs (result_trace r) = 1)
    /\ (let r := run (cb_admin_pay_action config admin_id oid act_reject) s in
        find (payment_matches (by_id oid)) (payments (result_store r))
          = Some (apply_payment_update (set_status Rejected) p)
        /\ (forall uid u, find_user uid s = Some u ->
                          find_user uid (result_store r) = Some u)
        /\ balance_incs (result_trace r) = 0).
Proof.
  intros config admin_id oid s p payer Hadm Hf Hst Hpayer.
  assert (Est : status_eqb (p_status p) Pending = true) by (apply status_eqb_eq; exact Hst).
  split.
  - apply (wpt_run (cb_admin_pay_action config admin_id oid act_approve)
             (fun _ s' t =>
                find (payment_matches (by_id oid)) (payments s')
                  = Some (apply_payment_update (set_status Approved) p)
                /\ find_user (p_user_id p) s'
                   = Some (apply_user_update
                             (inc_balance_inr
                                (match p_amount_usd p with Some a => a | None => 0%Q end))
                             payer)
                /\ (forall uid u, uid <> p_user_id p -> find_user uid s = Some u ->
                                  find_user uid s' = Some u)
                /\ balance_incs t = 1)).
    unfold cb_admin_pay_action. apply wpt_bind. apply wpt_upsert_user.
    intros u s1 t Hu Ht _ Hs1.
    assert (Hreg : only_registered admin_id s s1)
      by (destruct Hs1 as [[_ ->] | (Hn & _ & ->)]; [left | right]; auto).
    assert (Hp : payments s1 = payments s)
      by (destruct Hs1 as [[_ ->] | (_ & _ & ->)]; reflexivity).
    rewrite Hadm. cbn [negb]. wpt_simpl. rewrite Hp, Hf, Est. cbn [negb]. wpt_simpl.
    split.
    + rewrite find_update_first by (intros x; apply payment_update_keeps_id).
      rewrite Hp, Hf. reflexivity.
    + split.
      * unfold find_user. cbn [users set_users set_payments].
        rewrite find_user_update, Z.eqb_refl.
        fold (find_user (p_user_id p) s1).
        rewrite (find_user_registered admin_id _ s s1 payer Hreg Hpayer). reflexivity.
      * split.
        -- intros uid u0 Hne Hu0. unfold find_user. cbn [users set_users set_payments].
           rewrite find_user_update.
           destruct (Z.eqb_spec uid (p_user_id p)) as [-> | _]; [congruence |].
           exact (find_user_registered admin_id uid s s1 u0 Hreg Hu0).
        -- rewrite balance_incs_app, Ht. reflexivity.
  - apply (wpt_run (cb_admin_pay_action config admin_id oid act_reject)
             (fun _ s' t =>
                find (payment_matches (by_id oid)) (payments s')
                  = Some (apply_payment_update (set_status Rejected) p)
                /\ (forall uid u, find_user uid s = Some u -> find_user uid s' = Some u)
                /\ balance_incs t = 0)).
    unfold cb_admin_pay_action. apply wpt_bind. apply wpt_upsert_user.
    intros u s1 t Hu Ht _ Hs1.
    assert (Hreg : only_registered admin_id s s1)
      by (destruct Hs1 as [[_ ->] | (Hn & _ & ->)]; [left | right]; auto).
    assert (Hp : payments s1 = payments s)
      by (destruct Hs1 as [[_ ->] | (_ & _ & ->)]; reflexivity).
    rewrite Hadm. cbn [negb]. wpt_simpl. rewrite Hp, Hf, Est. cbn [negb]. wpt_simpl.
    split.
    + rewrite find_update_first by (intros x; apply payment_update_keeps_id).
      rewrite Hp, Hf. reflexivity.
    + split.
      * intros uid u0 Hu0. exact (find_user_registered admin_id uid s s1 u0 Hreg Hu0).
      * rewrite balance_incs_app, Ht. reflexivity.
Qed.

(** X4. An admin's "Approve" on a pending payment marks it approved and adds
    [float(p.get("amount_usd", 0))] to the payer's balance -- the stored
    [amount_usd], and nothing when the document has none -- leaving every
    other user's document as it was; "Reject" marks it rejected and credits
    nobody. *)
Theorem approval_credits_stored_amount_usd :
  forall (config : Config) (admin_id : Z) (oid : ObjectId) (s : Store) (p : Payment)
         (payer : User),
    is_admin config admin_id = true ->
    find (payment_matches (by_id oid)) (payments s) = Some p ->
    p_status p = Pending ->
    find_user (p_user_id p) s = Some payer ->
    (let r := run (cb_admin_pay_action config admin_id oid act_approve) s in
     let credit := match p_amount_usd p with Some a => a | None => 0%Q end in
     find (payment_matches (by_id oid)) (payments (result_store r))
       = Some (apply_payment_update (set_status Approved) p)
     /\ find_user (p_user_id p) (result_store r)
        = Some (apply_user_update (inc_balance_inr credit) payer)
     /\ (forall uid u, uid <> p_user_id p -> find_user uid s = Some u ->
                       find_user uid (result_store r) = Some u)
     /\ balance_incs (result_trace r) = 1)
    /\ (let r := run (cb_admin_pay_action config admin_id oid act_reject) s in
        find (payment_matches (by_id oid)) (payments (result_store r))
          = Some (apply_payment_update (set_status Rejected) p)
        /\ (forall uid u, find_user uid s = Some u ->
                          find_user uid (result_store r) = Some u)
        /\ balance_incs (result_trace r) = 0).
Proof. exact review_of_pending_payment. Qed.

Lemma approval_credits_stored_amount_usd_witness :
  map (fun p => (p_id p, p_status p, p_amount_usd p, p_amount_inr p)) (payments proof_store)
    = [(0, Pending, None, Some 5%Z)]
  /\ balance_incs
       (result_trace
          (run (cb_admin_pay_action upi_config 7677304116 0 act_approve) proof_store))
     = 1.
Proof.
  split; [reflexivity |].
  eapply (approval_credits_stored_amount_usd upi_config 7677304116 0 proof_store);
    vm_compute; reflexivity.
Defined.

(** ** Banned users *)



Lemma wpt_Do {A B : Type} (op : DbOp B) (k : B -> Prog A)
    (Q : A -> Store -> Trace -> Prop) (s : Store) :
  wpt (Do op k) Q s
  = wpt (k (snd (exec op s))) (fun a s' t => Q a s' (ev op (snd (exec op s)) :: t))
        (fst (exec op s)).
Proof. reflexivity. Qed.

(** ** The expiry timers, run alone *)

Lemma slept_app (t1 t2 : Trace) : slept (t1 ++ t2) = (slept t1 + slept t2)%Z.
Proof.
  induction t1 as [| e t1 IH]; simpl; [reflexivity |].
  destruct e as [B op b]. destruct op; rewrite ?IH; try reflexivity. lia.
Qed.

Lemma balance_incs_cons (e : Event) (t : Trace) :
  balance_incs (e :: t) = (if is_balance_inc e then 1 else 0) + balance_incs t.
Proof. unfold balance_incs. simpl. destruct (is_balance_inc e); reflexivity. Qed.

Lemma state_get_pop (uid v : Z) (m : list (Z * QrState)) :
  state_get v (state_pop uid m) = if Z.eqb v uid then None else state_get v m.
Proof.
  induction m as [| [k st] m IH]; simpl; [destruct (Z.eqb v uid); reflexivity |].
  destruct (Z.eqb_spec k uid) as [-> | Hk]; simpl.
  - rewrite IH. destruct (Z.eqb_spec uid v) as [-> | Hv].
    + rewrite Z.eqb_refl. reflexivity.
    + destruct (Z.eqb_spec v uid); [congruence | reflexivity].
  - rewrite IH. destruct (Z.eqb_spec k v) as [-> | Hv]; [| reflexivity].
    destruct (Z.eqb_spec v uid); [congruence | reflexivity].
Qed.

(** While the watched QR code stays the user's active one, the loop of
    [handle_razorpay_expiry] sleeps through all its polls. *)
Lemma razorpay_polls_active (polls : nat) (user_id : Z) (qr : string)
    (at_ttl : Prog TimerExit) (s : Store) (st : QrState) :
  forall (Q : TimerExit -> Store -> Trace -> Prop),
    state_get user_id (RAZORPAY_STATE s) = Some st ->
    String.eqb (qr_code_id st) qr = true ->
    wpt at_ttl
        (fun v s' t => forall t0, slept t0 = (60 * Z.of_nat polls)%Z ->
                                  balance_incs t0 = 0 -> Q v s' (t0 ++ t)) s ->
    wpt (razorpay_expiry_polls polls user_id qr at_ttl) Q s.
Proof.
  induction polls as [| n IH]; intros Q Hst Hqr H.
  - cbn [razorpay_expiry_polls]. revert H. apply wpt_mono.
    intros v s' t Ht. apply (Ht []); reflexivity.
  - cbn [razorpay_expiry_polls]. wpt_simpl. rewrite Hst, Hqr. cbn [negb].
    apply IH; [exact Hst | exact Hqr |].
    revert H. apply wpt_mono. intros v s' t Ht t0 Hsl Hinc.
    apply (Ht (ev (asyncio_sleep 60) tt :: ev (state_dict_get user_id) (Some st) :: t0)).
    + cbn [slept fold_right]. fold (slept t0). rewrite Hsl. lia.
    + exact Hinc.
Qed.

Lemma razorpay_polls_stop (n : nat) (user_id : Z) (qr : string)
    (at_ttl : Prog TimerExit) (s : Store) (Q : TimerExit -> Store -> Trace -> Prop) :
  match state_get user_id (RAZORPAY_STATE s) with
  | Some st => String.eqb (qr_code_id st) qr = false
  | None => True
  end ->
  (forall line,
      Q timer_stopped s
        [ev (asyncio_sleep 60) tt;
         ev (state_dict_get user_id) (state_get user_id (RAZORPAY_STATE s));
         ev (logger line) tt]) ->
  wpt (razorpay_expiry_polls (S n) user_id qr at_ttl) Q s.
Proof.
  intros Hst HQ. cbn [razorpay_expiry_polls]. wpt_simpl.
  destruct (state_get user_id (RAZORPAY_STATE s)) as [st |].
  - rewrite Hst. cbn [negb]. wpt_simpl. apply HQ.
  - wpt_simpl. apply HQ.
Qed.

(** X6. The Razorpay expiry timer, run alone.  When the watched QR code is
    the user's active one it sleeps through its five polls (300 seconds),
    clears the user's entry of [RAZORPAY_STATE] and reports the expiry;
    otherwise (no entry, or another QR code) it stops at its first poll and
    changes nothing.  It never touches another user's entry. *)
Theorem razorpay_timer_clears_own_qr :
  forall (user_id : Z) (qr : string) (s : Store),
    let r := run (handle_razorpay_expiry user_id qr) s in
    let s' := result_store r in
    users s' = users s /\ payments s' = payments s
    /\ (forall v, v <> user_id ->
                  state_get v (RAZORPAY_STATE s') = state_get v (RAZORPAY_STATE s))
    /\ match state_get user_id (RAZORPAY_STATE s) with
       | Some st =>
           if String.eqb (qr_code_id st) qr then
             result_value r = timer_expired
             /\ state_get user_id (RAZORPAY_STATE s') = None
             /\ slept (result_trace r) = 300%Z
           else result_value r = timer_stopped /\ s' = s /\ slept (result_trace r) = 60%Z
       | None => result_value r = timer_stopped /\ s' = s /\ slept (result_trace r) = 60%Z
       end.
Proof.
  intros user_id qr s.
  apply (wpt_run (handle_razorpay_expiry user_id qr)
           (fun v s' t =>
              users s' = users s /\ payments s' = payments s
              /\ (forall w, w <> user_id ->
                            state_get w (RAZORPAY_STATE s') = state_get w (RAZORPAY_STATE s))
              /\ match state_get user_id (RAZORPAY_STATE s) with
                 | Some st =>
                     if String.eqb (qr_code_id st) qr then
                       v = timer_expired
                       /\ state_get user_id (RAZORPAY_STATE s') = None
                       /\ slept t = 300%Z
                     else v = timer_stopped /\ s' = s /\ slept t = 60%Z
                 | None => v = timer_stopped /\ s' = s /\ slept t = 60%Z
                 end)).
  unfold handle_razorpay_expiry. change (Z.to_nat (300 / 60)) with 5.
  destruct (state_get user_id (RAZORPAY_STATE s)) as [st |] eqn:Hst.
  - destruct (String.eqb (qr_code_id st) qr) eqn:Hqr.
    + apply (razorpay_polls_active 5 user_id qr _ s st _ Hst Hqr).
      wpt_simpl. intros t0 Hsl _. repeat split; try reflexivity.
      * intros w Hw. rewrite state_get_pop.
        destruct (Z.eqb_spec w user_id); [congruence | reflexivity].
      * rewrite state_get_pop, Z.eqb_refl. reflexivity.
      * rewrite slept_app, Hsl. reflexivity.
    + apply (razorpay_polls_stop 4 user_id qr _ s); [rewrite Hst; exact Hqr |].
      intros line. repeat split; reflexivity.
  - apply (razorpay_polls_stop 4 user_id qr _ s); [rewrite Hst; exact I |].
    intros line. repeat split; reflexivity.
Qed.

Lemma oxapay_polls_waiting (polls : nat) (track_id : string) (at_ttl : Prog TimerExit)
    (s : Store) :
  forall (Q : TimerExit -> Store -> Trace -> Prop),
    match find (payment_matches (by_oxapay_track_id track_id)) (payments s) with
    | Some p => stops_oxapay_timer (p_status p) = false
    | None => True
    end ->
    wpt at_ttl
        (fun v s' t => forall t0, slept t0 = (60 * Z.of_nat polls)%Z ->
                                  balance_incs t0 = 0 -> Q v s' (t0 ++ t)) s ->
    wpt (oxapay_expiry_polls polls track_id at_ttl) Q s.
Proof.
  induction polls as [| n IH]; intros Q Hst H.
  - cbn [oxapay_expiry_polls]. revert H. apply wpt_mono.
    intros v s' t Ht. apply (Ht []); reflexivity.
  - cbn [oxapay_expiry_polls]. wpt_simpl.
    destruct (find (payment_matches (by_oxapay_track_id track_id)) (payments s))
      as [p |] eqn:Hf.
    + assert (E : status_eqb (p_status p) Approved = false
                  /\ (status_eqb (p_status p) Cancelled
                      || status_eqb (p_status p) Expired) = false)
        by (destruct (p_status p); cbn [stops_oxapay_timer] in Hst; try discriminate;
            split; reflexivity).
      destruct E as [-> ->].
      apply IH; [first [exact Hst | rewrite Hf; exact Hst] |].
      revert H. apply wpt_mono. intros v s' t Ht t0 Hsl Hinc.
      apply (Ht (ev (asyncio_sleep 60) tt
                 :: ev (payments_find_one (by_oxapay_track_id track_id)) (Some p) :: t0)).
      * cbn [slept fold_right]. fold (slept t0). rewrite Hsl. lia.
      * exact Hinc.
    + apply IH; [first [exact I | rewrite Hf; exact I] |].
      revert H. apply wpt_mono. intros v s' t Ht t0 Hsl Hinc.
      apply (Ht (ev (asyncio_sleep 60) tt
                 :: ev (payments_find_one (by_oxapay_track_id track_id)) None :: t0)).
      * cbn [slept fold_right]. fold (slept t0). rewrite Hsl. lia.
      * exact Hinc.
Qed.

Lemma track_update_keeps_match (u : PaymentUpdate) (t : string) (p : Payment) :
  payment_matches (by_oxapay_track_id t) p = true ->
  payment_matches (by_oxapay_track_id t) (apply_payment_update u p) = true.
Proof. destruct u; simpl; auto. Qed.

Lemma oxapay_polls_stop (n : nat) (track_id : string) (at_ttl : Prog TimerExit)
    (s : Store) (p : Payment) (Q : TimerExit -> Store -> Trace -> Prop) :
  find (payment_matches (by_oxapay_track_id track_id)) (payments s) = Some p ->
  stops_oxapay_timer (p_status p) = true ->
  (forall line,
      Q timer_stopped s
        [ev (asyncio_sleep 60) tt;
         ev (payments_find_one (by_oxapay_track_id track_id)) (Some p);
         ev (logger line) tt]) ->
  wpt (oxapay_expiry_polls (S n) track_id at_ttl) Q s.
Proof.
  intros Hf Hstop HQ. cbn [oxapay_expiry_polls]. wpt_simpl. rewrite Hf.
  destruct (p_status p); cbn [stops_oxapay_timer] in Hstop; try discriminate;
    cbn [status_eqb orb]; wpt_simpl; apply HQ.
Qed.

(** X7. The OxaPay expiry timer, run alone, never credits and never touches
    a user.  A payment that is pending when the timer starts is marked
    expired after thirty polls, that is 1800 seconds of sleep; a payment
    that is already approved, cancelled or expired stops the timer at its
    first poll with the store unchanged; in every other case (no payment
    with the track id, or one that an admin rejected) the timer runs to the
    deadline, reports the expiry and writes nothing. *)
Theorem oxapay_timer_expires_pending_only :
  forall (track_id : string) (s : Store),
    let r := run (handle_oxapay_expiry track_id) s in
    let s' := result_store r in
    let by_track := payment_matches (by_oxapay_track_id track_id) in
    balance_incs (result_trace r) = 0 /\ users s' = users s
    /\ match find by_track (payments s) with
       | Some p =>
           match p_status p with
           | Pending =>
               result_value r = timer_expired
               /\ slept (result_trace r) = 1800%Z
               /\ s' = set_payments s
                         (fst (update_first by_track
                                 (apply_payment_update (set_status Expired)) (payments s)))
               /\ find by_track (payments s')
                  = Some (apply_payment_update (set_status Expired) p)
           | Approved | Cancelled | Expired =>
               result_value r = timer_stopped /\ s' = s /\ slept (result_trace r) = 60%Z
           | AwaitProof | Rejected =>
               result_value r = timer_expired /\ s' = s
               /\ slept (result_trace r) = 1800%Z
           end
       | None =>
           result_value r = timer_expired /\ s' = s /\ slept (result_trace r) = 1800%Z
       end.
Proof.
  intros track_id s.
  apply (wpt_run (handle_oxapay_expiry track_id)
           (fun v s' t =>
              balance_incs t = 0 /\ users s' = users s
              /\ match find (payment_matches (by_oxapay_track_id track_id)) (payments s) with
                 | Some p =>
                     match p_status p with
                     | Pending =>
                         v = timer_expired /\ slept t = 1800%Z
                         /\ s' = set_payments s
                                   (fst (update_first
                                           (payment_matches (by_oxapay_track_id track_id))
                                           (apply_payment_update (set_status Expired))
                                           (payments s)))
                         /\ find (payment_matches (by_oxapay_track_id track_id)) (payments s')
                            = Some (apply_payment_update (set_status Expired) p)
                     | Approved | Cancelled | Expired =>
                         v = timer_stopped /\ s' = s /\ slept t = 60%Z
                     | AwaitProof | Rejected =>
                         v = timer_expired /\ s' = s /\ slept t = 1800%Z
                     end
                 | None => v = timer_expired /\ s' = s /\ slept t = 1800%Z
                 end)).
  unfold handle_oxapay_expiry. change (Z.to_nat (1800 / 60)) with 30.
  rewrite wpt_Do. cbn [exec fst snd].
  destruct (find (payment_matches (by_oxapay_track_id track_id)) (payments s))
    as [p |] eqn:Hf.
  - destruct (stops_oxapay_timer (p_status p)) eqn:Hstop.
    + (* the first poll stops the timer *)
      apply (oxapay_polls_stop 29 track_id _ s p _ Hf Hstop). intros line.
      destruct (p_status p); cbn [stops_oxapay_timer] in Hstop; try discriminate;
        repeat split; reflexivity.
    + apply oxapay_polls_waiting; [first [exact Hstop | rewrite Hf; exact Hstop] |].
      unfold oxapay_expiry_at_ttl. wpt_simpl. rewrite Hf.
      destruct (p_status p) eqn:Hst; cbn [stops_oxapay_timer] in Hstop; try discriminate;
        cbn [status_eqb]; wpt_simpl;
        intros t0 Hsl Hinc;
        rewrite app_comm_cons, balance_incs_app, slept_app, balance_incs_cons, Hinc;
        cbn [slept fold_right is_balance_inc]; fold (slept t0); rewrite Hsl.
      * repeat split; reflexivity.
      * repeat split; try reflexivity.
        rewrite find_update_first by (intros x; apply track_update_keeps_match).
        rewrite Hf. reflexivity.
      * repeat split; reflexivity.
  - apply oxapay_polls_waiting; [first [exact I | rewrite Hf; exact I] |].
    unfold oxapay_expiry_at_ttl. wpt_simpl. rewrite Hf. wpt_simpl.
    intros t0 Hsl Hinc.
    rewrite app_comm_cons, balance_incs_app, slept_app, balance_incs_cons, Hinc.
    cbn [slept fold_right is_balance_inc]. fold (slept t0). rewrite Hsl.
    repeat split; reflexivity.
Qed.

(** ** Cancellation *)

(** X8. [cb_cancel_oxapay] marks the first payment carrying the track id
    cancelled when it is pending and leaves the store unchanged otherwise;
    the filter is the track id alone, so the outcome is the same for every
    caller.  [cb_cancel_razorpay] removes the caller's own entry of
    [RAZORPAY_STATE], and only when it holds the QR code named in the
    callback.  Neither handler touches a user document or credits. *)
Theorem cancellation_effect :
  (forall (user_id : Z) (track_id : string) (s : Store),
      let r := run (cb_cancel_oxapay user_id track_id) s in
      let s' := result_store r in
      let by_track := payment_matches (by_oxapay_track_id track_id) in
      balance_incs (result_trace r) = 0 /\ users s' = users s
      /\ (forall other, result_store (run (cb_cancel_oxapay other track_id) s) = s')
      /\ match find by_track (payments s) with
         | Some p =>
             if status_eqb (p_status p) Pending then
               s' = set_payments s
                      (fst (update_first by_track
                              (apply_payment_update (set_status Cancelled)) (payments s)))
               /\ find by_track (payments s')
                  = Some (apply_payment_update (set_status Cancelled) p)
             else s' = s
         | None => s' = s
         end)
  /\ (forall (user_id : Z) (qr : string) (s : Store),
         let r := run (cb_cancel_razorpay user_id qr) s in
         let s' := result_store r in
         balance_incs (result_trace r) = 0 /\ users s' = users s
         /\ payments s' = payments s
         /\ (forall v, v <> user_id ->
                       state_get v (RAZORPAY_STATE s') = state_get v (RAZORPAY_STATE s))
         /\ state_get user_id (RAZORPAY_STATE s')
            = match state_get user_id (RAZORPAY_STATE s) with
              | Some st => if String.eqb (qr_code_id st) qr then None else Some st
              | None => None
              end).
Proof.
  split.
  - intros user_id track_id s.
    apply (wpt_run (cb_cancel_oxapay user_id track_id)
             (fun _ s' t =>
                balance_incs t = 0 /\ users s' = users s
                /\ (forall other,
                       result_store (run (cb_cancel_oxapay other track_id) s) = s')
                /\ match find (payment_matches (by_oxapay_track_id track_id)) (payments s)
                   with
                   | Some p =>
                       if status_eqb (p_status p) Pending then
                         s' = set_payments s
                                (fst (update_first
                                        (payment_matches (by_oxapay_track_id track_id))
                                        (apply_payment_update (set_status Cancelled))
                                        (payments s)))
                         /\ find (payment_matches (by_oxapay_track_id track_id))
                                 (payments s')
                            = Some (apply_payment_update (set_status Cancelled) p)
                       else s' = s
                   | None => s' = s
                   end)).
    unfold cb_cancel_oxapay. wpt_simpl.
    destruct (find (payment_matches (by_oxapay_track_id track_id)) (payments s))
      as [p |] eqn:Hf.
    + destruct (status_eqb (p_status p) Pending) eqn:Est; wpt_simpl.
      * repeat split; try reflexivity.
        -- intros other. unfold result_store. rewrite !run_Do. cbn [exec].
           rewrite Hf, Est. rewrite !run_Do. cbn [exec fst snd run]. reflexivity.
        -- rewrite find_update_first by (intros x; apply track_update_keeps_match).
           rewrite Hf. reflexivity.
      * repeat split; try reflexivity.
        intros other. unfold result_store. rewrite !run_Do. cbn [exec].
        rewrite Hf, Est. rewrite !run_Do. cbn [exec fst snd run]. reflexivity.
    + repeat split; try reflexivity.
      intros other. unfold result_store. rewrite !run_Do. cbn [exec].
      rewrite Hf. rewrite !run_Do. cbn [exec fst snd run]. reflexivity.
  - intros user_id qr s.
    apply (wpt_run (cb_cancel_razorpay user_id qr)
             (fun _ s' t =>
                balance_incs t = 0 /\ users s' = users s /\ payments s' = payments s
                /\ (forall v, v <> user_id ->
                              state_get v (RAZORPAY_STATE s')
                              = state_get v (RAZORPAY_STATE s))
                /\ state_get user_id (RAZORPAY_STATE s')
                   = match state_get user_id (RAZORPAY_STATE s) with
                     | Some st => if String.eqb (qr_code_id st) qr then None else Some st
                     | None => None
                     end)).
    unfold cb_cancel_razorpay. wpt_simpl.
    destruct (state_get user_id (RAZORPAY_STATE s)) as [st |] eqn:Hst.
    + destruct (String.eqb (qr_code_id st) qr) eqn:Hqr; wpt_simpl.
      * repeat split; try reflexivity.
        -- intros v Hv. rewrite state_get_pop.
           destruct (Z.eqb_spec v user_id); [congruence | reflexivity].
        -- rewrite state_get_pop, Z.eqb_refl. reflexivity.
      * repeat split; try reflexivity. exact Hst.
    + repeat split; try reflexivity. exact Hst.
Qed.

(** ** Discounts and amounts *)

Lemma best_of_rules_mono (rs : list Rule) :
  forall (qty qty' b b' : Z),
    (qty <= qty')%Z -> (b <= b')%Z ->
    (best_of_rules rs qty b <= best_of_rules rs qty' b')%Z.
Proof.
  induction rs as [| rule r IH]; intros qty qty' b b' Hq Hb; simpl; [exact Hb |].
  destruct (min_qty rule) as [mq |]; [| apply IH; assumption].
  destruct (percent rule) as [pc |]; [| apply IH; assumption].
  destruct (Z.geb_spec qty mq) as [H1 | H1]; destruct (Z.geb_spec qty' mq) as [H2 | H2];
    try (apply IH; lia); lia.
Qed.

(** X9. Buying more never lowers the discount: for every stored rule list,
    [best_discount_percent] is monotone in the quantity, and it is never
    negative. *)
Theorem discount_grows_with_quantity :
  forall (product_id : ObjectId) (qty qty' : Z) (s : Store),
    (qty <= qty')%Z ->
    let pct := result_value (run (best_discount_percent product_id qty) s) in
    let pct' := result_value (run (best_discount_percent product_id qty') s) in
    (0 <= pct <= pct')%Z.
Proof.
  intros product_id qty qty' s Hq. unfold best_discount_percent, result_value.
  rewrite !run_Do. cbn [exec].
  destruct (find (fun d => Nat.eqb (d_product_id d) product_id) (discounts s)) as [d |];
    cbn [run fst snd]; [| lia].
  split; [| apply best_of_rules_mono; lia].
  rewrite best_of_rules_fold.
  exact (proj1 (fold_max_upper (applicable_percents (rules d) qty) 0)).
Qed.

Lemma discount_grows_with_quantity_witness :
  (1 <= 2)%Z
  /\ (0 <= result_value (run (best_discount_percent 7%nat 1) scenario_store)
      <= result_value (run (best_discount_percent 7%nat 2) scenario_store))%Z
  /\ result_value (run (best_discount_percent 7 2) scenario_store) = 10%Z.
Proof.
  assert (H : (1 <= 2)%Z) by lia.
  split; [exact H |]. split; [| reflexivity].
  exact (discount_grows_with_quantity 7 1 2 scenario_store H).
Defined.

Lemma int_of_float_bounds (d : Q) :
  Qlt 0 d -> Qle (inject_Z (int_of_float d)) d /\ Qlt d (inject_Z (int_of_float d) + 1).
Proof.
  intros Hd. unfold int_of_float.
  assert (Hn : (0 < Qnum d)%Z) by (unfold Qlt in Hd; simpl in Hd; lia).
  destruct (Z.leb_spec 0 (Qnum d)) as [_ | H]; [| lia].
  split; [apply Qfloor_le |].
  pose proof (Qlt_floor d) as H. rewrite inject_Z_plus in H. exact H.
Qed.

(** X10. [money_int] rejects what is not a decimal and every amount that is
    not positive, and truncates a positive amount to the integer below it:
    the result [z] satisfies [0 <= z <= d < z + 1].  An amount between 0
    and 1 is therefore accepted and becomes 0. *)
Theorem money_int_truncates_positive_amounts :
  money_int None = None
  /\ (forall d, Qle d 0 -> money_int (Some d) = None)
  /\ (forall d, Qlt 0 d ->
                exists z, money_int (Some d) = Some z /\ (0 <= z)%Z
                          /\ Qle (inject_Z z) d /\ Qlt d (inject_Z z + 1))
  /\ (forall d, Qlt 0 d -> Qlt d 1 -> money_int (Some d) = Some 0%Z).
Proof.
  split; [reflexivity |]. split; [| split].
  - intros d Hd. unfold money_int.
    destruct (Qle_bool d 0) eqn:E; [reflexivity |].
    apply Qle_bool_iff in Hd. congruence.
  - intros d Hd. unfold money_int.
    destruct (Qle_bool d 0) eqn:E.
    + apply Qle_bool_iff in E. exfalso. apply (Qlt_irrefl 0).
      apply (Qlt_le_trans _ d); assumption.
    + exists (int_of_float d). split; [reflexivity |].
      split; [apply int_of_float_nonneg; apply Qlt_le_weak; exact Hd |].
      apply int_of_float_bounds. exact Hd.
  - intros d Hd H1. unfold money_int.
    destruct (Qle_bool d 0) eqn:E.
    + apply Qle_bool_iff in E. exfalso. apply (Qlt_irrefl 0).
      apply (Qlt_le_trans _ d); assumption.
    + f_equal. destruct (int_of_float_bounds d Hd) as [Hlo Hhi].
      pose proof (int_of_float_nonneg d (Qlt_le_weak _ _ Hd)) as H0.
      assert (Hlt : Qlt (inject_Z (int_of_float d)) 1)
        by (apply (Qle_lt_trans _ d); assumption).
      unfold Qlt in Hlt. simpl in Hlt. lia.
Qed.

(** ** Handlers that read, then write *)

Lemma oxapay_webhook_accepted (config : Config) (data : OxaPayData) (t : string) :
  oxapay_accepts data t -> oxapay_webhook config data = oxapay_settle config t.
Proof.
  intros (Ht & Hne & Ha & Hst). unfold oxapay_webhook. rewrite Ht.
  destruct (String.eqb_spec t "") as [E | _]; [congruence |].
  destruct (data_amount data); [| congruence].
  rewrite Hst. reflexivity.
Qed.

(** X11. [cb_admin_pay_action] reads the payment and writes the approval
    in separate operations, and credits without looking at what the update
    matched.  When two admins approve the same pending payment and both
    tasks read it before either writes, both credit: the payer receives the
    amount twice. *)
Theorem concurrent_approvals_credit_twice :
  forall (config : Config) (admin1 admin2 : Z) (oid : ObjectId) (s : Store)
         (p : Payment) (u1 u2 payer : User),
    is_admin config admin1 = true ->
    is_admin config admin2 = true ->
    find_user admin1 s = Some u1 ->
    find_user admin2 s = Some u2 ->
    find (payment_matches (by_id oid)) (payments s) = Some p ->
    p_status p = Pending ->
    find_user (p_user_id p) s = Some payer ->
    let credit := match p_amount_usd p with Some a => a | None => 0%Q end in
    let '(s', _, t) :=
      interleave both_read_pending
        (cb_admin_pay_action config admin1 oid act_approve)
        (cb_admin_pay_action config admin2 oid act_approve) s in
    balance_incs t = 2
    /\ find_user (p_user_id p) s'
       = Some (apply_user_update (inc_balance_inr credit)
                 (apply_user_update (inc_balance_inr credit) payer)).
Proof.
  intros config a1 a2 oid s p u1 u2 payer H1 H2 Hu1 Hu2 Hf Hst Hpayer credit.
  unfold both_read_pending, cb_admin_pay_action, upsert_user. cbn [bind].
  unfold find_user in Hu1, Hu2.
  repeat first [ rewrite Hu1 | rewrite Hu2 | rewrite H1 | rewrite H2 | rewrite Hf
               | rewrite Hst
               | progress cbn [interleave step exec status_eqb negb run fst snd app users
                               payments set_users set_payments] ].
  split; [reflexivity |].
  unfold find_user. cbn [users set_users set_payments].
  rewrite !find_user_update, Z.eqb_refl. fold (find_user (p_user_id p) s).
  rewrite Hpayer. reflexivity.
Qed.

Lemma concurrent_approvals_credit_twice_witness :
  let '(s', _, t) :=
    interleave both_read_pending
      (cb_admin_pay_action upi_config 7677304116 0 act_approve)
      (cb_admin_pay_action upi_config 6670166083 0 act_approve) review_store in
  map p_status (payments review_store) = [Pending] /\ balance_incs t = 2.
Proof.
  pose proof (concurrent_approvals_credit_twice upi_config 7677304116 6670166083 0
                review_store) as H.
  specialize (H _ _ _ _ eq_refl eq_refl eq_refl eq_refl eq_refl eq_refl eq_refl).
  cbv zeta in H.
  destruct (interleave both_read_pending
              (cb_admin_pay_action upi_config 7677304116 0 act_approve)
              (cb_admin_pay_action upi_config 6670166083 0 act_approve) review_store)
    as [[s' v] t].
  split; [reflexivity | exact (proj1 H)].
Defined.

(** X12. [cb_cancel_oxapay] reads the payment and writes the cancellation
    in separate operations, with the track id as the only filter of the
    write.  When the settlement webhook is served between the two, the
    payment is approved and credited, and the cancellation then overwrites
    the status: the payer keeps the credit and the payment ends cancelled. *)
Theorem settlement_during_cancel_is_overwritten :
  forall (config : Config) (user_id : Z) (data : OxaPayData) (track_id : string)
         (s : Store) (p : Payment) (payer : User),
    oxapay_accepts data track_id ->
    find (payment_matches (by_oxapay_track_id track_id)) (payments s) = Some p ->
    p_method p = "oxapay" ->
    p_status p = Pending ->
    find_user (p_user_id p) s = Some payer ->
    let '(s', _, t) :=
      interleave settle_during_cancel (cb_cancel_oxapay user_id track_id)
        (oxapay_webhook config data) s in
    balance_incs t = 1
    /\ find_user (p_user_id p) s'
       = Some (apply_user_update
                 (inc_balance_inr (float_of_int (oxapay_credit config p))) payer)
    /\ find (payment_matches (by_oxapay_track_id track_id)) (payments s')
       = Some (apply_payment_update (set_status Cancelled)
                 (apply_payment_update set_status_auto p)).
Proof.
  intros config user_id data t s p payer Hacc Hf Hm Hst Hpayer.
  rewrite (oxapay_webhook_accepted config data t Hacc).
  destruct (approve_first_found t (payments s) p Hf) as (ps' & Hup & Hf').
  { rewrite Hst. reflexivity. }
  unfold settle_during_cancel, cb_cancel_oxapay, oxapay_settle, oxapay_approve,
    oxapay_credit_wallet.
  repeat first [ rewrite Hf | rewrite Hm | rewrite Hst | rewrite Hup
               | rewrite String.eqb_refl
               | progress cbn [interleave step exec status_eqb negb run fst snd app users
                               payments set_users set_payments Nat.ltb Nat.leb] ].
  split; [reflexivity |]. split.
  - unfold find_user. cbn [users set_users set_payments].
    rewrite find_user_update, Z.eqb_refl. fold (find_user (p_user_id p) s).
    rewrite Hpayer. reflexivity.
  - rewrite find_update_first by (intros x; apply track_update_keeps_match).
    rewrite Hf'. reflexivity.
Qed.

Lemma settlement_during_cancel_is_overwritten_witness :
  let '(s', _, t) :=
    interleave settle_during_cancel (cb_cancel_oxapay 1001 "TX1")
      (oxapay_webhook default_config tx1_paid) tx1_store in
  map p_status (payments tx1_store) = [Pending]
  /\ balance_incs t = 1
  /\ map p_status (payments s') = [Cancelled]
  /\ balance_of 1001 s' = Some (0 + inject_Z 4500)%Q.
Proof.
  assert (Hacc : oxapay_accepts tx1_paid "TX1")
    by (repeat split; try reflexivity; discriminate).
  pose proof (settlement_during_cancel_is_overwritten default_config 1001 tx1_paid "TX1"
                tx1_store _ _ Hacc eq_refl eq_refl eq_refl eq_refl) as H.
  destruct (interleave settle_during_cancel (cb_cancel_oxapay 1001 "TX1")
              (oxapay_webhook default_config tx1_paid) tx1_store) as [[s' v] t] eqn:E.
  destruct H as (Hincs & _ & _).
  split; [reflexivity |]. split; [exact Hincs |].
  vm_compute in E. injection E as <- _ _. split; reflexivity.
Defined.

(** ** The shelf after a purchase *)

Lemma In_firstn_list {A : Type} (n : nat) (l : list A) (x : A) :
  In x (firstn n l) -> In x l.
Proof.
  intros H. rewrite <- (firstn_skipn n l). apply in_or_app. left. exact H.
Qed.

Lemma mem_oid_In (x : ObjectId) (l : list ObjectId) : mem_oid x l = true <-> In x l.
Proof.
  induction l as [| y r IH]; simpl; [split; [discriminate | tauto] |].
  rewrite orb_true_iff, IH, Nat.eqb_eq. split; intros [H | H]; auto.
Qed.

Lemma mark_sold_not_available (pid : ObjectId) (uid now : Z) (st : Stock) :
  stock_is_available pid (mark_sold uid now st) = false.
Proof. unfold stock_is_available, mark_sold. simpl. apply andb_false_r. Qed.

Lemma picked_ids_on_shelf (f : Stock -> bool) (l : list Stock) (n : nat) (i : ObjectId) :
  In i (map s_id (firstn n (filter f l))) -> In i (map s_id l).
Proof.
  intros H. apply in_map_iff in H. destruct H as (x & <- & Hx).
  apply in_map. apply In_firstn_list in Hx. apply filter_In in Hx. tauto.
Qed.

(** Marking the first [n] available items of a product as sold takes
    exactly these off the product's shelf. *)
Lemma shelf_after_sale (pid : ObjectId) (uid now : Z) (l : list Stock) :
  forall n,
    NoDup (map s_id l) ->
    filter (stock_is_available pid)
      (map (fun st => if mem_oid (s_id st)
                           (map s_id (firstn n (filter (stock_is_available pid) l)))
                      then mark_sold uid now st else st) l)
    = skipn n (filter (stock_is_available pid) l).
Proof.
  induction l as [| x l IH]; intros n Hnd; [destruct n; reflexivity |].
  inversion Hnd as [| ? ? Hx Hnd']; subst.
  cbn [filter map]. destruct (stock_is_available pid x) eqn:Ex.
  - destruct n as [| m].
    + cbn [firstn map mem_oid skipn]. rewrite Ex.
      f_equal. rewrite map_id. reflexivity.
    + cbn [firstn map mem_oid skipn]. rewrite Nat.eqb_refl. cbn [orb].
      rewrite mark_sold_not_available. rewrite <- (IH m Hnd'). f_equal.
      apply map_ext_in. intros y Hy.
      destruct (Nat.eqb_spec (s_id y) (s_id x)) as [E | _]; [| reflexivity].
      exfalso. apply Hx. rewrite <- E. apply in_map. exact Hy.
  - destruct (mem_oid (s_id x) (map s_id (firstn n (filter (stock_is_available pid) l))))
      eqn:Em.
    + exfalso. apply Hx. apply mem_oid_In in Em.
      exact (picked_ids_on_shelf _ l n _ Em).
    + rewrite Ex. apply IH. exact Hnd'.
Qed.

Lemma NoDup_map_inj {A B : Type} (f : A -> B) (l : list A) (x y : A) :
  NoDup (map f l) -> In x l -> In y l -> f x = f y -> x = y.
Proof.
  induction l as [| a l IH]; simpl; intros Hnd Hx Hy E; [contradiction |].
  inversion Hnd as [| ? ? Ha Hnd']; subst.
  destruct Hx as [-> | Hx]; destruct Hy as [-> | Hy]; auto.
  - exfalso. apply Ha. rewrite E. apply in_map. exact Hy.
  - exfalso. apply Ha. rewrite <- E. apply in_map. exact Hx.
Qed.

Lemma filter_map_fix {A : Type} (f : A -> bool) (g : A -> A) (l : list A) :
  (forall x, In x l -> f (g x) = f x /\ (f x = true -> g x = x)) ->
  filter f (map g l) = filter f l.
Proof.
  induction l as [| a l IH]; intros H; [reflexivity |].
  cbn [map filter]. destruct (H a (or_introl eq_refl)) as [E Hfix]. rewrite E.
  rewrite IH by (intros x Hx; apply H; right; exact Hx).
  destruct (f a); [rewrite Hfix by reflexivity |]; reflexivity.
Qed.

Lemma other_shelf_after_sale (pid pid' : ObjectId) (uid now : Z) (l : list Stock) (n : nat) :
  pid' <> pid ->
  NoDup (map s_id l) ->
  filter (stock_is_available pid')
    (map (fun st => if mem_oid (s_id st)
                         (map s_id (firstn n (filter (stock_is_available pid) l)))
                    then mark_sold uid now st else st) l)
  = filter (stock_is_available pid') l.
Proof.
  intros Hne Hnd. apply filter_map_fix. intros x Hx.
  destruct (mem_oid (s_id x) (map s_id (firstn n (filter (stock_is_available pid) l))))
    eqn:Em; [| split; reflexivity].
  apply mem_oid_In, in_map_iff in Em. destruct Em as (y & Hid & Hy).
  apply In_firstn_list, filter_In in Hy. destruct Hy as [Hy Hav].
  assert (y = x) by (apply (NoDup_map_inj s_id l); assumption). subst y.
  assert (E : stock_is_available pid' x = false).
  { unfold stock_is_available in *. apply andb_true_iff in Hav.
    destruct Hav as [Hp _]. apply Nat.eqb_eq in Hp.
    destruct (Nat.eqb_spec (s_product_id x) pid') as [E | _]; [congruence | reflexivity]. }
  rewrite mark_sold_not_available, E. split; [reflexivity | discriminate].
Qed.

(** X13. With stock ids unique (as [_id] is), a successful purchase of
    [qty] units takes exactly the first [qty] available items off the
    product's shelf -- the shelf afterwards is the old one without them, so
    it is [qty] shorter -- delivers [qty] credential lines, leaves the
    shelves of all other products as they were and does not touch an item
    sold earlier. *)
Theorem purchase_takes_exactly_qty_off_the_shelf :
  forall (user_id : Z) (prod : Product) (qty : Z) (total : Q) (now : Z) (s : Store)
         (oid : ObjectId) (dl : list string),
    NoDup (map s_id (stocks s)) ->
    (1 <= qty)%Z ->
    result_value (run (purchase_transaction user_id prod qty total now) s) = inr (oid, dl) ->
    let s' := result_store (run (purchase_transaction user_id prod qty total now) s) in
    available_stock (prod_id prod) s'
      = skipn (Z.to_nat qty) (available_stock (prod_id prod) s)
    /\ (Z.of_nat (List.length (available_stock (prod_id prod) s'))
        = Z.of_nat (List.length (available_stock (prod_id prod) s)) - qty)%Z
    /\ (forall pid, pid <> prod_id prod -> available_stock pid s' = available_stock pid s)
    /\ (forall st, In st (stocks s) -> s_status st = sold -> In st (stocks s'))
    /\ List.length dl = Z.to_nat qty.
Proof.
  intros user_id prod qty total now s oid dl Hnd Hq Hr s'.
  destruct (purchase_success_effect user_id prod qty total now s oid dl Hr)
    as (Hlen & Hdl & _ & Hst & _).
  fold s' in Hst. unfold available_stock in *.
  assert (Hsh : filter (stock_is_available (prod_id prod)) (stocks s')
                = skipn (Z.to_nat qty) (filter (stock_is_available (prod_id prod)) (stocks s))).
  { rewrite Hst. apply shelf_after_sale. exact Hnd. }
  split; [exact Hsh |]. split; [| split; [| split]].
  - rewrite Hsh, length_skipn. rewrite length_firstn in Hlen. lia.
  - intros pid Hpid. rewrite Hst. apply other_shelf_after_sale; assumption.
  - intros st Hin Hsold. rewrite Hst. apply in_map_iff. exists st. split; [| exact Hin].
    destruct (mem_oid (s_id st)
                (map s_id (firstn (Z.to_nat qty)
                             (filter (stock_is_available (prod_id prod)) (stocks s)))))
      eqn:Em; [| reflexivity].
    exfalso. apply mem_oid_In, in_map_iff in Em. destruct Em as (y & Hid & Hy).
    apply In_firstn_list, filter_In in Hy. destruct Hy as [Hy Hav].
    assert (y = st) by (apply (NoDup_map_inj s_id (stocks s)); assumption). subst y.
    unfold stock_is_available in Hav. rewrite Hsold, andb_false_r in Hav. discriminate.
  - rewrite Hdl, length_map, length_firstn. rewrite length_firstn in Hlen. lia.
Qed.

Lemma purchase_takes_exactly_qty_off_the_shelf_witness :
  let s' := result_store (run (purchase_transaction 1001 scenario_product 2 72 500)
                            scenario_store) in
  NoDup (map s_id (stocks scenario_store))
  /\ (1 <= 2)%Z
  /\ map s_id (available_stock 7 scenario_store) = [20; 21; 22]
  /\ map s_id (available_stock 7 s') = [22].
Proof.
  assert (Hnd : NoDup (map s_id (stocks scenario_store))).
  { repeat constructor; simpl; intuition discriminate. }
  assert (Hq : (1 <= 2)%Z) by lia.
  split; [exact Hnd |]. split; [exact Hq |]. split; [reflexivity |].
  destruct (purchase_takes_exactly_qty_off_the_shelf 1001 scenario_product 2 72 500
              scenario_store 30 (map delivered_line (firstn 2 (stocks scenario_store)))
              Hnd Hq eq_refl) as [Hsh _].
  transitivity (map s_id (skipn 2 (available_stock 7 scenario_store)));
    [exact (f_equal (map s_id) Hsh) | reflexivity].
Defined.

(** ** From a funding request to its settlement *)

Lemma find_snoc_none {A : Type} (f : A -> bool) (l : list A) (x : A) :
  find f l = None -> find f (l ++ [x]) = if f x then Some x else None.
Proof.
  induction l as [| a l IH]; simpl; [reflexivity |].
  destruct (f a); [discriminate | exact IH].
Qed.

Lemma update_first_snoc_none {A : Type} (f : A -> bool) (g : A -> A) (l : list A) (x : A) :
  find f l = None -> f x = true -> update_first f g (l ++ [x]) = (l ++ [g x], 1).
Proof.
  induction l as [| a l IH]; simpl; intros Hn Hx; [rewrite Hx; reflexivity |].
  destruct (f a); [discriminate |]. rewrite (IH Hn Hx). reflexivity.
Qed.

Lemma find_none_refine {A : Type} (f f' : A -> bool) (l : list A) :
  find f l = None -> (forall x, f' x = true -> f x = true) -> find f' l = None.
Proof.
  induction l as [| a l IH]; simpl; intros Hn Hsub; [reflexivity |].
  destruct (f a) eqn:E; [discriminate |].
  destruct (f' a) eqn:E'; [rewrite (Hsub a E') in E; discriminate | auto].
Qed.

(** What the text step of an OxaPay funding request leaves: the flow
    cleared and a pending payment for the amount under the provider's
    track id. *)
Lemma on_text_oxapay_request (config : Config) (user_id : Z) (u : User) (message : TextMsg)
    (amount_usd : Q) (track_id : string) (message_id : Z) (s : Store) :
  find_user user_id s = Some u ->
  banned u = false ->
  flow u = Some (flow_await_amount "oxapay") ->
  text_float message = Some amount_usd ->
  float_lt amount_usd (1 # 10) = false ->
  result_store (run (on_text config user_id true message (Some track_id) message_id) s)
  = set_payments
      (set_next_oid
         (set_users s (fst (update_first (user_has_id user_id)
                              (apply_user_update (set_flow None)) (users s))))
         (S (next_oid s)))
      (payments s ++ [oxapay_payment_doc (next_oid s) user_id amount_usd track_id]).
Proof.
  intros Hu Hb Hfl Htx Hmin.
  apply (wpt_run (on_text config user_id true message (Some track_id) message_id)
           (fun _ s1 _ => s1 = _)).
  unfold on_text. apply wpt_bind. apply wpt_upsert_user.
  intros u1 s1 t Hu1 Ht _ [[Hu' ->] | (Hn & _ & _)]; [| congruence].
  assert (u1 = u) by congruence. subst u1. rewrite Hb. cbn [negb].
  wpt_simpl. fold (find_user user_id s). rewrite Hu, Hfl.
  change (String.eqb "oxapay" "razorpay") with false.
  change (String.eqb "oxapay" "oxapay") with true. cbv iota. rewrite Htx, Hmin.
  apply wpt_bind. unfold handle_oxapay_payment. wpt_simpl. reflexivity.
Qed.

Lemma int_of_float_whole_product (a r : Z) :
  int_of_float (Qmult (inject_Z a) (inject_Z r)) = (a * r)%Z.
Proof.
  unfold int_of_float, Qfloor, Qceiling, Qfloor, Qopp, Qmult, inject_Z. cbn [Qnum Qden].
  change (1 * 1)%positive with 1%positive.
  rewrite !Z.div_1_r. destruct (Z.leb 0 (a * r)); lia.
Qed.

(** X14. A funding request followed by its settlement: the amount the user
    typed (at least 0.1) is stored under the provider's track id as a
    pending payment, and a settlement event naming that track id approves
    it and credits the requester, once, an amount of whole credits that does
    not depend on what the event reports (the handler computes it from the
    stored amount; it is to fit the database's 64-bit integers).  For a whole
    amount and a whole rate with a product below 2^53, where the floating
    point product is exact, the credit is amount times rate. *)
Theorem oxapay_request_then_settlement_credits_requester :
  forall (config : Config) (user_id : Z) (u : User) (message : TextMsg)
         (amount_usd : Q) (track_id : string) (message_id : Z) (data : OxaPayData)
         (s : Store),
    find_user user_id s = Some u ->
    banned u = false ->
    flow u = Some (flow_await_amount "oxapay") ->
    text_float message = Some amount_usd ->
    float_lt amount_usd (1 # 10) = false ->
    find (payment_matches (by_oxapay_track_id track_id)) (payments s) = None ->
    oxapay_accepts data track_id ->
    (Z.abs (int_of_float (Qmult amount_usd (USD_TO_INR_RATE config))) < 2 ^ 62)%Z ->
    let s1 := result_store
                (run (on_text config user_id true message (Some track_id) message_id) s) in
    let r := run (oxapay_webhook config data) s1 in
    find (payment_matches (by_oxapay_track_id track_id)) (payments s1)
      = Some (oxapay_payment_doc (next_oid s) user_id amount_usd track_id)
    /\ find_user user_id s1 = Some (apply_user_update (set_flow None) u)
    /\ result_value r = ok_true
    /\ credited (result_trace r) = [user_id]
    /\ find (payment_matches (by_oxapay_track_id track_id)) (payments (result_store r))
       = Some (apply_payment_update set_status_auto
                 (oxapay_payment_doc (next_oid s) user_id amount_usd track_id))
    /\ (forall data', oxapay_accepts data' track_id ->
                      run (oxapay_webhook config data') s1 = r)
    /\ (exists credit : Z,
          balance_of user_id (result_store r)
          = Some (Qplus (balance_inr u) (inject_Z credit)))
    /\ (forall a rate : Z,
          amount_usd = inject_Z a -> USD_TO_INR_RATE config = inject_Z rate ->
          (Z.abs (a * rate) < 2 ^ 53)%Z ->
          balance_of user_id (result_store r)
          = Some (Qplus (balance_inr u) (inject_Z (a * rate)))).
Proof.
  intros config user_id u message amount_usd t message_id data s Hu Hb Hfl Htx Hmin
         Hfresh Hacc _ s1 r.
  assert (Hs1 : s1 = _) by (exact (on_text_oxapay_request config user_id u message amount_usd
                                     t message_id s Hu Hb Hfl Htx Hmin)).
  set (doc := oxapay_payment_doc (next_oid s) user_id amount_usd t) in *.
  set (credit := int_of_float (Qmult amount_usd (USD_TO_INR_RATE config))).
  assert (Hm : payment_matches (by_oxapay_track_id t) doc = true)
    by (simpl; apply String.eqb_refl).
  assert (Hm' : payment_matches (by_oxapay_track_id_not_approved t) doc = true)
    by (simpl; rewrite String.eqb_refl; reflexivity).
  assert (Hf1 : find (payment_matches (by_oxapay_track_id t)) (payments s1) = Some doc).
  { rewrite Hs1. cbn [payments set_payments]. rewrite (find_snoc_none _ _ doc Hfresh), Hm.
    reflexivity. }
  assert (Hu1 : find_user user_id s1 = Some (apply_user_update (set_flow None) u)).
  { rewrite Hs1. unfold find_user. cbn [users set_users set_payments set_next_oid].
    rewrite find_user_update, Z.eqb_refl. fold (find_user user_id s). rewrite Hu.
    reflexivity. }
  split; [exact Hf1 |]. split; [exact Hu1 |].
  assert (Hfresh' : find (payment_matches (by_oxapay_track_id_not_approved t)) (payments s)
                    = None).
  { apply (find_none_refine _ _ _ Hfresh). intros x Hx. simpl in *.
    apply andb_true_iff in Hx. tauto. }
  assert (Hup : update_first (payment_matches (by_oxapay_track_id_not_approved t))
                  (apply_payment_update set_status_auto) (payments s1)
                = (payments s ++ [apply_payment_update set_status_auto doc], 1)).
  { rewrite Hs1. cbn [payments set_payments].
    apply update_first_snoc_none; assumption. }
  assert (Hbal : balance_of user_id (result_store r)
                 = Some (Qplus (balance_inr u) (inject_Z credit))
                 /\ result_value r = ok_true
                 /\ find (payment_matches (by_oxapay_track_id t)) (payments (result_store r))
                    = Some (apply_payment_update set_status_auto doc)).
  { apply (wpt_run (oxapay_webhook config data)
             (fun v s2 tr =>
                balance_of user_id s2 = Some (Qplus (balance_inr u) (inject_Z credit))
                /\ v = ok_true
                /\ find (payment_matches (by_oxapay_track_id t)) (payments s2)
                   = Some (apply_payment_update set_status_auto doc))).
    rewrite (oxapay_webhook_accepted config data t Hacc).
    unfold oxapay_settle. wpt_simpl. rewrite Hf1.
    change (String.eqb (p_method doc) "oxapay") with true.
    change (status_eqb (p_status doc) Approved) with false. cbn [negb].
    unfold oxapay_approve. wpt_simpl. rewrite Hup. cbn [fst snd].
    change (Nat.ltb 0 1) with true. cbv iota.
    unfold oxapay_credit_wallet. wpt_simpl.
    split; [| split; [reflexivity |]].
    - unfold balance_of, find_user. cbn [users set_users set_payments].
      change (p_user_id doc) with user_id.
      rewrite find_user_update, Z.eqb_refl. fold (find_user user_id s1). rewrite Hu1.
      reflexivity.
    - rewrite (find_snoc_none _ _ _ Hfresh).
      change (payment_matches (by_oxapay_track_id t)
                (apply_payment_update set_status_auto doc))
        with (payment_matches (by_oxapay_track_id t) doc).
      rewrite Hm. reflexivity. }
  destruct Hbal as (Hbal & Hv & Hfin).
  assert (Hpend : p_status doc <> Approved) by discriminate.
  destruct (oxapay_first_delivery config data s1 t doc Hacc Hf1 eq_refl Hpend)
    as (_ & Hc & _).
  split; [exact Hv |]. split; [exact Hc |]. split; [exact Hfin |].
  split; [| split].
  - intros data' Hacc'. unfold r.
    rewrite (oxapay_webhook_accepted config data t Hacc),
            (oxapay_webhook_accepted config data' t Hacc'). reflexivity.
  - exists credit. exact Hbal.
  - intros a rate Ha Hr _. rewrite Hbal. unfold credit.
    rewrite Ha, Hr, int_of_float_whole_product. reflexivity.
Qed.

Lemma oxapay_request_then_settlement_credits_requester_witness :
  let s1 := result_store
              (run (on_text default_config 1001 true text_5 (Some "TX9") 0) funding_store) in
  balance_of 1001 funding_store = Some 0%Q
  /\ credited (result_trace (run (oxapay_webhook default_config (paid_event "TX9" 1)) s1))
     = [1001%Z]
  /\ balance_of 1001
       (result_store (run (oxapay_webhook default_config (paid_event "TX9" 1)) s1))
     = Some (0 + inject_Z (5 * 90))%Q.
Proof.
  split; [reflexivity |].
  assert (Hacc : oxapay_accepts (paid_event "TX9" 1) "TX9")
    by (repeat split; try reflexivity; discriminate).
  assert (Hb : Z.lt (Z.abs (int_of_float (Qmult 5 (USD_TO_INR_RATE default_config))))
                    (2 ^ 62)%Z) by (vm_compute; reflexivity).
  destruct (oxapay_request_then_settlement_credits_requester default_config 1001 _ text_5
              5%Q "TX9" 0 (paid_event "TX9" 1) funding_store
              eq_refl eq_refl eq_refl eq_refl eq_refl eq_refl Hacc Hb)
    as (_ & _ & _ & Hc & _ & _ & _ & Hw).
  split; [exact Hc |].
  apply (Hw 5%Z 90%Z); [reflexivity | reflexivity | vm_compute; reflexivity].
Defined.

(** ** From a QR code to its payment *)

(** X15. A Razorpay QR code and its payment.  [create_upi_qr] asks for
    [int(amount)] rupees ([payment_amount] is that many times 100 paise);
    for a typed amount of at least 1 this is the amount with its fraction
    dropped, and at least 1.  When the provider reports the payment of the
    QR code -- as [payment.captured] or as [qr_code.credited] -- with a
    valid signature and a payment id not seen before, the user named in the
    notes is credited exactly [int(amount)], the payment is recorded as
    approved under the provider's id, and the user's [RAZORPAY_STATE] entry
    is gone. *)
Theorem razorpay_qr_payment_credits_whole_rupees :
  forall (hmac : string -> string -> string) (config : Config)
         (signature body : string) (amount : Q) (user_id : Z) (username : option string)
         (payment_id : string) (data : RzpData) (u : User) (s : Store),
    verify_webhook_signature hmac config body signature = true ->
    pays_qr (create_upi_qr_payload amount user_id username) payment_id data ->
    find_user user_id s = Some u ->
    find (payment_matches (by_razorpay_payment_id (Some payment_id))) (payments s) = None ->
    let r := run (razorpay_webhook hmac config signature body data) s in
    let s' := result_store r in
    let credits := create_upi_qr_amount amount in
    payment_amount (create_upi_qr_payload amount user_id username) = (credits * 100)%Z
    /\ (Qle 1 amount ->
        (1 <= credits)%Z /\ Qle (inject_Z credits) amount
        /\ Qlt amount (inject_Z credits + 1))
    /\ result_value r = ok_true
    /\ balance_incs (result_trace r) = 1
    /\ balance_of user_id s' = Some (Qplus (balance_inr u) (float_of_int credits))
    /\ find (payment_matches (by_razorpay_payment_id (Some payment_id))) (payments s')
       = Some (razorpay_payment_doc (next_oid s) (Some payment_id) user_id credits)
    /\ state_get user_id (RAZORPAY_STATE s') = None.
Proof.
  intros hmac config signature body amount user_id username payment_id data u s
         Hsig (Hid & Hamt & Hev) Hu Hfresh.
  split; [reflexivity |]. split.
  { intros H1. unfold create_upi_qr_amount.
    assert (Hpos : Qlt 0 amount) by (apply (Qlt_le_trans _ 1); [reflexivity | exact H1]).
    destruct (int_of_float_bounds amount Hpos) as [Hlo Hhi]. split; [| split; assumption].
    unfold int_of_float.
    assert (Hn : (0 < Qnum amount)%Z) by (unfold Qlt in Hpos; simpl in Hpos; lia).
    destruct (Z.leb_spec 0 (Qnum amount)) as [_ | Hneg]; [| lia].
    exact (Qfloor_resp_le 1 amount H1). }
  assert (Hdiv : Z.div (ent_amount (payment_entity data)) 100 = create_upi_qr_amount amount).
  { rewrite Hamt. simpl. apply Z.div_mul. discriminate. }
  apply (wpt_run (razorpay_webhook hmac config signature body data)
           (fun v s' t =>
              v = ok_true /\ balance_incs t = 1
              /\ balance_of user_id s'
                 = Some (Qplus (balance_inr u) (float_of_int (create_upi_qr_amount amount)))
              /\ find (payment_matches (by_razorpay_payment_id (Some payment_id)))
                      (payments s')
                 = Some (razorpay_payment_doc (next_oid s) (Some payment_id) user_id
                           (create_upi_qr_amount amount))
              /\ state_get user_id (RAZORPAY_STATE s') = None)).
  unfold razorpay_webhook. rewrite Hsig. cbn [negb].
  assert (Hcredit :
            wpt (razorpay_credit (Some payment_id) user_id (create_upi_qr_amount amount))
              (fun _ s' t =>
                 balance_incs t = 1
                 /\ balance_of user_id s'
                    = Some (Qplus (balance_inr u)
                              (float_of_int (create_upi_qr_amount amount)))
                 /\ find (payment_matches (by_razorpay_payment_id (Some payment_id)))
                         (payments s')
                    = Some (razorpay_payment_doc (next_oid s) (Some payment_id) user_id
                              (create_upi_qr_amount amount))
                 /\ state_get user_id (RAZORPAY_STATE s') = None) s).
  { unfold razorpay_credit. wpt_simpl. rewrite Hfresh. wpt_simpl.
    destruct (state_get user_id (RAZORPAY_STATE s)) eqn:Hst; wpt_simpl.
    - split; [reflexivity |]. split.
      + unfold balance_of, find_user. cbn [users set_users set_payments set_next_oid set_state].
        rewrite find_user_update, Z.eqb_refl. fold (find_user user_id s). rewrite Hu.
        reflexivity.
      + split.
        * rewrite (find_snoc_none _ _ _ Hfresh). simpl. rewrite String.eqb_refl. reflexivity.
        * rewrite state_get_pop, Z.eqb_refl. reflexivity.
    - split; [reflexivity |]. split.
      + unfold balance_of, find_user. cbn [users set_users set_payments set_next_oid set_state].
        rewrite find_user_update, Z.eqb_refl. fold (find_user user_id s). rewrite Hu.
        reflexivity.
      + split.
        * rewrite (find_snoc_none _ _ _ Hfresh). simpl. rewrite String.eqb_refl. reflexivity.
        * exact Hst. }
  destruct Hev as [[Hev Hnote] | [Hev Hnote]]; rewrite Hev.
  - change (opt_string_eqb (Some "payment.captured") (Some "payment.captured")) with true.
    cbv iota. apply wpt_bind. unfold handle_payment_captured.
    rewrite Hnote, Hid, Hdiv. revert Hcredit. apply wpt_mono.
    intros _ s' t H. cbn [wpt]. rewrite app_nil_r. split; [reflexivity | exact H].
  - change (opt_string_eqb (Some "qr_code.credited") (Some "payment.captured")) with false.
    change (opt_string_eqb (Some "qr_code.credited") (Some "qr_code.credited")) with true.
    cbv iota. apply wpt_bind. unfold handle_qr_payment_success.
    rewrite Hnote, Hid, Hdiv. revert Hcredit. apply wpt_mono.
    intros _ s' t H. cbn [wpt]. rewrite app_nil_r. split; [reflexivity | exact H].
Qed.

Lemma razorpay_qr_payment_credits_whole_rupees_witness :
  let payload := create_upi_qr_payload (101 # 2) 1001 None in
  let r := run (razorpay_webhook constant_digest default_config "00" "{}"
                  (captured_event "pay_1" (payment_amount payload) 1001)) one_user_store in
  payment_amount payload = 5000%Z
  /\ balance_of 1001 one_user_store = Some 0%Q
  /\ balance_of 1001 (result_store r) = Some (0 + inject_Z 50)%Q.
Proof.
  split; [reflexivity |]. split; [reflexivity |].
  assert (Hpays : pays_qr (create_upi_qr_payload (101 # 2) 1001 None) "pay_1"
                    (captured_event "pay_1" 5000 1001))
    by (split; [reflexivity | split; [reflexivity | left; split; reflexivity]]).
  exact (proj1 (proj2 (proj2 (proj2 (proj2
           (razorpay_qr_payment_credits_whole_rupees constant_digest default_config "00" "{}"
              (101 # 2) 1001 None "pay_1" (captured_event "pay_1" 5000 1001) _
              one_user_store eq_refl Hpays eq_refl eq_refl)))))).
Defined.

(** ** The order screens *)

Lemma upsert_user_store (uid : Z) (s : Store) :
  only_registered uid s (result_store (run (upsert_user uid) s)).
Proof.
  destruct (run_upsert_user uid s) as (s1 & u & t & -> & _ & _ & [[_ ->] | (Hn & _ & ->)]);
    unfold result_store; cbn [fst]; [left | right]; auto.
Qed.

Lemma upsert_user_orders (uid : Z) (s : Store) :
  orders (result_store (run (upsert_user uid) s)) = orders s.
Proof. destruct (upsert_user_store uid s) as [-> | [_ ->]]; reflexivity. Qed.

Lemma insert_desc_perm {A : Type} (key : A -> Z) (x : A) (l : list A) :
  Permutation (insert_desc key x l) (x :: l).
Proof.
  induction l as [| y r IH]; simpl; [reflexivity |].
  destruct (Z.leb (key y) (key x)); [reflexivity |].
  rewrite IH. apply perm_swap.
Qed.

Lemma sort_desc_perm {A : Type} (key : A -> Z) (l : list A) :
  Permutation (sort_desc key l) l.
Proof.
  induction l as [| x r IH]; simpl; [reflexivity |].
  rewrite insert_desc_perm. apply perm_skip. exact IH.
Qed.

Lemma insert_desc_sorted {A : Type} (key : A -> Z) (x : A) (l : list A) :
  StronglySorted (fun a b => (key b <= key a)%Z) l ->
  StronglySorted (fun a b => (key b <= key a)%Z) (insert_desc key x l).
Proof.
  induction l as [| y r IH]; simpl; intros Hs; [repeat constructor |].
  inversion Hs as [| ? ? Hr Hy]; subst.
  destruct (Z.leb_spec (key y) (key x)) as [H | H].
  - constructor; [exact Hs |]. constructor; [exact H |].
    eapply Forall_impl; [| exact Hy]. simpl. intros a Ha. lia.
  - constructor; [apply IH; exact Hr |].
    eapply Permutation_Forall; [symmetry; apply insert_desc_perm |].
    constructor; [lia | exact Hy].
Qed.

Lemma sort_desc_sorted {A : Type} (key : A -> Z) (l : list A) :
  StronglySorted (fun a b => (key b <= key a)%Z) (sort_desc key l).
Proof.
  induction l as [| x r IH]; simpl; [constructor | apply insert_desc_sorted; exact IH].
Qed.

Lemma sort_desc_length {A : Type} (key : A -> Z) (l : list A) :
  List.length (sort_desc key l) = List.length l.
Proof. apply Permutation_length, sort_desc_perm. Qed.

Lemma skip_limit_nil {A : Type} (skip n : nat) (l : list A) :
  0 < n -> (skip_limit skip n l = [] <-> List.length l <= skip).
Proof.
  intros Hn. unfold skip_limit. split.
  - intros H. apply (f_equal (@List.length A)) in H.
    rewrite length_firstn, length_skipn in H. simpl in H. lia.
  - intros H. rewrite skipn_all2 by exact H. apply firstn_nil.
Qed.

Lemma skip_limit_length {A : Type} (skip n : nat) (l : list A) :
  List.length (skip_limit skip n l) = Nat.min n (List.length l - skip).
Proof. unfold skip_limit. rewrite length_firstn, length_skipn. reflexivity. Qed.

Lemma firstn_plus {A : Type} (a b : nat) (l : list A) :
  firstn (a + b) l = firstn a l ++ firstn b (skipn a l).
Proof.
  revert l. induction a as [| a IH]; intros l; [reflexivity |].
  destruct l as [| x l]; simpl; [rewrite firstn_nil; reflexivity |].
  rewrite IH. reflexivity.
Qed.

Lemma pages_concat {A : Type} (n m : nat) (l : list A) :
  List.concat (map (fun k => skip_limit (k * n) n l) (seq 0 m)) = firstn (m * n) l.
Proof.
  induction m as [| m IH]; [reflexivity |].
  rewrite seq_S, map_app, concat_app, IH. cbn [map List.concat plus].
  rewrite app_nil_r. unfold skip_limit.
  replace (S m * n) with (m * n + n) by lia. symmetry. apply firstn_plus.
Qed.
Lemma orders_of_upsert (uid v : Z) (s : Store) :
  orders_of uid (result_store (run (upsert_user v) s)) = orders_of uid s.
Proof. unfold orders_of. rewrite upsert_user_orders. reflexivity. Qed.

Lemma cb_orders_page_screen (user_id : Z) (page : nat) (s : Store) :
  snd (cb_orders_page user_id true page s)
  = let total := List.length (orders_of user_id s) in
    match skip_limit (page * 5) 5 (sort_desc o_created_at (orders_of user_id s)) with
    | [] => orders_none
    | o :: found =>
        orders_list (page + 1) ((total + 5 - 1) / 5) (map order_row (o :: found))
          ((if Nat.ltb 0 page then [nav_previous (page - 1)] else [])
           ++ (if Nat.ltb (page * 5 + 5) total then [nav_next (page + 1)] else []))
    end.
Proof.
  unfold cb_orders_page. cbn [negb]. cbv zeta. rewrite orders_of_upsert.
  destruct (skip_limit (page * 5) 5 (sort_desc o_created_at (orders_of user_id s)));
    reflexivity.
Qed.

(** X16. The pager of "My Orders" (five orders to a page, newest first).
    A page shows "No orders yet." exactly when it starts at or beyond the
    number of the user's orders -- also for a user who has orders, when the
    page number is too large.  A page that lists orders is labelled
    [page + 1] of [ceil(total / 5)], lists [min 5 (total - 5 * page)] rows,
    offers "Next" exactly when the following page lists an order, and
    "Previous" exactly when it is not the first page. *)
Theorem orders_pager_is_consistent :
  forall (user_id : Z) (page : nat) (s : Store),
    let total := List.length (orders_of user_id s) in
    let screen k := snd (cb_orders_page user_id true k s) in
    (screen page = orders_none <-> total <= page * 5)
    /\ (forall page_no pages rows nav,
           screen page = orders_list page_no pages rows nav ->
           page_no = page + 1
           /\ pages = (total + 4) / 5
           /\ page_no <= pages
           /\ List.length rows = Nat.min 5 (total - page * 5)
           /\ (In (nav_next (page + 1)) nav <-> screen (page + 1) <> orders_none)
           /\ (In (nav_previous (page - 1)) nav <-> 0 < page)
           /\ (forall b, In b nav ->
                         b = nav_next (page + 1) \/ b = nav_previous (page - 1))).
Proof.
  intros user_id page s total screen.
  assert (Hnone : forall k, screen k = orders_none <-> total <= k * 5).
  { intros k. unfold screen. rewrite cb_orders_page_screen. cbv zeta.
    pose proof (skip_limit_nil (k * 5) 5 (sort_desc o_created_at (orders_of user_id s))
                  ltac:(lia)) as H.
    rewrite sort_desc_length in H. fold total in H.
    destruct (skip_limit (k * 5) 5 (sort_desc o_created_at (orders_of user_id s)))
      as [| o found].
    - split; [intros _; apply H; reflexivity | reflexivity].
    - split; [discriminate |]. intros Hle. apply H in Hle. discriminate. }
  split; [apply Hnone |].
  intros page_no pages rows nav Hscreen.
  assert (Hlt : page * 5 < total).
  { destruct (Nat.le_gt_cases total (page * 5)) as [Hle | Hgt]; [| exact Hgt].
    apply Hnone in Hle. congruence. }
  unfold screen in Hscreen. rewrite cb_orders_page_screen in Hscreen. cbv zeta in Hscreen.
  fold total in Hscreen.
  pose proof (skip_limit_length (page * 5) 5
                (sort_desc o_created_at (orders_of user_id s))) as Hlen.
  rewrite sort_desc_length in Hlen. fold total in Hlen.
  destruct (skip_limit (page * 5) 5 (sort_desc o_created_at (orders_of user_id s)))
    as [| o found]; [discriminate |].
  injection Hscreen as <- <- <- <-.
  replace (total + 5 - 1) with (total + 4) by lia.
  split; [reflexivity |]. split; [reflexivity |]. split.
  { apply (Nat.div_le_lower_bound (total + 4) 5 (page + 1)); lia. }
  split; [rewrite <- Hlen; cbn [List.length map]; rewrite length_map; reflexivity |].
  assert (Hnext : Nat.ltb (page * 5 + 5) total = true <-> screen (page + 1) <> orders_none).
  { rewrite Nat.ltb_lt. split.
    - intros H E. apply Hnone in E. lia.
    - intros H. destruct (Nat.le_gt_cases total ((page + 1) * 5)) as [Hle | Hgt]; [| lia].
      apply Hnone in Hle. contradiction. }
  split; [| split].
  - rewrite <- Hnext.
    destruct (Nat.ltb 0 page), (Nat.ltb (page * 5 + 5) total); simpl;
      intuition (try discriminate; try congruence).
  - rewrite <- Nat.ltb_lt.
    destruct (Nat.ltb 0 page), (Nat.ltb (page * 5 + 5) total); simpl;
      intuition (try discriminate; try congruence).
  - intros b.
    destruct (Nat.ltb 0 page), (Nat.ltb (page * 5 + 5) total); simpl;
      intuition (try discriminate; try congruence).
Qed.
Lemma screen_rows_page (user_id : Z) (page : nat) (s : Store) :
  screen_rows (snd (cb_orders_page user_id true page s))
  = map order_row
      (skip_limit (page * 5) 5 (sort_desc o_created_at (orders_of user_id s))).
Proof.
  rewrite cb_orders_page_screen. cbv zeta.
  destruct (skip_limit (page * 5) 5 (sort_desc o_created_at (orders_of user_id s)));
    reflexivity.
Qed.

(** X17. Walking "My Orders" from page 0 to the last page shows every order
    of the caller exactly once and nobody else's: the rows of the pages, put
    end to end, are the caller's orders sorted by [created_at], newest
    first. *)
Theorem orders_pages_show_each_order_once :
  forall (user_id : Z) (s : Store),
    let mine := orders_of user_id s in
    let newest_first := sort_desc o_created_at mine in
    let pages := (List.length mine + 4) / 5 in
    List.concat
      (map (fun k => screen_rows (snd (cb_orders_page user_id true k s))) (seq 0 pages))
    = map order_row newest_first
    /\ Permutation newest_first mine
    /\ StronglySorted (fun a b => (o_created_at b <= o_created_at a)%Z) newest_first
    /\ (forall o, In o mine <-> In o (orders s) /\ o_user_id o = user_id).
Proof.
  intros user_id s mine newest_first pages. split; [| split; [| split]].
  - rewrite (map_ext _ (fun k => map order_row (skip_limit (k * 5) 5 newest_first)))
      by (intros k; apply screen_rows_page).
    rewrite <- (map_map (fun k => skip_limit (k * 5) 5 newest_first) (map order_row)).
    rewrite <- concat_map, pages_concat. f_equal. apply firstn_all2.
    unfold newest_first. rewrite sort_desc_length. unfold pages.
    pose proof (Nat.div_mod_eq (List.length mine + 4) 5) as H.
    pose proof (Nat.mod_upper_bound (List.length mine + 4) 5 ltac:(lia)) as H'. lia.
  - apply sort_desc_perm.
  - apply sort_desc_sorted.
  - intros o. unfold mine, orders_of. rewrite filter_In, Z.eqb_eq. reflexivity.
Qed.
Lemma cb_order_view_screen (config : Config) (user_id : Z) (oid : ObjectId) (s : Store) :
  snd (cb_order_view config user_id true oid s)
  = match find (fun o => Nat.eqb (o_id o) oid) (orders s) with
    | None => view_alert "Order not found"
    | Some order =>
        if negb (Z.eqb (o_user_id order) user_id) then view_alert "Not your order"
        else view_details (o_product_name order) (o_qty order) (total_usd order)
               (int_of_float (Qmult (total_usd order) (USD_TO_INR_RATE config)))
               (o_created_at order) oid (delivered order)
    end.
Proof.
  unfold cb_order_view. cbn [negb]. cbv zeta. rewrite upsert_user_orders.
  destruct (find (fun o => Nat.eqb (o_id o) oid) (orders s)) as [order |]; [| reflexivity].
  destruct (negb (Z.eqb (o_user_id order) user_id)); reflexivity.
Qed.

(** X18. [cb_order_view] shows the details of an order -- product,
    quantity, total and the delivered credentials -- only to the user the
    order belongs to: another caller gets "Not your order" and an unknown
    id "Order not found".  The handler writes nothing beyond
    [upsert_user]. *)
Theorem order_view_shows_own_orders_only :
  forall (config : Config) (user_id : Z) (joined : bool) (oid : ObjectId) (s : Store),
    let v := snd (cb_order_view config user_id joined oid s) in
    only_registered user_id s (fst (cb_order_view config user_id joined oid s))
    /\ (forall name qty total total_inr created o dl,
           v = view_details name qty total total_inr created o dl ->
           exists order,
             In order (orders s) /\ o_id order = oid /\ o_user_id order = user_id
             /\ dl = delivered order /\ qty = o_qty order /\ total = total_usd order
             /\ name = o_product_name order /\ o = oid)
    /\ (joined = true ->
        forall order,
          find (fun o => Nat.eqb (o_id o) oid) (orders s) = Some order ->
          o_user_id order <> user_id ->
          v = view_alert "Not your order")
    /\ (joined = true ->
        find (fun o => Nat.eqb (o_id o) oid) (orders s) = None ->
        v = view_alert "Order not found").
Proof.
  intros config user_id joined oid s v. split; [| split; [| split]].
  - unfold cb_order_view. cbv zeta.
    destruct (negb joined); [apply upsert_user_store |].
    destruct (find _ _) as [order |]; [| apply upsert_user_store].
    destruct (negb _); apply upsert_user_store.
  - intros name qty total total_inr created o dl Hv. unfold v in Hv.
    destruct joined; [| unfold cb_order_view in Hv; simpl in Hv; discriminate].
    rewrite cb_order_view_screen in Hv.
    destruct (find (fun o => Nat.eqb (o_id o) oid) (orders s)) as [order |] eqn:Hf;
      [| discriminate].
    destruct (Z.eqb_spec (o_user_id order) user_id) as [Hu | Hu]; cbn [negb] in Hv;
      [| discriminate].
    injection Hv as <- <- <- _ _ <- <-.
    apply find_In in Hf. destruct Hf as [Hin Hid]. apply Nat.eqb_eq in Hid.
    exists order. repeat split; auto.
  - intros -> order Hf Hne. unfold v. rewrite cb_order_view_screen, Hf.
    destruct (Z.eqb_spec (o_user_id order) user_id); [contradiction | reflexivity].
  - intros -> Hf. unfold v. rewrite cb_order_view_screen, Hf. reflexivity.
Qed.

Lemma find_snoc_fresh {A : Type} (f : A -> bool) (l : list A) (x : A) :
  Forall (fun y => f y = false) l -> f x = true -> find f (l ++ [x]) = Some x.
Proof.
  intros Hl Hx. induction Hl as [| y l Hy _ IH]; simpl; [rewrite Hx; reflexivity |].
  rewrite Hy. exact IH.
Qed.

(** X19. A purchase and its order screen: once [cb_confirm] has answered
    with an order id, [cb_order_view] on that id shows the buyer the total
    charged, the time of purchase and exactly the credential lines that
    were delivered (as many as the quantity), and shows any other user
    "Not your order" -- provided no earlier order carries the fresh id. *)
Theorem purchased_order_is_shown_to_its_buyer :
  forall (config : Config) (user_id : Z) (oid : ObjectId) (now : Z) (s : Store)
         (order_id : ObjectId) (dl : list string) (total : Q),
    result_value (run (cb_confirm user_id true oid now) s)
      = confirm_purchased order_id dl total ->
    Forall (fun o => o_id o < next_oid s) (orders s) ->
    let s' := result_store (run (cb_confirm user_id true oid now) s) in
    (exists name qty,
        snd (cb_order_view config user_id true order_id s')
        = view_details name qty total
            (int_of_float (Qmult total (USD_TO_INR_RATE config))) now order_id dl
        /\ Z.of_nat (List.length dl) = qty)
    /\ (forall other, other <> user_id ->
                      snd (cb_order_view config other true order_id s')
                      = view_alert "Not your order").
Proof.
  intros config user_id oid now s order_id dl total Hr Hfresh s'.
  destruct (cb_confirm_success s user_id oid now order_id dl total Hr)
    as (user & c & prod & Hu & Hc & Hcid & Hprod & Hpt & Hst & Htot).
  fold s' in Hst.
  destruct (purchase_success_effect user_id prod (Z.max 1 (cart_qty c)) total now s
              order_id dl Hpt) as (Hlen & Hdl & Hoid & _ & _ & Hord & _).
  rewrite <- Hst in Hord.
  set (order := {| o_id := order_id; o_user_id := user_id; o_product_id := prod_id prod;
                   o_product_name := prod_name prod; o_qty := Z.max 1 (cart_qty c);
                   total_usd := total; delivered := dl; o_created_at := now |}) in *.
  assert (Hf : find (fun o => Nat.eqb (o_id o) order_id) (orders s') = Some order).
  { rewrite Hord. apply find_snoc_fresh; [| apply Nat.eqb_refl].
    eapply Forall_impl; [| exact Hfresh]. simpl. intros o Ho.
    apply Nat.eqb_neq. lia. }
  split.
  - exists (prod_name prod), (Z.max 1 (cart_qty c)). split.
    + rewrite cb_order_view_screen, Hf. cbn [o_user_id order]. rewrite Z.eqb_refl.
      reflexivity.
    + rewrite Hdl, length_map, length_firstn. rewrite length_firstn in Hlen. lia.
  - intros other Hne. rewrite cb_order_view_screen, Hf. cbn [o_user_id order].
    destruct (Z.eqb_spec user_id other); [congruence | reflexivity].
Qed.

Lemma purchased_order_is_shown_to_its_buyer_witness :
  let s' := result_store (run (cb_confirm 1001 true 7 500) scenario_store) in
  (exists dl total,
      result_value (run (cb_confirm 1001 true 7 500) scenario_store)
        = confirm_purchased 30 dl total
      /\ exists name qty total_inr,
           snd (cb_order_view default_config 1001 true 30 s')
           = view_details name qty total total_inr 500 30 dl)
  /\ snd (cb_order_view default_config 2002 true 30 s') = view_alert "Not your order".
Proof.
  destruct (result_value (run (cb_confirm 1001 true 7 500) scenario_store))
    as [text | order_id dl total] eqn:Hr; [vm_compute in Hr; discriminate |].
  assert (order_id = 30) by (vm_compute in Hr; congruence). subst order_id.
  destruct (purchased_order_is_shown_to_its_buyer default_config 1001 7 500 scenario_store
              30 dl total Hr (Forall_nil _)) as [(name & qty & Hview & _) Hother].
  split.
  - exists dl, total. split; [reflexivity |]. exists name, qty. eexists. exact Hview.
  - apply Hother. discriminate.
Defined.

(** ** One user, two QR codes *)

Lemma handle_razorpay_payment_state (user_id : Z) (amount : Q) (qr : string)
    (message_id : Z) (s : Store) :
  result_store (run (handle_razorpay_payment user_id amount (Some qr) message_id) s)
  = set_state
      (set_users s (fst (update_first (user_has_id user_id)
                           (apply_user_update (set_flow None)) (users s))))
      ((user_id, {| qr_message_id := message_id; qr_code_id := qr; qr_amount := amount |})
       :: state_pop user_id (RAZORPAY_STATE s)).
Proof. reflexivity. Qed.

(** X20. A second QR code for the same user replaces the first in
    [RAZORPAY_STATE] (other users' entries stay as they were).  From then on
    the first code's "Cancel Payment" button changes nothing, the first
    code's timer stops at its next poll without touching the new entry, and
    the second code's timer runs to the deadline and clears the entry. *)
Theorem new_qr_code_replaces_the_old_one :
  forall (user_id : Z) (amount1 amount2 : Q) (qr1 qr2 : string) (message1 message2 : Z)
         (s : Store),
    qr1 <> qr2 ->
    let s1 := result_store
                (run (handle_razorpay_payment user_id amount1 (Some qr1) message1) s) in
    let s2 := result_store
                (run (handle_razorpay_payment user_id amount2 (Some qr2) message2) s1) in
    let entry2 := {| qr_message_id := message2; qr_code_id := qr2; qr_amount := amount2 |} in
    state_get user_id (RAZORPAY_STATE s2) = Some entry2
    /\ (forall v, v <> user_id ->
                  state_get v (RAZORPAY_STATE s2) = state_get v (RAZORPAY_STATE s))
    /\ run (cb_cancel_razorpay user_id qr1) s2
       = (s2, tt, [ev (state_dict_get user_id) (Some entry2);
                   ev (logger "User cancelled Razorpay payment") tt])
    /\ result_store (run (handle_razorpay_expiry user_id qr1) s2) = s2
    /\ result_value (run (handle_razorpay_expiry user_id qr1) s2) = timer_stopped
    /\ result_value (run (handle_razorpay_expiry user_id qr2) s2) = timer_expired
    /\ state_get user_id
         (RAZORPAY_STATE (result_store (run (handle_razorpay_expiry user_id qr2) s2)))
       = None.
Proof.
  intros user_id amount1 amount2 qr1 qr2 message1 message2 s Hne s1 s2 entry2.
  assert (Hst : state_get user_id (RAZORPAY_STATE s2) = Some entry2).
  { unfold s2. rewrite handle_razorpay_payment_state. cbn [RAZORPAY_STATE set_state state_get].
    rewrite Z.eqb_refl. reflexivity. }
  assert (Hq1 : String.eqb (qr_code_id entry2) qr1 = false).
  { apply String.eqb_neq. cbn [qr_code_id entry2]. congruence. }
  assert (Hq2 : String.eqb (qr_code_id entry2) qr2 = true) by apply String.eqb_refl.
  split; [exact Hst |]. split.
  { intros v Hv. unfold s2, s1. rewrite !handle_razorpay_payment_state.
    cbn [RAZORPAY_STATE set_state set_users state_get].
    destruct (Z.eqb_spec user_id v) as [E | _]; [congruence |].
    rewrite !state_get_pop. cbn [state_get].
    destruct (Z.eqb_spec user_id v) as [E | _]; [congruence |].
    destruct (Z.eqb_spec v user_id) as [E | _]; [congruence |].
    rewrite state_get_pop.
    destruct (Z.eqb_spec v user_id) as [E | _]; [congruence | reflexivity]. }
  split.
  { unfold cb_cancel_razorpay. rewrite run_Do. cbn [exec]. rewrite Hst, Hq1.
    reflexivity. }
  assert (Hold : wpt (handle_razorpay_expiry user_id qr1)
                   (fun v s' _ => s' = s2 /\ v = timer_stopped) s2).
  { unfold handle_razorpay_expiry. change (Z.to_nat (300 / 60)) with 5.
    apply (razorpay_polls_stop 4 user_id qr1 _ s2); [rewrite Hst; exact Hq1 |].
    intros line. split; reflexivity. }
  apply wpt_run in Hold. destruct Hold as [Hold1 Hold2].
  split; [exact Hold1 |]. split; [exact Hold2 |].
  apply (wpt_run (handle_razorpay_expiry user_id qr2)
           (fun v s' _ => v = timer_expired
                          /\ state_get user_id (RAZORPAY_STATE s') = None)).
  unfold handle_razorpay_expiry. change (Z.to_nat (300 / 60)) with 5.
  apply (razorpay_polls_active 5 user_id qr2 _ s2 entry2 _ Hst Hq2).
  wpt_simpl. intros t0 _ _. split; [reflexivity |].
  rewrite state_get_pop, Z.eqb_refl. reflexivity.
Qed.

Lemma new_qr_code_replaces_the_old_one_witness :
  let s1 := result_store
              (run (handle_razorpay_payment 1001 50 (Some "qr_A") 11) one_user_store) in
  let s2 := result_store (run (handle_razorpay_payment 1001 80 (Some "qr_B") 12) s1) in
  "qr_A" <> "qr_B"
  /\ option_map qr_code_id (state_get 1001 (RAZORPAY_STATE s1)) = Some "qr_A"
  /\ result_value (run (handle_razorpay_expiry 1001 "qr_A") s2) = timer_stopped
  /\ option_map qr_code_id
       (state_get 1001
          (RAZORPAY_STATE (result_store (run (handle_razorpay_expiry 1001 "qr_A") s2))))
     = Some "qr_B".
Proof.
  assert (Hne : "qr_A" <> "qr_B") by discriminate.
  split; [exact Hne |]. split; [reflexivity |].
  destruct (new_qr_code_replaces_the_old_one 1001 50 80 "qr_A" "qr_B" 11 12 one_user_store
              Hne) as (Hst & _ & _ & Hstore & Hvalue & _).
  split; [exact Hvalue |]. rewrite Hstore, Hst. reflexivity.
Defined.

(** ** The proof-based funding flow *)

Lemma fresh_id_not_found (ps : list Payment) (n : ObjectId) (f : Payment -> bool) :
  Forall (fun p => p_id p < n) ps ->
  (forall p, f p = true -> p_id p = n) ->
  find f ps = None.
Proof.
  intros Hfresh Hf. induction Hfresh as [| p ps Hp _ IH]; [reflexivity |].
  simpl. destruct (f p) eqn:E; [apply Hf in E; lia | exact IH].
Qed.

(** X21. The proof-based funding flow, end to end.  The amount a user sends
    for a method other than the two providers is recorded as [amount_inr]
    of a new payment in [await_proof], and the user's flow points at it;
    the screenshot moves that payment to [pending] with the photo attached
    and clears the flow; an admin's approval then marks it approved and
    adds [float(p.get("amount_usd", 0))] to the wallet -- which is 0, as the
    record carries no [amount_usd]: the balance is what it was. *)
Theorem proof_payment_from_amount_to_review :
  forall (config : Config) (user_id admin_id : Z) (u : User) (method : string)
         (message : TextMsg) (created : option string) (message_id : Z) (amount : Z)
         (file_id : string) (s : Store),
    find_user user_id s = Some u ->
    banned u = false ->
    flow u = Some (flow_await_amount method) ->
    String.eqb method "razorpay" = false ->
    String.eqb method "oxapay" = false ->
    money_int (text_decimal message) = Some amount ->
    Forall (fun p => p_id p < next_oid s) (payments s) ->
    is_admin config admin_id = true ->
    let pay_id := next_oid s in
    let doc := manual_payment_doc pay_id user_id method amount in
    let s1 := result_store
                (run (on_text config user_id true message created message_id) s) in
    let s2 := result_store (run (on_photo user_id file_id) s1) in
    let s3 := result_store (run (cb_admin_pay_action config admin_id pay_id act_approve) s2) in
    payments s1 = payments s ++ [doc]
    /\ option_map flow (find_user user_id s1) = Some (Some (flow_await_proof pay_id))
    /\ payments s2 = payments s ++ [apply_payment_update (set_pending_proof file_id) doc]
    /\ option_map flow (find_user user_id s2) = Some None
    /\ option_map p_status (find (payment_matches (by_id pay_id)) (payments s3))
       = Some Approved
    /\ option_map balance_inr (find_user user_id s3) = Some (Qplus (balance_inr u) 0).
Proof.
  intros config user_id admin_id u method message created message_id amount file_id s
         Hu Hb Hfl Hrz Hox Hamt Hfresh Hadm pay_id doc s1 s2 s3.
  assert (Hs1 : s1 = set_users
                       (set_payments (set_next_oid s (S (next_oid s)))
                          (payments s ++ [doc]))
                       (fst (update_first (user_has_id user_id)
                               (apply_user_update (set_flow (Some (flow_await_proof pay_id))))
                               (users s)))).
  { apply (wpt_run (on_text config user_id true message created message_id)
             (fun _ x _ => x = _)).
    unfold on_text. apply wpt_bind. apply wpt_upsert_user.
    intros u1 s0 t Hu1 Ht _ [[Hu' ->] | (Hn & _ & _)]; [| congruence].
    assert (u1 = u) by congruence. subst u1. rewrite Hb. cbn [negb].
    wpt_simpl. fold (find_user user_id s). rewrite Hu, Hfl, Hrz, Hox, Hamt.
    wpt_simpl. reflexivity. }
  assert (Hu1 : find_user user_id s1
                = Some (apply_user_update (set_flow (Some (flow_await_proof pay_id))) u)).
  { rewrite Hs1. unfold find_user. cbn [users set_users].
    rewrite find_user_update, Z.eqb_refl. fold (find_user user_id s). rewrite Hu.
    reflexivity. }
  assert (Hnone : find (payment_matches (by_id_user pay_id user_id)) (payments s) = None).
  { apply (fresh_id_not_found _ (next_oid s)); [exact Hfresh |].
    intros p Hp. simpl in Hp. apply andb_true_iff in Hp. destruct Hp as [Hp _].
    apply Nat.eqb_eq in Hp. exact Hp. }
  assert (Hdoc : payment_matches (by_id_user pay_id user_id) doc = true).
  { simpl. rewrite Nat.eqb_refl, Z.eqb_refl. reflexivity. }
  assert (Hs2 : s2 = set_users
                       (set_payments s1
                          (payments s ++ [apply_payment_update (set_pending_proof file_id) doc]))
                       (fst (update_first (user_has_id user_id)
                               (apply_user_update (set_flow None)) (users s1)))).
  { apply (wpt_run (on_photo user_id file_id) (fun _ x _ => x = _)).
    unfold on_photo. apply wpt_bind. apply wpt_upsert_user.
    intros u1 s0 t Hu1' Ht _ [[Hu' ->] | (Hn & _ & _)]; [| congruence].
    assert (u1 = apply_user_update (set_flow (Some (flow_await_proof pay_id))) u)
      by congruence. subst u1.
    cbn [banned apply_user_update]. rewrite Hb.
    wpt_simpl. fold (find_user user_id s1). rewrite Hu1.
    cbn [flow apply_user_update]. wpt_simpl.
    replace (payments s1) with (payments s ++ [doc]) by (rewrite Hs1; reflexivity).
    rewrite (update_first_snoc_none _ _ _ _ Hnone Hdoc). reflexivity. }
  assert (Hu2 : find_user user_id s2 = Some (apply_user_update (set_flow None) u)).
  { rewrite Hs2. unfold find_user. cbn [users set_users].
    rewrite find_user_update, Z.eqb_refl. fold (find_user user_id s1). rewrite Hu1.
    reflexivity. }
  set (pending := apply_payment_update (set_pending_proof file_id) doc) in *.
  assert (Hf2 : find (payment_matches (by_id pay_id)) (payments s2) = Some pending).
  { rewrite Hs2. cbn [payments set_users set_payments].
    rewrite find_snoc_none.
    - simpl. rewrite Nat.eqb_refl. reflexivity.
    - apply (fresh_id_not_found _ (next_oid s)); [exact Hfresh |].
      intros p Hp. simpl in Hp. apply Nat.eqb_eq in Hp. exact Hp. }
  destruct (review_of_pending_payment config admin_id pay_id s2 pending
              (apply_user_update (set_flow None) u) Hadm Hf2 eq_refl Hu2)
    as [(Happ & Hbal & _) _].
  fold s3 in Happ, Hbal.
  split; [rewrite Hs1; reflexivity |]. split; [rewrite Hu1; reflexivity |].
  split; [rewrite Hs2; reflexivity |]. split; [rewrite Hu2; reflexivity |].
  split; [rewrite Happ; reflexivity |].
  change (p_user_id pending) with user_id in Hbal. rewrite Hbal. reflexivity.
Qed.

Lemma proof_payment_from_amount_to_review_witness :
  let s1 := result_store (run (on_text upi_config 1001 true text_5 None 0) upi_funding_store) in
  let s2 := result_store (run (on_photo 1001 "photo-1") s1) in
  let s3 := result_store (run (cb_admin_pay_action upi_config 7677304116 0 act_approve) s2) in
  map p_status (payments s1) = [AwaitProof]
  /\ map p_status (payments s2) = [Pending]
  /\ map (fun p => (p_status p, p_amount_inr p)) (payments s3) = [(Approved, Some 5%Z)]
  /\ option_map balance_inr (find_user 1001 s3) = Some (0 + 0)%Q.
Proof.
  split; [reflexivity |]. split; [reflexivity |]. split; [reflexivity |].
  exact (proj2 (proj2 (proj2 (proj2 (proj2
           (proof_payment_from_amount_to_review upi_config 1001 7677304116 _ "upi" text_5
              None 0 5 "photo-1" upi_funding_store
              eq_refl eq_refl eq_refl eq_refl eq_refl eq_refl (Forall_nil _) eq_refl)))))).
Defined.
(** ** The shelf and the order history under any requests *)

Ltac no_sale :=
  left; cbn [stocks orders next_oid set_users set_stocks set_orders set_payments
             set_discounts set_state set_next_oid]; repeat split; lia.

Ltac wp_cases :=
  repeat first
    [ progress cbn [wp bind exec fst snd users products stocks orders payments discounts
                    RAZORPAY_STATE next_oid set_users set_stocks set_orders set_payments
                    set_discounts set_state set_next_oid negb]
    | match goal with
      | |- wp (bind (match ?x with _ => _ end) _) _ _ => destruct x eqn:?
      | |- wp (bind (if ?b then _ else _) _) _ _ => destruct b eqn:?
      | |- wp (match ?x with _ => _ end) _ _ => destruct x eqn:?
      | |- wp (if ?b then _ else _) _ _ => destruct b eqn:?
      | |- context [match find ?f ?l with _ => _ end] => destruct (find f l) eqn:?
      | |- context [update_first ?f ?g ?l] => destruct (update_first f g l) eqn:?
      end ].

Lemma sale_step_refl (s : Store) : sale_step s s.
Proof. left. repeat split. lia. Qed.

Lemma oxapay_webhook_orders (config : Config) (data : OxaPayData) (s : Store) :
  wp (oxapay_webhook config data) (fun _ s' => sale_step s s') s.
Proof.
  unfold oxapay_webhook, oxapay_settle, oxapay_approve, oxapay_credit_wallet.
  wp_cases; no_sale.
Qed.

Lemma razorpay_webhook_orders (hmac : string -> string -> string) (config : Config)
    (signature payload : string) (data : RzpData) (s : Store) :
  wp (razorpay_webhook hmac config signature payload data) (fun _ s' => sale_step s s') s.
Proof.
  unfold razorpay_webhook, handle_payment_captured, handle_qr_payment_success,
    razorpay_credit.
  wp_cases; no_sale.
Qed.

Lemma on_text_orders (config : Config) (user_id : Z) (joined : bool) (message : TextMsg)
    (created : option string) (message_id : Z) (s : Store) :
  wp (on_text config user_id joined message created message_id)
     (fun _ s' => sale_step s s') s.
Proof.
  unfold on_text, upsert_user, handle_razorpay_payment, handle_oxapay_payment.
  wp_cases; no_sale.
Qed.

Lemma on_photo_orders (user_id : Z) (file_id : string) (s : Store) :
  wp (on_photo user_id file_id) (fun _ s' => sale_step s s') s.
Proof. unfold on_photo, upsert_user. wp_cases; no_sale. Qed.

Lemma cb_pay_amount_orders (config : Config) (user_id : Z) (joined : bool) (method : string)
    (s : Store) :
  wp (cb_pay_amount config user_id joined method) (fun _ s' => sale_step s s') s.
Proof. unfold cb_pay_amount, upsert_user. wp_cases; no_sale. Qed.

Lemma cb_qty_orders (user_id : Z) (joined : bool) (prod : ObjectId) (qty : Z) (s : Store) :
  wp (cb_qty user_id joined prod qty) (fun _ s' => sale_step s s') s.
Proof. unfold cb_qty, upsert_user. wp_cases; no_sale. Qed.

Lemma cb_cancel_razorpay_orders (user_id : Z) (qr : string) (s : Store) :
  wp (cb_cancel_razorpay user_id qr) (fun _ s' => sale_step s s') s.
Proof. unfold cb_cancel_razorpay, upsert_user. wp_cases; no_sale. Qed.

Lemma cb_cancel_oxapay_orders (user_id : Z) (track_id : string) (s : Store) :
  wp (cb_cancel_oxapay user_id track_id) (fun _ s' => sale_step s s') s.
Proof. unfold cb_cancel_oxapay, upsert_user. wp_cases; no_sale. Qed.

Lemma cb_admin_pay_action_orders (config : Config) (admin_id : Z) (oid : ObjectId)
    (action : PayAction) (s : Store) :
  wp (cb_admin_pay_action config admin_id oid action) (fun _ s' => sale_step s s') s.
Proof. unfold cb_admin_pay_action, upsert_user. wp_cases; no_sale. Qed.

Lemma cb_admin_user_action_orders (config : Config) (admin_id target_id : Z)
    (action : UserAction) (s : Store) :
  wp (cb_admin_user_action config admin_id target_id action) (fun _ s' => sale_step s s') s.
Proof. unfold cb_admin_user_action, upsert_user. wp_cases; no_sale. Qed.

Lemma handle_oxapay_expiry_orders (track_id : string) (s : Store) :
  wp (handle_oxapay_expiry track_id) (fun _ s' => sale_step s s') s.
Proof.
  unfold handle_oxapay_expiry. cbn [wp exec fst snd].
  apply wp_oxapay_expiry_polls; [apply sale_step_refl |].
  unfold oxapay_expiry_at_ttl. wp_cases; no_sale.
Qed.

Lemma handle_razorpay_expiry_orders (user_id : Z) (qr : string) (s : Store) :
  wp (handle_razorpay_expiry user_id qr) (fun _ s' => sale_step s s') s.
Proof.
  unfold handle_razorpay_expiry.
  apply wp_razorpay_expiry_polls; [apply sale_step_refl |].
  wp_cases; no_sale.
Qed.

Lemma cb_confirm_orders (user_id : Z) (joined : bool) (oid : ObjectId) (now : Z) (s : Store) :
  wp (cb_confirm user_id joined oid now) (fun _ s' => sale_step s s') s.
Proof.
  unfold cb_confirm, upsert_user, best_discount_percent, purchase_transaction.
  wp_cases; try no_sale.
  all: match goal with H : Z.ltb _ _ = false |- _ =>
         apply Z.ltb_ge in H; cbn [fst stocks set_users] in H; rewrite length_firstn in H end.
  all: right; match goal with p : Product, c : Cart |- _ =>
         exists (prod_id p), (Z.to_nat (Z.max 1 (cart_qty c))), user_id, now end;
    eexists; cbv zeta;
    cbn [stocks orders next_oid set_users set_stocks set_orders set_payments
         set_discounts set_state set_next_oid];
    repeat split; try reflexivity; cbn [o_id o_qty delivered]; try lia.
  all: rewrite length_firstn; lia.
Qed.

Lemma handle_orders (hmac : string -> string -> string) (config : Config) (req : Request)
    (s : Store) :
  wp (handle hmac config req) (fun _ s' => sale_step s s') s.
Proof.
  destruct req; cbn [handle]; try apply wp_bind.
  - eapply wp_mono; [| apply oxapay_webhook_orders]. intros a s' H; exact H.
  - eapply wp_mono; [| apply razorpay_webhook_orders]. intros a s' H; exact H.
  - apply on_text_orders.
  - apply on_photo_orders.
  - apply cb_pay_amount_orders.
  - apply cb_qty_orders.
  - eapply wp_mono; [| apply cb_confirm_orders]. intros a s' H; exact H.
  - apply cb_cancel_razorpay_orders.
  - apply cb_cancel_oxapay_orders.
  - eapply wp_mono; [| apply handle_oxapay_expiry_orders]. intros a s' H; exact H.
  - eapply wp_mono; [| apply handle_razorpay_expiry_orders]. intros a s' H; exact H.
  - apply cb_admin_pay_action_orders.
  - apply cb_admin_user_action_orders.
Qed.

Lemma sale_step_inv (s s' : Store) : sale_step s s' -> orders_inv s -> orders_inv s'.
Proof.
  intros [(_ & Ho & Hn) | (pid & n & uid & now & o & _ & Ho & Hid & Hn & Hq & Hd & Hdl)]
    [Hall Hnd]; unfold orders_inv.
  - rewrite Ho. split; [| exact Hnd].
    eapply Forall_impl; [| exact Hall]. intros o (H1 & H2 & H3).
    repeat split; [lia | exact H2 | exact H3].
  - rewrite Ho, Hn. split.
    + apply Forall_app. split.
      * eapply Forall_impl; [| exact Hall]. intros o' (H1 & H2 & H3).
        repeat split; [lia | exact H2 | exact H3].
      * constructor; [| constructor]. repeat split; [lia | exact Hq |].
        rewrite Hdl, length_map. exact Hd.
    + rewrite map_app. cbn [map]. apply NoDup_app; [exact Hnd | |].
      * constructor; [intros [] | constructor].
      * intros x Hx [Hx' | []]. subst x. apply in_map_iff in Hx.
        destruct Hx as (o' & Ho' & Hin). rewrite Forall_forall in Hall.
        destruct (Hall o' Hin) as (H1 & _). lia.
Qed.

Lemma sale_step_app (s s' : Store) :
  sale_step s s' -> exists added, orders s' = orders s ++ added.
Proof.
  intros [(_ & Ho & _) | (pid & n & uid & now & o & _ & Ho & _)].
  - exists []. rewrite app_nil_r. exact Ho.
  - exists [o]. exact Ho.
Qed.

Lemma serve_sale_step (hmac : string -> string -> string) (config : Config) (s : Store)
    (req : Request) :
  sale_step s (serve hmac config s req).
Proof.
  unfold serve.
  exact (proj1 (wp_run (handle hmac config req) (fun _ s' => sale_step s s') s)
           (handle_orders hmac config req s)).
Qed.

(** X22. The order history is append-only and well formed under any
    sequence of webhook deliveries, timer runs, payment reviews, bans and
    customer requests: if the stored orders have distinct ids below the next
    fresh id, a quantity of at least one and one delivered line per unit,
    then afterwards the old orders are still there, unchanged and in place,
    and all orders, old and new, have these properties again.  Only
    [purchase_transaction] writes an order. *)
Theorem order_history_is_append_only_and_well_formed (hmac : string -> string -> string)
    (config : Config) (reqs : list Request) (s : Store) :
  orders_inv s ->
  orders_inv (serve_all hmac config reqs s)
  /\ exists added, orders (serve_all hmac config reqs s) = orders s ++ added.
Proof.
  unfold serve_all. revert s. induction reqs as [| r reqs IH]; intros s Hs; cbn [fold_left].
  - split; [exact Hs |]. exists []. symmetry. apply app_nil_r.
  - pose proof (serve_sale_step hmac config s r) as Hstep.
    destruct (IH _ (sale_step_inv _ _ Hstep Hs)) as [Hinv (added & Hadd)].
    split; [exact Hinv |].
    destruct (sale_step_app _ _ Hstep) as (a1 & Ha1).
    exists (a1 ++ added). rewrite Hadd, Ha1. symmetry. apply app_assoc.
Qed.

Lemma order_history_is_append_only_and_well_formed_witness :
  let reqs := [req_confirm 1001 true 7 500; req_qty 1001 true 7 1;
               req_confirm 1001 true 7 600] in
  let s' := serve_all constant_digest default_config reqs scenario_store in
  orders_inv scenario_store
  /\ map o_id (orders s') = [30]
  /\ orders_inv s'.
Proof.
  assert (H0 : orders_inv scenario_store) by (split; constructor).
  split; [exact H0 |]. split; [reflexivity |].
  exact (proj1 (order_history_is_append_only_and_well_formed constant_digest
                  default_config _ scenario_store H0)).
Defined.
(** ** Sold items and units ordered *)

Lemma stock_kept_refl (a : Stock) : stock_kept a a.
Proof. unfold stock_kept. tauto. Qed.

Lemma stock_kept_trans (a b c : Stock) : stock_kept a b -> stock_kept b c -> stock_kept a c.
Proof.
  intros (H1 & H2 & H3 & H4 & H5) (G1 & G2 & G3 & G4 & G5).
  repeat split; try congruence.
  intros Hs. pose proof (H5 Hs) as Hb. subst b. exact (G5 Hs).
Qed.

Lemma Forall2_stock_kept_refl (l : list Stock) : Forall2 stock_kept l l.
Proof. induction l; constructor; [apply stock_kept_refl | assumption]. Qed.

Lemma Forall2_stock_kept_trans (l1 l2 l3 : list Stock) :
  Forall2 stock_kept l1 l2 -> Forall2 stock_kept l2 l3 -> Forall2 stock_kept l1 l3.
Proof.
  intros H. revert l3. induction H as [| a b l1 l2 Hab _ IH]; intros l3 H3.
  - inversion H3. constructor.
  - inversion H3 as [| ? c ? l3' Hbc H3']; subst. constructor.
    + exact (stock_kept_trans _ _ _ Hab Hbc).
    + apply IH. exact H3'.
Qed.

Lemma Forall2_map_in {A : Type} (R : A -> A -> Prop) (f : A -> A) (l : list A) :
  (forall x, In x l -> R x (f x)) -> Forall2 R l (map f l).
Proof.
  induction l as [| a l IH]; intros H; cbn [map]; constructor.
  - apply H. left. reflexivity.
  - apply IH. intros x Hx. apply H. right. exact Hx.
Qed.

Lemma Forall2_stock_kept_ids (l l' : list Stock) :
  Forall2 stock_kept l l' -> map s_id l' = map s_id l.
Proof.
  induction 1 as [| a b l l' (H & _) _ IH]; [reflexivity |].
  cbn [map]. rewrite H, IH. reflexivity.
Qed.

(** Marking the picked items touches available items only. *)
Lemma sale_keeps_sold (pid : ObjectId) (n : nat) (uid now : Z) (l : list Stock) :
  NoDup (map s_id l) ->
  Forall2 stock_kept l
    (map (fun st => if mem_oid (s_id st)
                         (map s_id (firstn n (filter (stock_is_available pid) l)))
                    then mark_sold uid now st else st) l).
Proof.
  intros Hnd. apply Forall2_map_in. intros st Hst.
  destruct (mem_oid _ _) eqn:Em; [| apply stock_kept_refl].
  apply mem_oid_In, in_map_iff in Em. destruct Em as (x & Hid & Hx).
  apply In_firstn_list, filter_In in Hx. destruct Hx as [Hxl Hav].
  assert (x = st) by (eapply NoDup_map_inj; eauto). subst x.
  unfold stock_kept, mark_sold. cbn. repeat split.
  intros Hs. unfold stock_is_available in Hav. rewrite Hs, andb_false_r in Hav.
  discriminate.
Qed.

Lemma sale_step_stock_kept (s s' : Store) :
  sale_step s s' -> NoDup (map s_id (stocks s)) -> Forall2 stock_kept (stocks s) (stocks s').
Proof.
  intros [(Hs & _) | (pid & n & uid & now & o & Hs & _)] Hnd.
  - rewrite Hs. apply Forall2_stock_kept_refl.
  - cbv zeta in Hs. rewrite Hs. apply sale_keeps_sold. exact Hnd.
Qed.

(** X23. An item once sold stays sold to its buyer: if the shelf's ids are
    distinct, then after any sequence of webhook deliveries, timer runs,
    payment reviews, bans and customer requests (text messages of admins,
    whose stock flows edit the shelf, left aside) the shelf holds the same
    items in the same places, with the same product and credentials, and
    every item that was already sold is unchanged, buyer and time of sale
    included. *)
Theorem sold_items_are_never_sold_again (hmac : string -> string -> string)
    (config : Config) (reqs : list Request) (s : Store) :
  (forall r, In r reqs -> admin_text config r = false) ->
  NoDup (map s_id (stocks s)) ->
  Forall2 stock_kept (stocks s) (stocks (serve_all hmac config reqs s)).
Proof.
  intros _.
  unfold serve_all. revert s. induction reqs as [| r reqs IH]; intros s Hnd; cbn [fold_left].
  - apply Forall2_stock_kept_refl.
  - pose proof (sale_step_stock_kept _ _ (serve_sale_step hmac config s r) Hnd) as H1.
    eapply Forall2_stock_kept_trans; [exact H1 |]. apply IH.
    rewrite (Forall2_stock_kept_ids _ _ H1). exact Hnd.
Qed.

Lemma sold_items_are_never_sold_again_witness :
  let s1 := serve constant_digest default_config scenario_store (req_confirm 1001 true 7 500) in
  NoDup (map s_id (stocks s1))
  /\ map sold_to (stocks s1) = [Some 1001%Z; Some 1001%Z; None]
  /\ Forall2 stock_kept (stocks s1)
       (stocks (serve_all constant_digest default_config
                  [req_pay_amount 2002 true "oxapay"; req_on_text 2002 true text_5 None 0;
                   req_qty 2002 true 7 1; req_confirm 2002 true 7 600] s1)).
Proof.
  cbv zeta.
  assert (Hnd : NoDup (map s_id (stocks (serve constant_digest default_config scenario_store
                                           (req_confirm 1001 true 7 500))))).
  { repeat constructor; simpl; intuition discriminate. }
  split; [exact Hnd |]. split; [reflexivity |].
  refine (sold_items_are_never_sold_again constant_digest default_config _ _ _ Hnd).
  intros r [<- | [<- | [<- | [<- | []]]]]; reflexivity.
Defined.

Lemma count_sold_cons (x : Stock) (l : list Stock) :
  count_sold (x :: l)
  = (match s_status x with sold => 1 | available => 0 end) + count_sold l.
Proof. unfold count_sold. cbn [filter]. destruct (s_status x); reflexivity. Qed.

(** Marking the picked items raises the number of sold items by their number. *)
Lemma count_sold_after_sale (pid : ObjectId) (uid now : Z) (l : list Stock) :
  forall n,
    NoDup (map s_id l) ->
    count_sold
      (map (fun st => if mem_oid (s_id st)
                           (map s_id (firstn n (filter (stock_is_available pid) l)))
                      then mark_sold uid now st else st) l)
    = count_sold l + List.length (firstn n (filter (stock_is_available pid) l)).
Proof.
  induction l as [| x l IH]; intros n Hnd; [destruct n; reflexivity |].
  inversion Hnd as [| ? ? Hx Hnd']; subst.
  cbn [filter]. destruct (stock_is_available pid x) eqn:Ex.
  - destruct n as [| m].
    + cbn [firstn map mem_oid List.length]. rewrite map_id. lia.
    + cbn [firstn map mem_oid List.length]. rewrite Nat.eqb_refl. cbn [orb].
      rewrite !count_sold_cons. cbn [mark_sold s_status].
      unfold stock_is_available in Ex. apply andb_true_iff in Ex. destruct Ex as [_ Ex].
      destruct (s_status x); [| discriminate].
      rewrite (map_ext_in _
                 (fun st => if mem_oid (s_id st)
                                 (map s_id (firstn m (filter (stock_is_available pid) l)))
                            then mark_sold uid now st else st)).
      * rewrite (IH m Hnd'). lia.
      * intros y Hy.
        destruct (Nat.eqb_spec (s_id y) (s_id x)) as [E | _]; [| reflexivity].
        exfalso. apply Hx. rewrite <- E. apply in_map. exact Hy.
  - cbn [map].
    destruct (mem_oid (s_id x) (map s_id (firstn n (filter (stock_is_available pid) l))))
      eqn:Em.
    + exfalso. apply Hx. apply mem_oid_In in Em.
      exact (picked_ids_on_shelf _ l n _ Em).
    + rewrite !count_sold_cons, (IH n Hnd'). lia.
Qed.

Lemma units_ordered_app (l1 l2 : list Order) :
  units_ordered (l1 ++ l2) = (units_ordered l1 + units_ordered l2)%Z.
Proof.
  unfold units_ordered. induction l1 as [| o l1 IH]; cbn [app fold_right]; [lia |].
  rewrite IH. lia.
Qed.

Lemma sale_step_units (s s' : Store) :
  sale_step s s' -> NoDup (map s_id (stocks s)) ->
  exists added,
    orders s' = orders s ++ added
    /\ Z.of_nat (count_sold (stocks s'))
       = (Z.of_nat (count_sold (stocks s)) + units_ordered added)%Z.
Proof.
  intros [(Hs & Ho & _) | (pid & n & uid & now & o & Hs & Ho & _ & _ & _ & Hq & _)] Hnd.
  - exists []. rewrite app_nil_r, Hs. cbn. split; [exact Ho | lia].
  - exists [o]. split; [exact Ho |]. cbv zeta in Hs, Hq.
    rewrite Hs, count_sold_after_sale by exact Hnd. cbn. lia.
Qed.

(** X24. Units sold equal units ordered: if the shelf's ids are distinct,
    then over any sequence of webhook deliveries, timer runs, payment
    reviews, bans and customer requests (text messages of admins left
    aside) the number of sold items grows by exactly the sum of the
    quantities of the orders recorded meanwhile. *)
Theorem sold_items_match_ordered_units (hmac : string -> string -> string)
    (config : Config) (reqs : list Request) (s : Store) :
  (forall r, In r reqs -> admin_text config r = false) ->
  NoDup (map s_id (stocks s)) ->
  exists added,
    orders (serve_all hmac config reqs s) = orders s ++ added
    /\ Z.of_nat (count_sold (stocks (serve_all hmac config reqs s)))
       = (Z.of_nat (count_sold (stocks s)) + units_ordered added)%Z.
Proof.
  intros _.
  unfold serve_all. revert s. induction reqs as [| r reqs IH]; intros s Hnd; cbn [fold_left].
  - exists []. rewrite app_nil_r. cbn. split; [reflexivity | lia].
  - pose proof (serve_sale_step hmac config s r) as Hstep.
    destruct (sale_step_units _ _ Hstep Hnd) as (a1 & Ho1 & Hc1).
    destruct (IH (serve hmac config s r)) as (a2 & Ho2 & Hc2).
    { rewrite (Forall2_stock_kept_ids _ _ (sale_step_stock_kept _ _ Hstep Hnd)). exact Hnd. }
    exists (a1 ++ a2). split.
    + rewrite Ho2, Ho1. symmetry. apply app_assoc.
    + rewrite Hc2, Hc1, units_ordered_app. lia.
Qed.

Lemma sold_items_match_ordered_units_witness :
  let s' := serve_all constant_digest default_config
              [req_confirm 1001 true 7 500; req_qty 1001 true 7 1;
               req_confirm 1001 true 7 600] scenario_store in
  NoDup (map s_id (stocks scenario_store))
  /\ count_sold (stocks s') = 2
  /\ exists added,
       orders s' = added /\ Z.of_nat (count_sold (stocks s')) = units_ordered added.
Proof.
  cbv zeta.
  assert (Hnd : NoDup (map s_id (stocks scenario_store))).
  { repeat constructor; simpl; intuition discriminate. }
  split; [exact Hnd |]. split; [reflexivity |].
  assert (Hr : forall r, In r [req_confirm 1001 true 7 500; req_qty 1001 true 7 1;
                                 req_confirm 1001 true 7 600] ->
                    admin_text default_config r = false).
  { intros r [<- | [<- | [<- | []]]]; reflexivity. }
  destruct (sold_items_match_ordered_units constant_digest default_config
              _ scenario_store Hr Hnd) as (added & Ho & Hc).
  exists added. split; [exact Ho | exact Hc].
Defined.
(** ** The quote and the charge *)

Lemma cb_qty_cart (user_id : Z) (oid : ObjectId) (qty_s : Z) (s : Store) :
  let s1 := result_store (run (cb_qty user_id true oid qty_s) s) in
  (exists u, find_user user_id s1 = Some u
             /\ cart u = Some {| cart_product_id := oid; cart_qty := Z.max 1 qty_s |}).
Proof.
  cbv zeta.
  apply (proj1 (wp_run (cb_qty user_id true oid qty_s)
                  (fun _ s' => exists u, find_user user_id s' = Some u
                     /\ cart u = Some {| cart_product_id := oid;
                                         cart_qty := Z.max 1 qty_s |}) s)).
  unfold cb_qty. apply wp_bind. apply wp_upsert_user.
  - intros u Hu. cbn [negb wp exec fst snd]. unfold find_user. cbn [users set_users].
    rewrite find_user_update, Z.eqb_refl. unfold find_user in Hu. rewrite Hu.
    cbn [option_map]. eexists. split; [reflexivity |]. reflexivity.
  - intros Hn Hu. cbn [negb wp exec fst snd]. unfold find_user. cbn [users set_users].
    rewrite find_user_update, Z.eqb_refl. unfold find_user in Hu.
    cbn [users set_users] in Hu. rewrite Hu.
    cbn [option_map]. eexists. split; [reflexivity |]. reflexivity.
Qed.

Lemma best_discount_percent_value (pid : ObjectId) (qty : Z) (s : Store) :
  result_value (run (best_discount_percent pid qty) s)
  = match find (fun d => Nat.eqb (d_product_id d) pid) (discounts s) with
    | None => 0%Z
    | Some d => best_of_rules (rules d) qty 0
    end.
Proof.
  unfold best_discount_percent, result_value. cbn [run exec fst snd].
  destruct (find _ (discounts s)); reflexivity.
Qed.

Lemma quote_total_eq (unit : Q) (qty pc : Z) :
  Qeq (Qmult (Qmult unit (float_of_int qty)) (Qminus 1 (Qdiv (float_of_int pc) 100)))
      (order_total unit qty pc).
Proof. unfold order_total, Qminus, Qdiv. ring. Qed.

(** X25. The quote and the charge.  After the customer has picked a
    quantity ([cb_qty]), whenever [cb_confirm] completes the purchase, as
    many credential lines as [max(1, qty)] are delivered and the total
    charged is the discounted total for that quantity.  The screen [cb_buy]
    showed just before carried a quote.  When the product id in the callback
    data is spelt as [str] spells it, the quote is for that quantity, the
    quantity was in stock according to the quote and the total quoted equals
    the total charged (as exact numbers).  When it is spelt otherwise, the
    quote is for one unit, whatever quantity is then delivered and charged:
    [render_product_detail] compares the cart's text with
    [str(prod["_id"])], [cb_confirm] with the callback's text. *)
Theorem confirmed_purchase_and_its_quote (user_id : Z) (oid : ObjectId)
    (qty_s now : Z) (canonical : bool) (s : Store) (order_id : ObjectId) (dl : list string)
    (total : Q) :
  let s1 := result_store (run (cb_qty user_id true oid qty_s) s) in
  let s2 := fst (cb_buy user_id true oid canonical s1) in
  result_value (run (cb_confirm user_id true oid now) s2)
    = confirm_purchased order_id dl total ->
  exists prod q,
    find (fun p => Nat.eqb (prod_id p) oid && enabled p) (products s1) = Some prod
    /\ snd (cb_buy user_id true oid canonical s1) = buy_confirm_purchase q
    /\ Z.of_nat (List.length dl) = Z.max 1 qty_s
    /\ total = order_total (unit_price prod) (Z.max 1 qty_s)
                 (result_value (run (best_discount_percent oid (Z.max 1 qty_s)) s1))
    /\ q_qty q = (if canonical then Z.max 1 qty_s else 1%Z)
    /\ (canonical = true ->
        (q_qty q <= Z.of_nat (q_stock_count q))%Z /\ Qeq (q_total q) total).
Proof.
  cbv zeta. destruct (cb_qty_cart user_id oid qty_s s) as (u & Hu & Hc).
  set (s1 := result_store (run (cb_qty user_id true oid qty_s) s)) in *.
  assert (Hs : result_store (run (upsert_user user_id) s1) = s1).
  { destruct (upsert_user_store user_id s1) as [E | [Hn _]]; [exact E |].
    congruence. }
  unfold cb_buy. rewrite Hs. cbn [negb fst snd].
  intros Hr.
  assert (Hs2 : fst (match find (fun p => Nat.eqb (prod_id p) oid && enabled p) (products s1),
                           find_user user_id s1 with
                     | Some prod, Some user =>
                         (s1, buy_confirm_purchase
                                (render_product_detail prod user canonical s1))
                     | _, _ => (s1, buy_not_found)
                     end) = s1).
  { destruct (find _ (products s1)); [destruct (find_user user_id s1) |]; reflexivity. }
  rewrite Hs2 in Hr.
  destruct (cb_confirm_success _ _ _ _ _ _ _ Hr)
    as (u' & c & prod & Hu' & Hc' & _ & Hp & Hpt & _ & Ht).
  rewrite Hu in Hu'. injection Hu' as <-. rewrite Hc in Hc'. injection Hc' as <-.
  cbn [cart_qty] in *. rewrite Hp, Hu. cbn [snd].
  assert (Hid : prod_id prod = oid).
  { apply find_some in Hp. destruct Hp as [_ Hp]. apply andb_true_iff in Hp.
    apply Nat.eqb_eq. tauto. }
  destruct (purchase_success_effect _ _ _ _ _ _ _ _ Hpt) as (Hlen & Hdl & _).
  cbv zeta in Hlen, Hdl. unfold available_stock in Hlen, Hdl.
  rewrite Z.max_r in Hpt, Ht, Hlen, Hdl by lia.
  rewrite Hid in Ht. rewrite <- best_discount_percent_value in Ht.
  rewrite length_firstn in Hlen.
  exists prod. eexists. split; [reflexivity |]. split; [reflexivity |].
  unfold render_product_detail. rewrite Hc. cbn [cart_product_id cart_qty q_qty
    q_stock_count q_total]. rewrite Hid, Nat.eqb_refl. cbn [andb].
  split; [rewrite Hdl, length_map, length_firstn; lia |].
  split; [exact Ht |].
  split; [reflexivity |].
  intros ->. split; [rewrite <- Hid; lia |].
  rewrite quote_total_eq, <- Ht. reflexivity.
Qed.

Lemma confirmed_purchase_and_its_quote_witness :
  let s1 := result_store (run (cb_qty 1001 true 7 2) scenario_store) in
  exists dl total q q',
    result_value (run (cb_confirm 1001 true 7 500) (fst (cb_buy 1001 true 7 true s1)))
      = confirm_purchased 30 dl total
    /\ List.length dl = 2 /\ Qeq total 72
    /\ snd (cb_buy 1001 true 7 true s1) = buy_confirm_purchase q
    /\ q_qty q = 2%Z /\ q_discount_percent q = 10%Z /\ Qeq (q_total q) total
    /\ snd (cb_buy 1001 true 7 false s1) = buy_confirm_purchase q'
    /\ q_qty q' = 1%Z /\ Qeq (q_total q') 40.
Proof.
  cbv zeta.
  destruct (result_value (run (cb_confirm 1001 true 7 500)
              (fst (cb_buy 1001 true 7 true
                      (result_store (run (cb_qty 1001 true 7 2) scenario_store))))))
    as [text | order_id dl total] eqn:Hr; [vm_compute in Hr; discriminate |].
  assert (order_id = 30) as -> by (vm_compute in Hr; congruence).
  destruct (confirmed_purchase_and_its_quote 1001 7 2 500 true scenario_store
              30 dl total Hr) as (prod & q & _ & Hq & Hlen & _ & Hqty & Hcan).
  destruct (Hcan eq_refl) as [_ Htot].
  exists dl, total, q. eexists.
  split; [reflexivity |]. split; [lia |].
  split; [vm_compute in Hr; injection Hr as _ <-; reflexivity |].
  split; [exact Hq |]. split; [exact Hqty |].
  split; [vm_compute in Hq; injection Hq as <-; reflexivity |].
  split; [exact Htot |].
  split; [vm_compute; reflexivity |]. split; reflexivity.
Defined.
(** ** Discount rules and the charge *)

Lemma parse_rule_lines_range (lines : list (list (option Z))) :
  Forall rule_in_range (parse_rule_lines lines).
Proof.
  induction lines as [| ln r IH]; cbn [parse_rule_lines]; [constructor |].
  destruct (parse_rule_line ln) as [rule |] eqn:E; [| exact IH].
  constructor; [| exact IH].
  unfold parse_rule_line in E.
  destruct ln as [| [x |] [| [y |] [| ? ?]]]; try discriminate.
  injection E as <-. exists (Z.max 1 x), (Z.max 0 (Z.min 100 y)). cbn. repeat split; lia.
Qed.

Lemma insert_rule_Forall (P : Rule -> Prop) (r : Rule) (l : list Rule) :
  P r -> Forall P l -> Forall P (insert_rule r l).
Proof.
  intros Hr. induction 1 as [| x t Hx Ht IH]; cbn [insert_rule]; [repeat constructor; auto |].
  destruct (Z.ltb _ _); repeat constructor; auto.
Qed.

Lemma sort_rules_Forall (P : Rule -> Prop) (l : list Rule) :
  Forall P l -> Forall P (sort_rules l).
Proof.
  unfold sort_rules. assert (G : forall acc, Forall P acc -> Forall P l ->
    Forall P (fold_left (fun acc r => insert_rule r acc) l acc)).
  { induction l as [| r l IH]; intros acc Ha Hl; cbn [fold_left]; [exact Ha |].
    inversion Hl; subst. apply IH; [apply insert_rule_Forall |]; assumption. }
  intros H. apply G; [constructor | exact H].
Qed.

Lemma best_of_rules_range (rs : list Rule) (qty : Z) :
  Forall rule_in_range rs ->
  forall best, (0 <= best <= 100)%Z -> (0 <= best_of_rules rs qty best <= 100)%Z.
Proof.
  induction 1 as [| r rs (q & p & Hq & Hp & _ & Hr) _ IH]; intros best Hb;
    cbn [best_of_rules]; [exact Hb |].
  rewrite Hq, Hp. destruct (Z.geb qty q); apply IH; lia.
Qed.

Lemma order_total_range (unit : Q) (qty pc : Z) :
  Qle 0 unit -> (0 <= qty)%Z -> (0 <= pc <= 100)%Z ->
  Qle 0 (order_total unit qty pc) /\ Qle (order_total unit qty pc) (Qmult unit (float_of_int qty)).
Proof.
  intros Hu Hq [Hp0 Hp1]. unfold order_total, float_of_int.
  assert (H0 : Qle 0 (inject_Z qty)) by (change (Qle (inject_Z 0) (inject_Z qty)); rewrite <- Zle_Qle; exact Hq).
  assert (H1 : Qle 0 (inject_Z pc)) by (change (Qle (inject_Z 0) (inject_Z pc)); rewrite <- Zle_Qle; exact Hp0).
  assert (H2 : Qle (inject_Z pc) 100) by (change (Qle (inject_Z pc) (inject_Z 100)); rewrite <- Zle_Qle; exact Hp1).
  assert (Hs : Qle 0 (unit * inject_Z qty)) by (apply Qmult_le_0_compat; assumption).
  set (sub := (unit * inject_Z qty)%Q) in *.
  set (x := inject_Z pc) in *.
  unfold Qdiv. change (/ 100)%Q with (1 # 100)%Q.
  split; nra.
Qed.

Lemma insert_rule_perm (r : Rule) (l : list Rule) : Permutation (insert_rule r l) (r :: l).
Proof.
  induction l as [| x t IH]; cbn [insert_rule]; [reflexivity |].
  destruct (Z.ltb _ _); [reflexivity |]. rewrite IH. apply perm_swap.
Qed.

Lemma insert_rule_sorted (r : Rule) (l : list Rule) :
  StronglySorted (fun a b => (rule_key a <= rule_key b)%Z) l ->
  StronglySorted (fun a b => (rule_key a <= rule_key b)%Z) (insert_rule r l).
Proof.
  induction l as [| x t IH]; cbn [insert_rule]; intros Hs; [repeat constructor |].
  inversion Hs as [| ? ? Ht Hx]; subst.
  destruct (Z.ltb_spec (rule_key r) (rule_key x)) as [H | H].
  - constructor; [exact Hs |]. constructor; [lia |].
    eapply Forall_impl; [| exact Hx]. cbn. intros a Ha. lia.
  - constructor; [apply IH; exact Ht |].
    eapply Permutation_Forall; [symmetry; apply insert_rule_perm |].
    constructor; [lia | exact Hx].
Qed.

Lemma sort_rules_sorted (l : list Rule) :
  StronglySorted (fun a b => (rule_key a <= rule_key b)%Z) (sort_rules l).
Proof.
  unfold sort_rules.
  assert (G : forall acc, StronglySorted (fun a b => (rule_key a <= rule_key b)%Z) acc ->
    StronglySorted (fun a b => (rule_key a <= rule_key b)%Z)
      (fold_left (fun acc r => insert_rule r acc) l acc)).
  { induction l as [| r l IH]; intros acc Ha; cbn [fold_left]; [exact Ha |].
    apply IH, insert_rule_sorted, Ha. }
  apply G. constructor.
Qed.

(** X26. Rules entered through the admin's discount flow keep the charge in
    bounds: whatever the message says, the stored rules are sorted by
    min_qty, each has min_qty at least 1 and a percent from 0 to 100, so for
    a price that is not negative and any quantity from 1 the best discount
    is from 0 to 100 and the total [cb_confirm] computes lies between 0 and
    the undiscounted subtotal. *)
Theorem admin_discount_rules_keep_the_charge_in_bounds (lines : list (list (option Z)))
    (unit : Q) (qty : Z) :
  Qle 0 unit -> (1 <= qty)%Z ->
  let stored := discount_rules_of_text lines in
  let pc := best_of_rules stored qty 0 in
  Forall rule_in_range stored
  /\ StronglySorted (fun a b => (rule_key a <= rule_key b)%Z) stored
  /\ (0 <= pc <= 100)%Z
  /\ Qle 0 (order_total unit qty pc)
  /\ Qle (order_total unit qty pc) (Qmult unit (float_of_int qty)).
Proof.
  intros Hu Hq. cbv zeta.
  assert (Hr : Forall rule_in_range (discount_rules_of_text lines))
    by apply sort_rules_Forall, parse_rule_lines_range.
  assert (Hp : (0 <= best_of_rules (discount_rules_of_text lines) qty 0 <= 100)%Z)
    by (apply best_of_rules_range; [exact Hr | lia]).
  split; [exact Hr |]. split; [apply sort_rules_sorted |]. split; [exact Hp |].
  apply order_total_range; [exact Hu | lia | exact Hp].
Qed.

Lemma admin_discount_rules_keep_the_charge_in_bounds_witness :
  let lines := [[Some 5%Z; Some 250%Z]; [Some 2%Z]; [None; Some 10%Z];
                [Some 0%Z; Some (-5)%Z]; [Some 3%Z; Some 20%Z]] in
  discount_rules_of_text lines
  = [ {| min_qty := Some 1%Z; percent := Some 0%Z |};
      {| min_qty := Some 3%Z; percent := Some 20%Z |};
      {| min_qty := Some 5%Z; percent := Some 100%Z |} ]
  /\ best_of_rules (discount_rules_of_text lines) 6 0 = 100%Z
  /\ Qle 0 (order_total 40 6 (best_of_rules (discount_rules_of_text lines) 6 0)).
Proof.
  cbv zeta. split; [reflexivity |]. split; [reflexivity |].
  refine (proj1 (proj2 (proj2 (proj2
    (admin_discount_rules_keep_the_charge_in_bounds _ 40 6 _ _))))).
  - discriminate.
  - lia.
Defined.
(** ** The category keyboard *)

Lemma mem_string_In (x : string) (l : list string) : mem_string x l = true <-> In x l.
Proof.
  induction l as [| y r IH]; cbn [mem_string In]; [split; [discriminate | tauto] |].
  rewrite orb_true_iff, IH, String.eqb_eq. split; intros [H | H]; auto.
Qed.

Lemma kb_categories_loop_data (categories : list Category) :
  forall seen,
    NoDup (map b_callback_data (kb_categories_loop categories seen))
    /\ (forall b, In b (kb_categories_loop categories seen) ->
          exists c, In c categories /\ ~ In (cid_s c) seen
                    /\ b = category_button (str_or (cat_title c) (cid_s c)) (cid_s c))
    /\ (forall c, In c categories -> ~ In (cid_s c) seen ->
          exists b, In b (kb_categories_loop categories seen)
                    /\ b_callback_data b = String.append "cat:" (cid_s c)).
Proof.
  induction categories as [| c r IH]; intros seen; cbn [kb_categories_loop].
  - split; [constructor |]. split; [intros b [] | intros c []].
  - destruct (mem_string (cid_s c) seen) eqn:Em.
    + destruct (IH seen) as (Hnd & Hfrom & Hall). split; [exact Hnd |]. split.
      * intros b Hb. destruct (Hfrom b Hb) as (c' & Hc' & Hs & E).
        exists c'. split; [right; exact Hc' |]. split; assumption.
      * intros c' [<- | Hc'] Hs.
        -- apply mem_string_In in Em. contradiction.
        -- apply Hall; assumption.
    + destruct (IH (cid_s c :: seen)) as (Hnd & Hfrom & Hall).
      assert (Hc : ~ In (cid_s c) seen).
      { intros H. apply mem_string_In in H. congruence. }
      split; [| split].
      * cbn [map b_callback_data]. constructor; [| exact Hnd].
        intros Hin. apply in_map_iff in Hin. destruct Hin as (b & Eb & Hb).
        destruct (Hfrom b Hb) as (c' & _ & Hs & E). rewrite E in Eb.
        cbn in Eb. injection Eb as Eb. apply Hs. left. symmetry. exact Eb.
      * intros b [<- | Hb].
        -- exists c. split; [left; reflexivity |]. split; [exact Hc | reflexivity].
        -- destruct (Hfrom b Hb) as (c' & Hc' & Hs & E).
           exists c'. split; [right; exact Hc' |]. split; [| exact E].
           intros H. apply Hs. right. exact H.
      * intros c' [<- | Hc'] Hs.
        -- eexists. split; [left; reflexivity | reflexivity].
        -- destruct (String.eqb_spec (cid_s c) (cid_s c')) as [E | E].
           ++ eexists. split; [left; reflexivity |]. cbn [b_callback_data].
              rewrite E. reflexivity.
           ++ destruct (Hall c' Hc') as (b & Hb & Eb).
              { intros [H | H]; [exact (E H) | exact (Hs H)]. }
              exists b. split; [right; exact Hb | exact Eb].
Qed.

(** X27. The category keyboard has one button per category id: whatever
    the list of category documents (duplicates, missing or empty
    [category_id], missing title), no two buttons of [kb_categories] carry
    the same callback data, every category's id is behind some button, every
    button but the last is that of a listed category, with its title (or
    its id, when the title is missing or empty) as text, and the last button
    is Back to [home]. *)
Theorem category_keyboard_has_one_button_per_id (categories : list Category) :
  NoDup (map b_callback_data (kb_categories categories))
  /\ (forall c, In c categories ->
        In (String.append "cat:" (cid_s c)) (map b_callback_data (kb_categories categories)))
  /\ (forall b, In b (kb_categories categories) ->
        b = back_button
        \/ exists c, In c categories
                     /\ b = category_button (str_or (cat_title c) (cid_s c)) (cid_s c))
  /\ last (kb_categories categories) back_button = back_button
  /\ List.length (kb_categories categories) <= S (List.length categories).
Proof.
  unfold kb_categories.
  destruct (kb_categories_loop_data categories []) as (Hnd & Hfrom & Hall).
  split; [| split; [| split; [| split]]].
  - rewrite map_app. apply NoDup_app; [exact Hnd | repeat constructor; intros [] |].
    intros x Hx [<- | []]. apply in_map_iff in Hx. destruct Hx as (b & Eb & Hb).
    destruct (Hfrom b Hb) as (c & _ & _ & E). rewrite E in Eb. discriminate.
  - intros c Hc. destruct (Hall c Hc) as (b & Hb & Eb); [intros [] |].
    rewrite map_app. apply in_or_app. left. rewrite <- Eb. apply in_map. exact Hb.
  - intros b Hb. apply in_app_or in Hb. destruct Hb as [Hb | [<- | []]].
    + right. destruct (Hfrom b Hb) as (c & Hc & _ & E). exists c. split; assumption.
    + left. reflexivity.
  - apply last_last.
  - rewrite length_app. cbn [List.length].
    assert (G : forall l seen, List.length (kb_categories_loop l seen) <= List.length l).
    { induction l as [| c r IH]; intros seen; cbn [kb_categories_loop List.length]; [lia |].
      destruct (mem_string _ _); cbn [List.length]; [specialize (IH seen) |
        specialize (IH (cid_s c :: seen))]; lia. }
    specialize (G categories []). lia.
Qed.
